(** * MKL convolution and fused matmul kernels: primitive dispatch and caching

    A shallow embedding of [tensorflow/core/kernels/mkl/mkl_conv_ops.cc]
    (the convolution kernels [MklConvOp], [MklFusedConvOp],
    [MklFusedDepthwiseConvOp] and the primitive [MklConvFwdPrimitive]) and of
    the fused matmul kernel [MklFusedMatMulOp] that follows it in the same
    file.  Kernel bodies are written in a small state monad whose control
    flow has the three outcomes the C++ has: fall through, [return;] and a
    backend exception in flight. *)

From Stdlib Require Import ZArith List String Ascii Bool Lia Floats.
From stdpp Require Import base decidable option list strings pretty.
Import ListNotations.
Local Open Scope string_scope.
Local Open Scope Z_scope.

(** ** The status channel *)

Module Status.

Inductive Code := INVALID_ARGUMENT | UNIMPLEMENTED | ABORTED | NOT_FOUND.

Inductive t := OK | Error (c : Code) (msg : string).

Definition ok (s : t) : bool :=
  match s with OK => true | Error _ _ => false end.

(** [Status::Update]: the first error reported on a context is kept. *)
Definition Update (old new : t) : t :=
  match old with OK => new | Error _ _ => old end.

Definition code (s : t) : option Code :=
  match s with OK => None | Error c _ => Some c end.

#[global] Instance Code_eq_dec : EqDecision Code.
Proof. solve_decision. Defined.

#[global] Instance eq_dec : EqDecision t.
Proof. solve_decision. Defined.

End Status.

Module errors.
Definition InvalidArgument (msg : string) := Status.Error Status.INVALID_ARGUMENT msg.
Definition Unimplemented (msg : string) := Status.Error Status.UNIMPLEMENTED msg.
Definition Aborted (msg : string) := Status.Error Status.ABORTED msg.
Definition NotFound (msg : string) := Status.Error Status.NOT_FOUND msg.
End errors.

(** The exception type of the backend, [mkldnn::error]. *)
Record mkldnn_error := { e_status : Z; e_message : string }.

(** ** Kernel bodies *)

(** What C++ leaves undefined: an index past the end, a null pointer read
    through, an [int] counted past its largest value. *)
Inductive UB := OutOfBounds | NullDereference | SignedOverflow.

(** How a statement ends: control reaches the next statement, the enclosing
    function returns, a backend exception propagates, or the behaviour is
    undefined from here on. *)
Inductive Flow (A : Type) : Type :=
| Next (a : A)
| Return_
| Raise (e : mkldnn_error)
| Undefined (u : UB).
Arguments Next {A} a.
Arguments Return_ {A}.
Arguments Raise {A} e.
Arguments Undefined {A} u.

(** A state that carries a status channel: [OpKernelConstruction] and
    [OpKernelContext] both do. *)
Class StatusChannel (S : Type) := {
  status : S -> Status.t;
  set_status : Status.t -> S -> S;
}.

Definition Body (S A : Type) : Type := S -> S * Flow A.

Definition ret {S A} (a : A) : Body S A := fun s => (s, Next a).

Definition bind {S A B} (m : Body S A) (k : A -> Body S B) : Body S B :=
  fun s =>
    match m s with
    | (s', Next a) => k a s'
    | (s', Return_) => (s', Return_)
    | (s', Raise e) => (s', Raise e)
    | (s', Undefined u) => (s', Undefined u)
    end.

Declare Scope body_scope.
Delimit Scope body_scope with body.
Notation "x <- m ;; k" := (bind m (fun x => k))
  (at level 100, m at level 99, right associativity) : body_scope.
Notation "m ;; k" := (bind m (fun _ => k))
  (at level 100, right associativity) : body_scope.
Local Open Scope body_scope.

Definition return_ {S A} : Body S A := fun s => (s, Return_).
Definition throw {S A} (e : mkldnn_error) : Body S A := fun s => (s, Raise e).
Definition undefined {S A} (u : UB) : Body S A := fun s => (s, Undefined u).
Definition get {S} : Body S S := fun s => (s, Next s).
Definition modify {S} (f : S -> S) : Body S unit := fun s => (f s, Next tt).

Arguments ret {S A} a s /.
Arguments return_ {S A} s /.
Arguments throw {S A} e s /.
Arguments undefined {S A} u s /.
Arguments get {S} s /.
Arguments modify {S} f s /.

(** Calling a [void] member function: its [return;] ends the callee only. *)
Definition call {S} (f : Body S unit) : Body S unit :=
  fun s =>
    match f s with
    | (s', Next _) => (s', Next tt)
    | (s', Return_) => (s', Next tt)
    | (s', Raise e) => (s', Raise e)
    | (s', Undefined u) => (s', Undefined u)
    end.

(** [try { body } catch (mkldnn::error& e) { handler }]. *)
Definition try_catch {S} (body : Body S unit) (handler : mkldnn_error -> Body S unit)
  : Body S unit :=
  fun s =>
    match body s with
    | (s', Raise e) => handler e s'
    | r => r
    end.

Definition when {S} (b : bool) (m : Body S unit) : Body S unit :=
  if b then m else ret tt.

Section Macros.
Context {S : Type} `{StatusChannel S}.

(** [ctx->CtxFailure(s)]: [SetStatus], which merges with [Status::Update]. *)
Definition CtxFailure (st : Status.t) (s : S) : S :=
  set_status (Status.Update (status s) st) s.

(** [OP_REQUIRES(ctx, cond, err)]: on a false condition report [err] and
    [return;]. *)
Definition OP_REQUIRES (cond : bool) (err : Status.t) : Body S unit :=
  fun s => if cond then (s, Next tt) else (CtxFailure err s, Return_).

(** [OP_REQUIRES_OK(ctx, st)]: on a non-OK [st] report it and [return;]. *)
Definition OP_REQUIRES_OK (st : Status.t) : Body S unit :=
  fun s => if Status.ok st then (s, Next tt) else (CtxFailure st s, Return_).

(** The handler of [catch (mkldnn::error& e)] in a [Compute]: the
    exception becomes an Aborted status on the context. *)
Definition error_msg (e : mkldnn_error) (line : string) : string :=
  "Status: " ++ pretty (e_status e) ++ ", message: " ++ e_message e
  ++ ", in file src/tensorflow/core/kernels/mkl/mkl_conv_ops.cc:" ++ line.

Definition report_exception (line : string) (e : mkldnn_error) : Body S unit :=
  OP_REQUIRES_OK
    (errors.Aborted ("Operation received an exception:" ++ error_msg e line)).
End Macros.

(** ** Attributes of a node *)

Inductive Padding := VALID | SAME | EXPLICIT.

(** The attributes a kernel constructor reads; [None] is an attribute the
    node does not have. *)
Record NodeAttrs := {
  attr_dilations : option (list Z);
  attr_padding_list : option (list Z);
  attr_explicit_paddings : option (list Z);
  attr_strides : option (list Z);
  attr_data_format : option string;
  attr_padding : option Padding;
  attr_is_filter_const : option bool;
  attr_fused_ops : option (list string);
  attr_num_args : option Z;
  attr_leakyrelu_alpha : option float;
  attr_transpose_a : option bool;
  attr_transpose_b : option bool;
}.

Definition HasAttr {A} (a : option A) : bool :=
  match a with Some _ => true | None => false end.

(** Modelled from the spec: the attribute accessor of the execution
    framework ([OpKernelConstruction::GetAttr], not in this file), "typed
    key-value lookup" that "fails if absent": the value and an OK status,
    or a non-OK status that leaves the destination as it was. *)
Definition GetAttr {A} (name : string) (a : option A) (old : A) : A * Status.t :=
  match a with
  | Some v => (v, Status.OK)
  | None => (old, errors.NotFound ("No attr named '" ++ name ++ "' in NodeDef"))
  end.

(** ** Tensor formats *)

(** The framework's [tensor_format.h] and [TensorShape::DebugString], taken
    as an interface: the kernels only call them. *)
Class TensorFormatApi := {
  TensorFormat : Type;
  FORMAT_default : TensorFormat;
  FormatFromString : string -> option TensorFormat;
  GetTensorDim : list Z -> TensorFormat -> ascii -> Z;
  ToString : TensorFormat -> string;
  DebugString : list Z -> string;
}.

(** ** The compute backend *)

(** [memory::dims] and [TensorShape]. *)
Definition dims := list Z.
Definition TensorShape := list Z.

Definition num_elements (s : TensorShape) : Z := fold_right Z.mul 1 s.

(** [v[i]] on a vector the source indexes without a check. *)
Definition at_ (v : list Z) (i : nat) : Z := nth i v 0.

(** An [int64] stored in an [int]: the value modulo [2^32], in the signed
    range. *)
Definition to_int (x : Z) : Z := (x + 2 ^ 31) mod 2 ^ 32 - 2 ^ 31.

Inductive algorithm :=
| alg_undef | convolution_direct | eltwise_relu | eltwise_bounded_relu | eltwise_elu.

(** The vendor library ([mkldnn.hpp]) and the helpers of [mkl_util.h], taken
    as an interface: memory descriptors with their equality, the format tags
    the kernels name, and the primitive descriptor the backend negotiates.
    Building a primitive descriptor, reordering and executing may each throw
    [mkldnn::error]. *)
Class MklDnn `{TensorFormatApi} := {
  memory_desc : Type;
  memory_desc_eq_dec :: EqDecision memory_desc;
  format_tag : Type;
  format_tag_eq_dec :: EqDecision format_tag;
  tag_undef : format_tag;
  tag_any : format_tag;
  tag_x : format_tag;
  tag_hwio : format_tag;
  tag_hwigo : format_tag;
  tag_dhwio : format_tag;
  tag_nc : format_tag;
  tag_oi : format_tag;
  tag_io : format_tag;
  MklTensorFormat : Type;
  TFDataFormatToMklDnnDataFormat : TensorFormat -> MklTensorFormat;
  TFDataFormatToMklDnn3DDataFormat : TensorFormat -> MklTensorFormat;
  MklTensorFormatToMklDnnDataFormat : MklTensorFormat -> format_tag;
  (** [memory::desc(dims, MklDnnType<T>(), tag)], [T] by its [typeid] name. *)
  make_desc : dims -> string -> format_tag -> memory_desc;
  get_size : memory_desc -> Z;
}.

(** Equality of [float] values is decided by their boolean Leibniz
    equality. *)
#[global] Instance float_eq_dec : EqDecision float.
Proof.
  intros x y. destruct (PrimFloat.Leibniz.eqb x y) eqn:E.
  - left. apply FloatAxioms.Leibniz.eqb_spec. exact E.
  - right. intros Heq. apply FloatAxioms.Leibniz.eqb_spec in Heq. congruence.
Defined.

(** ** [MklConvFwdParams] *)

Record PostOpParam := {
  po_name : string;
  po_alg : algorithm;
  po_param : list float;
  po_partial_key : string;
}.

Record MklConvFwdParams `{MklDnn} := {
  src_dims : dims;
  filter_dims : dims;
  bias_dims : dims;
  dst_dims : dims;
  strides : dims;
  dilations : dims;
  padding_left : dims;
  padding_right : dims;
  tf_fmt : MklTensorFormat;
  dtypes : string;
  post_op_params : list PostOpParam;
}.

(** ** Data handles *)

(** A raw buffer pointer, named by the buffer it points to. *)
Inductive ptr `{MklDnn} :=
| nullptr
| DummyData
| InputData (index : Z)
| OutputData (index : Z)
| CachedFilterData
| OpMemData (from to : memory_desc) (src : ptr).

#[global] Instance ptr_eq_dec `{MklDnn} : EqDecision ptr.
Proof. solve_decision. Defined.

(** A tensor the kernel owns: its shape and, when it holds a copy, the
    buffer its bytes were copied from. *)
Record Tensor `{MklDnn} := {
  t_shape : TensorShape;
  t_copy_of : option ptr;
}.

Definition NumElements `{MklDnn} (t : Tensor) : Z := num_elements (t_shape t).

(** [Tensor()]: one dimension of zero elements. *)
Definition empty_Tensor `{MklDnn} : Tensor := {| t_shape := [0]; t_copy_of := None |}.

(** A [mkldnn::memory] object, by its descriptor and its data handle. *)
Definition memory `{MklDnn} : Type := memory_desc * ptr.

(** ** The kernel object [MklConvOp] *)

Record MklConvOp `{MklDnn} := {
  fuse_add_src_ : option memory;
  fuse_add_dst_ : option memory;
  strides_ : list Z;
  dilations_ : list Z;
  padding_list_ : list Z;
  is_filter_const_ : bool;
  padding_ : Padding;
  data_format_ : TensorFormat;
  cached_filter_data_ptensor_ : Tensor;
  cached_filter_md_ptensor_ : option memory_desc;
  fuse_biasadd_ : bool;
  fuse_activation_ : bool;
  fuse_pad_ : bool;
  fuse_add_ : bool;
  alpha_or_upbound_ : float;
  activation_alg_ : algorithm;
  input_index_pad_ : Z;
}.

(** Assignments to one member. *)
Section Members.
Context `{MklDnn}.

Definition assign_fuse_add_src_ (v : option memory) (k : MklConvOp) : MklConvOp :=
  {| fuse_add_src_ := v; fuse_add_dst_ := fuse_add_dst_ k;
     strides_ := strides_ k; dilations_ := dilations_ k; padding_list_ := padding_list_ k;
     is_filter_const_ := is_filter_const_ k; padding_ := padding_ k;
     data_format_ := data_format_ k;
     cached_filter_data_ptensor_ := cached_filter_data_ptensor_ k;
     cached_filter_md_ptensor_ := cached_filter_md_ptensor_ k;
     fuse_biasadd_ := fuse_biasadd_ k; fuse_activation_ := fuse_activation_ k;
     fuse_pad_ := fuse_pad_ k; fuse_add_ := fuse_add_ k;
     alpha_or_upbound_ := alpha_or_upbound_ k; activation_alg_ := activation_alg_ k;
     input_index_pad_ := input_index_pad_ k |}.

Definition assign_fuse_add_dst_ (v : option memory) (k : MklConvOp) : MklConvOp :=
  {| fuse_add_src_ := fuse_add_src_ k; fuse_add_dst_ := v;
     strides_ := strides_ k; dilations_ := dilations_ k; padding_list_ := padding_list_ k;
     is_filter_const_ := is_filter_const_ k; padding_ := padding_ k;
     data_format_ := data_format_ k;
     cached_filter_data_ptensor_ := cached_filter_data_ptensor_ k;
     cached_filter_md_ptensor_ := cached_filter_md_ptensor_ k;
     fuse_biasadd_ := fuse_biasadd_ k; fuse_activation_ := fuse_activation_ k;
     fuse_pad_ := fuse_pad_ k; fuse_add_ := fuse_add_ k;
     alpha_or_upbound_ := alpha_or_upbound_ k; activation_alg_ := activation_alg_ k;
     input_index_pad_ := input_index_pad_ k |}.

Definition assign_strides_ (v : list Z) (k : MklConvOp) : MklConvOp :=
  {| fuse_add_src_ := fuse_add_src_ k; fuse_add_dst_ := fuse_add_dst_ k;
     strides_ := v; dilations_ := dilations_ k; padding_list_ := padding_list_ k;
     is_filter_const_ := is_filter_const_ k; padding_ := padding_ k;
     data_format_ := data_format_ k;
     cached_filter_data_ptensor_ := cached_filter_data_ptensor_ k;
     cached_filter_md_ptensor_ := cached_filter_md_ptensor_ k;
     fuse_biasadd_ := fuse_biasadd_ k; fuse_activation_ := fuse_activation_ k;
     fuse_pad_ := fuse_pad_ k; fuse_add_ := fuse_add_ k;
     alpha_or_upbound_ := alpha_or_upbound_ k; activation_alg_ := activation_alg_ k;
     input_index_pad_ := input_index_pad_ k |}.

Definition assign_dilations_ (v : list Z) (k : MklConvOp) : MklConvOp :=
  {| fuse_add_src_ := fuse_add_src_ k; fuse_add_dst_ := fuse_add_dst_ k;
     strides_ := strides_ k; dilations_ := v; padding_list_ := padding_list_ k;
     is_filter_const_ := is_filter_const_ k; padding_ := padding_ k;
     data_format_ := data_format_ k;
     cached_filter_data_ptensor_ := cached_filter_data_ptensor_ k;
     cached_filter_md_ptensor_ := cached_filter_md_ptensor_ k;
     fuse_biasadd_ := fuse_biasadd_ k; fuse_activation_ := fuse_activation_ k;
     fuse_pad_ := fuse_pad_ k; fuse_add_ := fuse_add_ k;
     alpha_or_upbound_ := alpha_or_upbound_ k; activation_alg_ := activation_alg_ k;
     input_index_pad_ := input_index_pad_ k |}.

Definition assign_padding_list_ (v : list Z) (k : MklConvOp) : MklConvOp :=
  {| fuse_add_src_ := fuse_add_src_ k; fuse_add_dst_ := fuse_add_dst_ k;
     strides_ := strides_ k; dilations_ := dilations_ k; padding_list_ := v;
     is_filter_const_ := is_filter_const_ k; padding_ := padding_ k;
     data_format_ := data_format_ k;
     cached_filter_data_ptensor_ := cached_filter_data_ptensor_ k;
     cached_filter_md_ptensor_ := cached_filter_md_ptensor_ k;
     fuse_biasadd_ := fuse_biasadd_ k; fuse_activation_ := fuse_activation_ k;
     fuse_pad_ := fuse_pad_ k; fuse_add_ := fuse_add_ k;
     alpha_or_upbound_ := alpha_or_upbound_ k; activation_alg_ := activation_alg_ k;
     input_index_pad_ := input_index_pad_ k |}.

Definition assign_is_filter_const_ (v : bool) (k : MklConvOp) : MklConvOp :=
  {| fuse_add_src_ := fuse_add_src_ k; fuse_add_dst_ := fuse_add_dst_ k;
     strides_ := strides_ k; dilations_ := dilations_ k;
     padding_list_ := padding_list_ k; is_filter_const_ := v; padding_ := padding_ k;
     data_format_ := data_format_ k;
     cached_filter_data_ptensor_ := cached_filter_data_ptensor_ k;
     cached_filter_md_ptensor_ := cached_filter_md_ptensor_ k;
     fuse_biasadd_ := fuse_biasadd_ k; fuse_activation_ := fuse_activation_ k;
     fuse_pad_ := fuse_pad_ k; fuse_add_ := fuse_add_ k;
     alpha_or_upbound_ := alpha_or_upbound_ k; activation_alg_ := activation_alg_ k;
     input_index_pad_ := input_index_pad_ k |}.

Definition assign_padding_ (v : Padding) (k : MklConvOp) : MklConvOp :=
  {| fuse_add_src_ := fuse_add_src_ k; fuse_add_dst_ := fuse_add_dst_ k;
     strides_ := strides_ k; dilations_ := dilations_ k;
     padding_list_ := padding_list_ k; is_filter_const_ := is_filter_const_ k;
     padding_ := v; data_format_ := data_format_ k;
     cached_filter_data_ptensor_ := cached_filter_data_ptensor_ k;
     cached_filter_md_ptensor_ := cached_filter_md_ptensor_ k;
     fuse_biasadd_ := fuse_biasadd_ k; fuse_activation_ := fuse_activation_ k;
     fuse_pad_ := fuse_pad_ k; fuse_add_ := fuse_add_ k;
     alpha_or_upbound_ := alpha_or_upbound_ k; activation_alg_ := activation_alg_ k;
     input_index_pad_ := input_index_pad_ k |}.

Definition assign_data_format_ (v : TensorFormat) (k : MklConvOp) : MklConvOp :=
  {| fuse_add_src_ := fuse_add_src_ k; fuse_add_dst_ := fuse_add_dst_ k;
     strides_ := strides_ k; dilations_ := dilations_ k;
     padding_list_ := padding_list_ k; is_filter_const_ := is_filter_const_ k;
     padding_ := padding_ k; data_format_ := v;
     cached_filter_data_ptensor_ := cached_filter_data_ptensor_ k;
     cached_filter_md_ptensor_ := cached_filter_md_ptensor_ k;
     fuse_biasadd_ := fuse_biasadd_ k; fuse_activation_ := fuse_activation_ k;
     fuse_pad_ := fuse_pad_ k; fuse_add_ := fuse_add_ k;
     alpha_or_upbound_ := alpha_or_upbound_ k; activation_alg_ := activation_alg_ k;
     input_index_pad_ := input_index_pad_ k |}.

Definition assign_cached_filter_data_ptensor_ (v : Tensor) (k : MklConvOp) : MklConvOp :=
  {| fuse_add_src_ := fuse_add_src_ k; fuse_add_dst_ := fuse_add_dst_ k;
     strides_ := strides_ k; dilations_ := dilations_ k;
     padding_list_ := padding_list_ k; is_filter_const_ := is_filter_const_ k;
     padding_ := padding_ k; data_format_ := data_format_ k;
     cached_filter_data_ptensor_ := v;
     cached_filter_md_ptensor_ := cached_filter_md_ptensor_ k;
     fuse_biasadd_ := fuse_biasadd_ k; fuse_activation_ := fuse_activation_ k;
     fuse_pad_ := fuse_pad_ k; fuse_add_ := fuse_add_ k;
     alpha_or_upbound_ := alpha_or_upbound_ k; activation_alg_ := activation_alg_ k;
     input_index_pad_ := input_index_pad_ k |}.

Definition assign_cached_filter_md_ptensor_ (v : option memory_desc) (k : MklConvOp) : MklConvOp :=
  {| fuse_add_src_ := fuse_add_src_ k; fuse_add_dst_ := fuse_add_dst_ k;
     strides_ := strides_ k; dilations_ := dilations_ k;
     padding_list_ := padding_list_ k; is_filter_const_ := is_filter_const_ k;
     padding_ := padding_ k; data_format_ := data_format_ k;
     cached_filter_data_ptensor_ := cached_filter_data_ptensor_ k;
     cached_filter_md_ptensor_ := v; fuse_biasadd_ := fuse_biasadd_ k;
     fuse_activation_ := fuse_activation_ k; fuse_pad_ := fuse_pad_ k;
     fuse_add_ := fuse_add_ k; alpha_or_upbound_ := alpha_or_upbound_ k;
     activation_alg_ := activation_alg_ k; input_index_pad_ := input_index_pad_ k |}.

Definition assign_fuse_biasadd_ (v : bool) (k : MklConvOp) : MklConvOp :=
  {| fuse_add_src_ := fuse_add_src_ k; fuse_add_dst_ := fuse_add_dst_ k;
     strides_ := strides_ k; dilations_ := dilations_ k;
     padding_list_ := padding_list_ k; is_filter_const_ := is_filter_const_ k;
     padding_ := padding_ k; data_format_ := data_format_ k;
     cached_filter_data_ptensor_ := cached_filter_data_ptensor_ k;
     cached_filter_md_ptensor_ := cached_filter_md_ptensor_ k; fuse_biasadd_ := v;
     fuse_activation_ := fuse_activation_ k; fuse_pad_ := fuse_pad_ k;
     fuse_add_ := fuse_add_ k; alpha_or_upbound_ := alpha_or_upbound_ k;
     activation_alg_ := activation_alg_ k; input_index_pad_ := input_index_pad_ k |}.

Definition assign_fuse_activation_ (v : bool) (k : MklConvOp) : MklConvOp :=
  {| fuse_add_src_ := fuse_add_src_ k; fuse_add_dst_ := fuse_add_dst_ k;
     strides_ := strides_ k; dilations_ := dilations_ k;
     padding_list_ := padding_list_ k; is_filter_const_ := is_filter_const_ k;
     padding_ := padding_ k; data_format_ := data_format_ k;
     cached_filter_data_ptensor_ := cached_filter_data_ptensor_ k;
     cached_filter_md_ptensor_ := cached_filter_md_ptensor_ k;
     fuse_biasadd_ := fuse_biasadd_ k; fuse_activation_ := v;
     fuse_pad_ := fuse_pad_ k; fuse_add_ := fuse_add_ k;
     alpha_or_upbound_ := alpha_or_upbound_ k; activation_alg_ := activation_alg_ k;
     input_index_pad_ := input_index_pad_ k |}.

Definition assign_fuse_pad_ (v : bool) (k : MklConvOp) : MklConvOp :=
  {| fuse_add_src_ := fuse_add_src_ k; fuse_add_dst_ := fuse_add_dst_ k;
     strides_ := strides_ k; dilations_ := dilations_ k;
     padding_list_ := padding_list_ k; is_filter_const_ := is_filter_const_ k;
     padding_ := padding_ k; data_format_ := data_format_ k;
     cached_filter_data_ptensor_ := cached_filter_data_ptensor_ k;
     cached_filter_md_ptensor_ := cached_filter_md_ptensor_ k;
     fuse_biasadd_ := fuse_biasadd_ k; fuse_activation_ := fuse_activation_ k;
     fuse_pad_ := v; fuse_add_ := fuse_add_ k;
     alpha_or_upbound_ := alpha_or_upbound_ k; activation_alg_ := activation_alg_ k;
     input_index_pad_ := input_index_pad_ k |}.

Definition assign_fuse_add_ (v : bool) (k : MklConvOp) : MklConvOp :=
  {| fuse_add_src_ := fuse_add_src_ k; fuse_add_dst_ := fuse_add_dst_ k;
     strides_ := strides_ k; dilations_ := dilations_ k;
     padding_list_ := padding_list_ k; is_filter_const_ := is_filter_const_ k;
     padding_ := padding_ k; data_format_ := data_format_ k;
     cached_filter_data_ptensor_ := cached_filter_data_ptensor_ k;
     cached_filter_md_ptensor_ := cached_filter_md_ptensor_ k;
     fuse_biasadd_ := fuse_biasadd_ k; fuse_activation_ := fuse_activation_ k;
     fuse_pad_ := fuse_pad_ k; fuse_add_ := v;
     alpha_or_upbound_ := alpha_or_upbound_ k; activation_alg_ := activation_alg_ k;
     input_index_pad_ := input_index_pad_ k |}.

Definition assign_alpha_or_upbound_ (v : float) (k : MklConvOp) : MklConvOp :=
  {| fuse_add_src_ := fuse_add_src_ k; fuse_add_dst_ := fuse_add_dst_ k;
     strides_ := strides_ k; dilations_ := dilations_ k;
     padding_list_ := padding_list_ k; is_filter_const_ := is_filter_const_ k;
     padding_ := padding_ k; data_format_ := data_format_ k;
     cached_filter_data_ptensor_ := cached_filter_data_ptensor_ k;
     cached_filter_md_ptensor_ := cached_filter_md_ptensor_ k;
     fuse_biasadd_ := fuse_biasadd_ k; fuse_activation_ := fuse_activation_ k;
     fuse_pad_ := fuse_pad_ k; fuse_add_ := fuse_add_ k; alpha_or_upbound_ := v;
     activation_alg_ := activation_alg_ k; input_index_pad_ := input_index_pad_ k |}.

Definition assign_activation_alg_ (v : algorithm) (k : MklConvOp) : MklConvOp :=
  {| fuse_add_src_ := fuse_add_src_ k; fuse_add_dst_ := fuse_add_dst_ k;
     strides_ := strides_ k; dilations_ := dilations_ k;
     padding_list_ := padding_list_ k; is_filter_const_ := is_filter_const_ k;
     padding_ := padding_ k; data_format_ := data_format_ k;
     cached_filter_data_ptensor_ := cached_filter_data_ptensor_ k;
     cached_filter_md_ptensor_ := cached_filter_md_ptensor_ k;
     fuse_biasadd_ := fuse_biasadd_ k; fuse_activation_ := fuse_activation_ k;
     fuse_pad_ := fuse_pad_ k; fuse_add_ := fuse_add_ k;
     alpha_or_upbound_ := alpha_or_upbound_ k; activation_alg_ := v;
     input_index_pad_ := input_index_pad_ k |}.

Definition assign_input_index_pad_ (v : Z) (k : MklConvOp) : MklConvOp :=
  {| fuse_add_src_ := fuse_add_src_ k; fuse_add_dst_ := fuse_add_dst_ k;
     strides_ := strides_ k; dilations_ := dilations_ k;
     padding_list_ := padding_list_ k; is_filter_const_ := is_filter_const_ k;
     padding_ := padding_ k; data_format_ := data_format_ k;
     cached_filter_data_ptensor_ := cached_filter_data_ptensor_ k;
     cached_filter_md_ptensor_ := cached_filter_md_ptensor_ k;
     fuse_biasadd_ := fuse_biasadd_ k; fuse_activation_ := fuse_activation_ k;
     fuse_pad_ := fuse_pad_ k; fuse_add_ := fuse_add_ k;
     alpha_or_upbound_ := alpha_or_upbound_ k; activation_alg_ := activation_alg_ k;
     input_index_pad_ := v |}.

End Members.

(** ** Kernel construction *)

Record OpKernelConstruction := {
  node_attrs : NodeAttrs;
  construction_status : Status.t;
}.

#[global] Instance OpKernelConstruction_channel {K : Type}
  : StatusChannel (K * OpKernelConstruction) := {|
  status s := construction_status (snd s);
  set_status st s :=
    (fst s, {| node_attrs := node_attrs (snd s); construction_status := st |});
|}.

Section Construction.
Context `{MklDnn}.

Abbreviation Ctor K := (Body (K * OpKernelConstruction) unit).

Definition attrs {K} : Body (K * OpKernelConstruction) NodeAttrs :=
  fun s => (s, Next (node_attrs (snd s))).

Definition this {K C} : Body (K * C) K := fun s => (s, Next (fst s)).

Definition assign {K C} (f : K -> K) : Body (K * C) unit :=
  fun s => ((f (fst s), snd s), Next tt).

(** [OP_REQUIRES_OK(context, context->GetAttr(name, &member))]. *)
Definition GetAttr_member {K A} (name : string) (a : option A)
    (member : K -> A) (assign_member : A -> K -> K) : Ctor K :=
  k <- this ;;
  let (v, st) := GetAttr name a (member k) in
  assign (assign_member v) ;;
  OP_REQUIRES_OK st.

(** [OP_REQUIRES_OK(context, context->GetAttr(name, &local))]. *)
Definition GetAttr_local {K A} (name : string) (a : option A) (init : A)
  : Body (K * OpKernelConstruction) A :=
  let (v, st) := GetAttr name a init in
  OP_REQUIRES_OK st ;;
  ret v.

Definition size (v : list Z) : Z := Z.of_nat (length v).

(** The members as they are before the constructor body runs: the default
    member initialisers, with the template arguments [bias_enabled] and
    [pad_enabled]; the two shared pointers start out null. *)
Definition MklConvOp_members (bias_enabled pad_enabled : bool) : MklConvOp := {|
  fuse_add_src_ := None;
  fuse_add_dst_ := None;
  strides_ := [];
  dilations_ := [];
  padding_list_ := [];
  is_filter_const_ := false;
  padding_ := VALID;
  data_format_ := FORMAT_default;
  cached_filter_data_ptensor_ := empty_Tensor;
  cached_filter_md_ptensor_ := None;
  fuse_biasadd_ := bias_enabled;
  fuse_activation_ := false;
  fuse_pad_ := pad_enabled;
  fuse_add_ := false;
  alpha_or_upbound_ := 0%float;
  activation_alg_ := alg_undef;
  input_index_pad_ := 2;
|}.

(** [MklConvOp::MklConvOp(OpKernelConstruction* context)]. *)
Definition MklConvOp_ctor : Ctor MklConvOp :=
  a <- attrs ;;
  GetAttr_member "dilations" (attr_dilations a) dilations_ assign_dilations_ ;;
  OP_REQUIRES
    (negb (HasAttr (attr_padding_list a) && HasAttr (attr_explicit_paddings a)))
    (errors.InvalidArgument "Can only have 1 `padding` list at most") ;;
  when (HasAttr (attr_padding_list a))
    (GetAttr_member "padding_list" (attr_padding_list a)
       padding_list_ assign_padding_list_) ;;
  when (HasAttr (attr_explicit_paddings a))
    (GetAttr_member "explicit_paddings" (attr_explicit_paddings a)
       padding_list_ assign_padding_list_) ;;
  GetAttr_member "strides" (attr_strides a) strides_ assign_strides_ ;;
  data_format <- GetAttr_local "data_format" (attr_data_format a) "" ;;
  match FormatFromString data_format with
  | Some f => assign (assign_data_format_ f)
  | None => OP_REQUIRES false (errors.InvalidArgument "Invalid data format")
  end ;;
  k <- this ;;
  OP_REQUIRES ((size (strides_ k) =? 4) || (size (strides_ k) =? 5))
    (errors.InvalidArgument
       "Sliding window strides field must specify 4 or 5 dimensions") ;;
  let stride_n := GetTensorDim (strides_ k) (data_format_ k) "N" in
  let stride_c := GetTensorDim (strides_ k) (data_format_ k) "C" in
  OP_REQUIRES ((stride_n =? 1) && (stride_c =? 1))
    (errors.Unimplemented
       "Current implementation does not yet support strides in the batch and depth dimensions.") ;;
  GetAttr_member "padding" (attr_padding a) padding_ assign_padding_ ;;
  assign (assign_is_filter_const_ false) ;;
  when (HasAttr (attr_is_filter_const a))
    (GetAttr_member "is_filter_const" (attr_is_filter_const a)
       is_filter_const_ assign_is_filter_const_) ;;
  if size (strides_ k) =? 4 then
    OP_REQUIRES (size (dilations_ k) =? 4)
      (errors.InvalidArgument
         "Sliding window dilations field must specify 4 dimensions") ;;
    let dilation_n := GetTensorDim (dilations_ k) (data_format_ k) "N" in
    let dilation_c := GetTensorDim (dilations_ k) (data_format_ k) "C" in
    let dilation_h := GetTensorDim (dilations_ k) (data_format_ k) "H" in
    let dilation_w := GetTensorDim (dilations_ k) (data_format_ k) "W" in
    OP_REQUIRES ((dilation_n =? 1) && (dilation_c =? 1))
      (errors.InvalidArgument
         "Current implementation does not yet support dilations in the batch and depth dimensions.") ;;
    OP_REQUIRES ((0 <? dilation_h) && (0 <? dilation_w))
      (errors.InvalidArgument "Dilated rates should be larger than 0.")
  else if size (strides_ k) =? 5 then
    OP_REQUIRES (size (dilations_ k) =? 5)
      (errors.InvalidArgument "Dilation rates field must specify 5 dimensions") ;;
    OP_REQUIRES
      ((GetTensorDim (dilations_ k) (data_format_ k) "N" =? 1)
       && (GetTensorDim (dilations_ k) (data_format_ k) "C" =? 1))
      (errors.InvalidArgument
         "Current implementation does not yet support dilations rates in the batch and depth dimensions.") ;;
    OP_REQUIRES
      ((0 <? GetTensorDim (dilations_ k) (data_format_ k) "0")
       && (0 <? GetTensorDim (dilations_ k) (data_format_ k) "1")
       && (0 <? GetTensorDim (dilations_ k) (data_format_ k) "2"))
      (errors.InvalidArgument "Dilated rates should be larger than 0.")
  else ret tt.

(** Constructing a kernel: the members after the body, and the status the
    construction context ends with. *)
Definition construct {K} (members : K) (ctor : Ctor K) (a : NodeAttrs)
  : K * Status.t :=
  let s := fst (ctor (members, {| node_attrs := a; construction_status := Status.OK |})) in
  (fst s, construction_status (snd s)).

End Construction.

(** ** Fused kernels: the fusion policy *)

Section Fusion.
Context `{MklDnn}.

Abbreviation Ctor K := (Body (K * OpKernelConstruction) unit).

Definition set_fuse_biasadd (fuse_biasadd : bool) : Ctor MklConvOp :=
  assign (assign_fuse_biasadd_ fuse_biasadd).

Definition set_fuse_activation (fuse_activation : bool)
    (activation_alg : algorithm) (alpha_or_upbound : float) : Ctor MklConvOp :=
  assign (assign_fuse_activation_ fuse_activation) ;;
  assign (assign_activation_alg_ activation_alg) ;;
  assign (assign_alpha_or_upbound_ alpha_or_upbound).

Definition set_fuse_pad (fuse_pad : bool) : Ctor MklConvOp :=
  assign (assign_fuse_pad_ fuse_pad) ;;
  assign (assign_input_index_pad_ 3).

Definition set_fuse_add (fuse_add : bool) : Ctor MklConvOp :=
  assign (assign_fuse_add_ fuse_add).

(** [absl::StrJoin(fused_ops, ",")]. *)
Definition StrJoin (l : list string) (sep : string) : string := String.concat sep l.

Definition one_extra_argument : Status.t :=
  errors.InvalidArgument "Fused Conv2D must have one extra argument: bias.".

Definition two_extra_arguments : Status.t :=
  errors.InvalidArgument "Fused Conv2D must have two extra arguments: bias and add.".

Definition fusion_not_implemented (fused_ops : list string) : Status.t :=
  errors.Unimplemented ("Fusion is not implemented: [" ++ StrJoin fused_ops "," ++ "]").

(** The body of [MklFusedConvOp::MklFusedConvOp], with the template
    argument [pad_enabled]. *)
Definition MklFusedConvOp_body (pad_enabled : bool) : Ctor MklConvOp :=
  a <- attrs ;;
  fused_ops <- GetAttr_local "fused_ops" (attr_fused_ops a) [] ;;
  num_args <- GetAttr_local "num_args" (attr_num_args a) 0 ;;
  OP_REQUIRES (negb (bool_decide (fused_ops = [])))
    (errors.InvalidArgument "Fused Conv2D must have at least one fused op.") ;;
  (if bool_decide (fused_ops = ["BiasAdd"]) then
     set_fuse_biasadd true ;;
     OP_REQUIRES (num_args =? 1) one_extra_argument
   else if bool_decide (fused_ops = ["Relu"]) then
     set_fuse_activation true eltwise_relu 0%float
   else if bool_decide (fused_ops = ["Relu6"]) then
     set_fuse_activation true eltwise_bounded_relu 6%float
   else if bool_decide (fused_ops = ["Elu"]) then
     set_fuse_activation true eltwise_elu 1%float
   else if bool_decide (fused_ops = ["LeakyRelu"]) then
     leakyrelu_alpha <-
       GetAttr_local "leakyrelu_alpha" (attr_leakyrelu_alpha a) 0%float ;;
     set_fuse_activation true eltwise_relu leakyrelu_alpha
   else if bool_decide (fused_ops = ["BiasAdd"; "Relu"]) then
     set_fuse_biasadd true ;;
     set_fuse_activation true eltwise_relu 0%float ;;
     OP_REQUIRES (num_args =? 1) one_extra_argument
   else if bool_decide (fused_ops = ["BiasAdd"; "Relu6"]) then
     set_fuse_biasadd true ;;
     set_fuse_activation true eltwise_bounded_relu 6%float ;;
     OP_REQUIRES (num_args =? 1) one_extra_argument
   else if bool_decide (fused_ops = ["BiasAdd"; "Elu"]) then
     set_fuse_biasadd true ;;
     set_fuse_activation true eltwise_elu 1%float ;;
     OP_REQUIRES (num_args =? 1) one_extra_argument
   else if bool_decide (fused_ops = ["BiasAdd"; "LeakyRelu"]) then
     set_fuse_biasadd true ;;
     leakyrelu_alpha <-
       GetAttr_local "leakyrelu_alpha" (attr_leakyrelu_alpha a) 0%float ;;
     set_fuse_activation true eltwise_relu leakyrelu_alpha ;;
     OP_REQUIRES (num_args =? 1) one_extra_argument
   else if bool_decide (fused_ops = ["BiasAdd"; "Add"]) then
     set_fuse_biasadd true ;;
     set_fuse_add true ;;
     OP_REQUIRES (num_args =? 2) two_extra_arguments
   else if bool_decide (fused_ops = ["BiasAdd"; "Add"; "Relu"]) then
     set_fuse_biasadd true ;;
     set_fuse_add true ;;
     set_fuse_activation true eltwise_relu 0%float ;;
     OP_REQUIRES (num_args =? 2) two_extra_arguments
   else if bool_decide (fused_ops = ["BiasAdd"; "Add"; "Relu6"]) then
     set_fuse_biasadd true ;;
     set_fuse_add true ;;
     set_fuse_activation true eltwise_bounded_relu 6%float ;;
     OP_REQUIRES (num_args =? 2) two_extra_arguments
   else if bool_decide (fused_ops = ["BiasAdd"; "Add"; "Elu"]) then
     set_fuse_biasadd true ;;
     set_fuse_add true ;;
     set_fuse_activation true eltwise_elu 1%float ;;
     OP_REQUIRES (num_args =? 2) two_extra_arguments
   else if bool_decide (fused_ops = ["BiasAdd"; "Add"; "LeakyRelu"]) then
     set_fuse_biasadd true ;;
     set_fuse_add true ;;
     leakyrelu_alpha <-
       GetAttr_local "leakyrelu_alpha" (attr_leakyrelu_alpha a) 0%float ;;
     set_fuse_activation true eltwise_relu leakyrelu_alpha ;;
     OP_REQUIRES (num_args =? 2) two_extra_arguments
   else
     OP_REQUIRES false (fusion_not_implemented fused_ops)) ;;
  when pad_enabled (set_fuse_pad true).

(** [MklFusedConvOp::MklFusedConvOp]: the constructor of the base class
    [MklConvOp<..., false, false, false>], then the body. *)
Definition MklFusedConvOp_ctor (pad_enabled : bool) : Ctor MklConvOp :=
  call MklConvOp_ctor ;;
  MklFusedConvOp_body pad_enabled.

(** The body of [MklFusedDepthwiseConvOp::MklFusedDepthwiseConvOp], with
    the template argument [pad_enabled]. *)
Definition MklFusedDepthwiseConvOp_body (pad_enabled : bool) : Ctor MklConvOp :=
  a <- attrs ;;
  fused_ops <- GetAttr_local "fused_ops" (attr_fused_ops a) [] ;;
  num_args <- GetAttr_local "num_args" (attr_num_args a) 0 ;;
  OP_REQUIRES (negb (bool_decide (fused_ops = [])))
    (errors.InvalidArgument
       "Fused DepthwiseConv2D must have at least one fused op.") ;;
  (if bool_decide (fused_ops = ["BiasAdd"]) then
     set_fuse_biasadd true
   else if bool_decide (fused_ops = ["BiasAdd"; "Relu"]) then
     set_fuse_biasadd true ;;
     set_fuse_activation true eltwise_relu 0%float
   else if bool_decide (fused_ops = ["BiasAdd"; "Relu6"]) then
     set_fuse_biasadd true ;;
     set_fuse_activation true eltwise_bounded_relu 6%float
   else if bool_decide (fused_ops = ["BiasAdd"; "Elu"]) then
     set_fuse_biasadd true ;;
     set_fuse_activation true eltwise_elu 1%float
   else
     OP_REQUIRES false (fusion_not_implemented fused_ops)) ;;
  OP_REQUIRES (num_args =? 1)
    (errors.InvalidArgument
       "Fused DepthwiseConv2D must have one extra argument: bias.") ;;
  when pad_enabled (set_fuse_pad true).

(** [MklFusedDepthwiseConvOp::MklFusedDepthwiseConvOp]: the constructor of
    the base class [MklConvOp<..., bias_enabled, false, is_depthwise>],
    then the body. *)
Definition MklFusedDepthwiseConvOp_ctor (pad_enabled : bool) : Ctor MklConvOp :=
  call MklConvOp_ctor ;;
  MklFusedDepthwiseConvOp_body pad_enabled.

End Fusion.

(** ** The fused matmul kernel *)

Record MklFusedMatMulOp := {
  transpose_a_ : bool;
  transpose_b_ : bool;
  fused_ops_ : list string;
  is_weight_const_ : bool;
}.

Definition MklFusedMatMulOp_members : MklFusedMatMulOp := {|
  transpose_a_ := false; transpose_b_ := false; fused_ops_ := [];
  is_weight_const_ := false;
|}.

Definition assign_transpose_a_ (v : bool) (k : MklFusedMatMulOp) : MklFusedMatMulOp :=
  {| transpose_a_ := v; transpose_b_ := transpose_b_ k; fused_ops_ := fused_ops_ k;
     is_weight_const_ := is_weight_const_ k |}.

Definition assign_transpose_b_ (v : bool) (k : MklFusedMatMulOp) : MklFusedMatMulOp :=
  {| transpose_a_ := transpose_a_ k; transpose_b_ := v; fused_ops_ := fused_ops_ k;
     is_weight_const_ := is_weight_const_ k |}.

Definition assign_fused_ops_ (v : list string) (k : MklFusedMatMulOp) : MklFusedMatMulOp :=
  {| transpose_a_ := transpose_a_ k; transpose_b_ := transpose_b_ k; fused_ops_ := v;
     is_weight_const_ := is_weight_const_ k |}.

Definition assign_is_weight_const_ (v : bool) (k : MklFusedMatMulOp) : MklFusedMatMulOp :=
  {| transpose_a_ := transpose_a_ k; transpose_b_ := transpose_b_ k;
     fused_ops_ := fused_ops_ k; is_weight_const_ := v |}.

(** [v[i]] on a [std::vector]: no bounds check, so an index past the end is
    undefined behaviour. *)
Definition subscript {S A} (v : list A) (i : nat) : Body S A :=
  match v !! i with
  | Some x => ret x
  | None => undefined OutOfBounds
  end.

(** [MklFusedMatMulOp::MklFusedMatMulOp(OpKernelConstruction* ctx)]. *)
Definition MklFusedMatMulOp_ctor : Body (MklFusedMatMulOp * OpKernelConstruction) unit :=
  a <- attrs ;;
  GetAttr_member "fused_ops" (attr_fused_ops a) fused_ops_ assign_fused_ops_ ;;
  GetAttr_member "transpose_a" (attr_transpose_a a) transpose_a_ assign_transpose_a_ ;;
  GetAttr_member "transpose_b" (attr_transpose_b a) transpose_b_ assign_transpose_b_ ;;
  GetAttr_member "is_filter_const" (attr_is_filter_const a)
    is_weight_const_ assign_is_weight_const_ ;;
  k <- this ;;
  OP_REQUIRES (Z.of_nat (length (fused_ops_ k)) <=? 2)
    (errors.InvalidArgument "MklFusedMatMul must have 2 post-arguments at most.") ;;
  first <- subscript (fused_ops_ k) 0 ;;
  OP_REQUIRES (bool_decide (first = "BiasAdd"))
    (errors.InvalidArgument
       "The 1st post-argument of MklFusedMatMul must be BiasAdd.") ;;
  OP_REQUIRES (bool_decide (transpose_a_ k = false))
    (errors.InvalidArgument "In[0] of MklMatMul can't be transposed.").

(** What running a constructor body yields: the members, the status, and how
    the body ended. *)
Definition run_ctor {K} (members : K)
    (ctor : Body (K * OpKernelConstruction) unit) (a : NodeAttrs)
  : K * Status.t * Flow unit :=
  let r := ctor (members, {| node_attrs := a; construction_status := Status.OK |}) in
  (fst (fst r), construction_status (snd (fst r)), snd r).


(** ** The convolution engine *)

(** What [GetConvFwdSizesInMklOrder] is given: the attributes
    [MklDnnConvUtil] is built from, the shapes of the two inputs, the padding
    computed so far, and the two flags. *)
Record ConvSizesArgs `{MklDnn} := {
  arg_strides : list Z;
  arg_padding : Padding;
  arg_data_format : TensorFormat;
  arg_dilations : list Z;
  arg_src_shape : TensorShape;
  arg_filter_shape : TensorShape;
  arg_padding_left : dims;
  arg_padding_right : dims;
  arg_pad_enabled : bool;
  arg_is_depthwise : bool;
}.

(** What it writes through its output parameters. *)
Record ConvFwdSizes := {
  out_src_dims : dims;
  out_filter_dims : dims;
  out_strides : dims;
  out_dilations : dims;
  out_dst_dims_tf_order : dims;
  out_dst_dims_mkl_order : dims;
  out_padding_left : dims;
  out_padding_right : dims;
}.

(** The rest of the interface the convolution kernel is written against:
    the primitive descriptor the backend negotiates (or refuses, by
    throwing), how a reorder and an execution end, the size helpers of
    [mkl_conv_ops.h], each with the status it reports on the context, the
    status with which the framework answers
    [context->allocate_persistent(type, shape, ...)], and
    [sizeof(memory::desc)]. *)
Class ConvEngine `{MklDnn} := {
  ConvFwdPd : Type;
  primitive_desc : MklConvFwdParams -> mkldnn_error + ConvFwdPd;
  weights_desc : ConvFwdPd -> memory_desc;
  reorder_error : memory_desc -> memory_desc -> ptr -> option mkldnn_error;
  execute_error : ConvFwdPd -> ptr -> ptr -> option ptr -> ptr -> option mkldnn_error;
  GetConvFwdSizesInMklOrder : ConvSizesArgs -> ConvFwdSizes * Status.t;
  GetBiasSizeInMklOrder : TensorShape -> dims * Status.t;
  ShapeFromFormat : TensorFormat -> Z -> list Z -> Z -> TensorShape;
  allocate_persistent : string -> TensorShape -> Status.t;
  sizeof_memory_desc : Z;
}.

(** ** [MklConvFwdPrimitive] *)

(** The primitive after [Setup]: its memory objects, by the data handle each
    is bound to ([bias_mem] stays a null pointer when there is no bias), and
    its primitive descriptor. *)
Record MklConvFwdPrimitive `{ConvEngine} := {
  src_mem : ptr;
  filter_mem : ptr;
  bias_mem : option ptr;
  dst_mem : ptr;
  fwd_pd : ConvFwdPd;
}.

Section Primitive.
Context `{ConvEngine}.

Abbreviation Method := (Body MklConvFwdPrimitive unit).

Definition src_mem_set_data_handle (h : ptr) : Method :=
  modify (fun p => {| src_mem := h; filter_mem := filter_mem p;
                      bias_mem := bias_mem p; dst_mem := dst_mem p;
                      fwd_pd := fwd_pd p |}).

Definition filter_mem_set_data_handle (h : ptr) : Method :=
  modify (fun p => {| src_mem := src_mem p; filter_mem := h;
                      bias_mem := bias_mem p; dst_mem := dst_mem p;
                      fwd_pd := fwd_pd p |}).

(** [context_.bias_mem->set_data_handle(h)]: [bias_mem] is dereferenced. *)
Definition bias_mem_set_data_handle (h : ptr) : Method :=
  fun p =>
    match bias_mem p with
    | Some _ =>
        ({| src_mem := src_mem p; filter_mem := filter_mem p;
            bias_mem := Some h; dst_mem := dst_mem p; fwd_pd := fwd_pd p |},
         Next tt)
    | None => (p, Undefined NullDereference)
    end.

Definition dst_mem_set_data_handle (h : ptr) : Method :=
  modify (fun p => {| src_mem := src_mem p; filter_mem := filter_mem p;
                      bias_mem := bias_mem p; dst_mem := h;
                      fwd_pd := fwd_pd p |}).

(** The loop over [context_.fwd_primitives], each executed on the stream:
    the backend runs on the handles bound at this point, and may throw. *)
Definition fwd_primitives_execute : Method :=
  fun p =>
    match execute_error (fwd_pd p) (src_mem p) (filter_mem p) (bias_mem p) (dst_mem p)
    with
    | Some e => (p, Raise e)
    | None => (p, Next tt)
    end.

(** [MklConvFwdPrimitive::Execute(src_data, filter_data, bias_data,
    dst_data, fwd_stream)]. *)
Definition Execute (src_data filter_data bias_data dst_data : ptr) : Method :=
  src_mem_set_data_handle src_data ;;
  filter_mem_set_data_handle filter_data ;;
  when (negb (bool_decide (bias_data = nullptr)))
    (bias_mem_set_data_handle bias_data) ;;
  dst_mem_set_data_handle dst_data ;;
  fwd_primitives_execute ;;
  src_mem_set_data_handle DummyData ;;
  filter_mem_set_data_handle DummyData ;;
  when (negb (bool_decide (bias_data = nullptr)))
    (bias_mem_set_data_handle DummyData) ;;
  dst_mem_set_data_handle DummyData.

(** [Execute(src_data, filter_data, dst_data, fwd_stream)], without bias. *)
Definition Execute_no_bias (src_data filter_data dst_data : ptr) : Method :=
  Execute src_data filter_data nullptr dst_data.

(** [Setup(convFwdDims)], as the constructor runs it on a fresh object:
    the primitive descriptor is negotiated with the backend and the memory
    objects are created on dummy data, [bias_mem] only with bias
    dimensions. *)
Definition Setup (convFwdDims : MklConvFwdParams) : mkldnn_error + MklConvFwdPrimitive :=
  match primitive_desc convFwdDims with
  | inl e => inl e
  | inr pd =>
      inr {| src_mem := DummyData;
             filter_mem := DummyData;
             bias_mem :=
               if bool_decide (bias_dims convFwdDims = []) then None
               else Some DummyData;
             dst_mem := DummyData;
             fwd_pd := pd |}
  end.

Definition GetPrimitiveDesc (p : MklConvFwdPrimitive) : ConvFwdPd := fwd_pd p.

(** Every slot the primitive has is bound to the dummy data. *)
Definition unbound (p : MklConvFwdPrimitive) : Prop :=
  src_mem p = DummyData /\ filter_mem p = DummyData /\ dst_mem p = DummyData
  /\ (bias_mem p = None \/ bias_mem p = Some DummyData).

End Primitive.

(** ** The execution context *)

(** An input tensor: its shape and, for a tensor of integers, its values in
    row-major order. *)
Record InputTensor := {
  shape : TensorShape;
  flat : list Z;
}.

Definition tensor_dims (t : InputTensor) : Z := Z.of_nat (length (shape t)).

(** What a call does that the caller or a later call can observe, in the
    order it does it. *)
Inductive Event `{ConvEngine} :=
| PrimitiveBuilt (convFwdDims : MklConvFwdParams)
| PrimitiveDeleted
| OutputAllocated (index : Z) (output_shape : TensorShape)
| InputForwarded (input_index output_index : Z) (output_shape : TensorShape)
| PersistentAllocated (tensor_shape : TensorShape)
| Reordered (from to : memory_desc) (src dst : ptr)
| Executed (src filter bias dst : ptr).

(** [OpKernelContext]: the inputs, whether the framework lets an input
    buffer be forwarded to an output, the status, and the events so far. *)
Record OpKernelContext `{ConvEngine} := {
  inputs : Z -> InputTensor;
  forwardable : Z -> bool;
  ctx_status : Status.t;
  events : list Event;
}.

#[global] Instance OpKernelContext_channel `{ConvEngine} {K : Type}
  : StatusChannel (K * OpKernelContext) := {|
  status s := ctx_status (snd s);
  set_status st s :=
    (fst s, {| inputs := inputs (snd s); forwardable := forwardable (snd s);
               ctx_status := st; events := events (snd s) |});
|}.

(** The element types a kernel is instantiated with, by [typeid] name, and
    the size of the filter's. *)
Record KernelTypes := {
  Tinput : string;
  Tfilter : string;
  Tbias : string;
  Toutput : string;
  Ttemp_output : string;
  sizeof_Tfilter : Z;
}.

Section Context_.
Context `{ConvEngine} {K : Type}.

Abbreviation Op A := (Body (K * OpKernelContext) A).

Definition input (index : Z) : Op InputTensor :=
  fun s => (s, Next (inputs (snd s) index)).

Definition context_status : Op Status.t :=
  fun s => (s, Next (ctx_status (snd s))).

Definition emit (ev : Event) : Op unit :=
  fun s =>
    ((fst s, {| inputs := inputs (snd s); forwardable := forwardable (snd s);
                ctx_status := ctx_status (snd s);
                events := events (snd s) ++ [ev] |}),
     Next tt).

(** [context->allocate_output(index, shape, &tensor)], taken to succeed:
    the data of the tensor allocated. *)
Definition allocate_output (index : Z) (output_shape : TensorShape) : Op ptr :=
  emit (OutputAllocated index output_shape) ;;
  ret (OutputData index).

(** [context->forward_input_to_output_with_shape(...)]: whether the input
    buffer was forwarded. *)
Definition forward_input_to_output_with_shape (input_index output_index : Z)
    (output_shape : TensorShape) : Op bool :=
  fun s =>
    if forwardable (snd s) input_index
    then bind (emit (InputForwarded input_index output_index output_shape))
              (fun _ => ret true) s
    else (s, Next false).

(** [CreateAndExecuteReorder(reorder_desc, src, dst, ...)]. *)
Definition CreateAndExecuteReorder (from to : memory_desc) (src dst : ptr) : Op unit :=
  match reorder_error from to src with
  | Some e => throw e
  | None => emit (Reordered from to src dst)
  end.

(** [MklDnnData::CheckReorderToOpMem(op_md, engine, context)] on user
    memory [src] described by [from], when the two descriptors differ: the
    data is reordered into operation memory, whose data handle
    [GetOpMem().get_data_handle()] is the result. *)
Definition CheckReorderToOpMem (from to : memory_desc) (src : ptr) : Op ptr :=
  CreateAndExecuteReorder from to src (OpMemData from to src) ;;
  ret (OpMemData from to src).

End Context_.

(** [MklDnnDimsToTFShape]: the shape with these dimension sizes. *)
Definition MklDnnDimsToTFShape (d : dims) : TensorShape := d.

Definition NONE_DIMS : dims := [].

Definition kInputIndex_Src : Z := 0.
Definition kInputIndex_Filter : Z := 1.
Definition kInputIndex_Bias : Z := 2.
Definition kInputIndex_Add : Z := 3.
Definition kOutputIndex_Dst : Z := 0.

(** ** [MklConvOp::Compute] *)

Section Compute.
Context `{ConvEngine}.
Variable T : KernelTypes.
Variables pad_enabled is_depthwise : bool.

Abbreviation Op A := (Body (MklConvOp * OpKernelContext) A).

Definition assign_cache (data : Tensor) (md : option memory_desc) : Op unit :=
  assign (fun k => assign_cached_filter_md_ptensor_ md
                     (assign_cached_filter_data_ptensor_ data k)).

(** [AllocatePersistentTensor(context, conv_prim_desc, &filter_tensor)]:
    whether [*filter_tensor] points to the data tensor when the helper
    returns.  Each [OP_REQUIRES_OK] reports a refused allocation and returns
    from the helper: after the first nothing has been written and
    [*filter_tensor] is still null, after the second the data tensor is
    allocated and the descriptor tensor is as it was.  When both are
    granted the descriptor of the weights is written through the second
    tensor. *)
Definition AllocatePersistentTensor (conv_prim_desc : ConvFwdPd) : Op bool :=
  let filter_tf_shape := [get_size (weights_desc conv_prim_desc) / sizeof_Tfilter T] in
  let granted := allocate_persistent (Tfilter T) filter_tf_shape in
  if negb (Status.ok granted) then
    modify (CtxFailure granted) ;;
    ret false
  else
    emit (PersistentAllocated filter_tf_shape) ;;
    assign (assign_cached_filter_data_ptensor_
              {| t_shape := filter_tf_shape; t_copy_of := None |}) ;;
    let cached_filter_md_shape := [sizeof_memory_desc] in
    let granted := allocate_persistent "uint8" cached_filter_md_shape in
    if negb (Status.ok granted) then
      modify (CtxFailure granted) ;;
      ret true
    else
      emit (PersistentAllocated cached_filter_md_shape) ;;
      assign (assign_cached_filter_md_ptensor_ (Some (weights_desc conv_prim_desc))) ;;
      ret true.

(** [IsFilterCacheEmpty(context)], under the shared lock. *)
Definition IsFilterCacheEmpty : Op bool :=
  k <- this ;;
  ret (NumElements (cached_filter_data_ptensor_ k) =? 0).

(** [CacheFilter(context, conv_fwd_pd, filter_data, filter_tensor, filter,
    filter_md)], under the exclusive lock.  [GetTensorBuffer] reads the
    tensor [filter_tensor_ptr] points to, and [memcpy] fills its buffer. *)
Definition CacheFilter (conv_fwd_pd : ConvFwdPd) (filter_md : memory_desc) : Op unit :=
  k <- this ;;
  if 0 <? NumElements (cached_filter_data_ptensor_ k) then return_
  else
    filter_data <-
      CheckReorderToOpMem filter_md (weights_desc conv_fwd_pd)
        (InputData kInputIndex_Filter) ;;
    filter_tensor_ptr <- AllocatePersistentTensor conv_fwd_pd ;;
    if negb (filter_tensor_ptr : bool) then undefined NullDereference
    else
      k <- this ;;
      assign_cache
        {| t_shape := t_shape (cached_filter_data_ptensor_ k);
           t_copy_of := Some filter_data |}
        (cached_filter_md_ptensor_ k).

(** [GetCachedFilter(context, filter_md)], under the shared lock.  The
    cached descriptor is read through the data pointer of its tensor. *)
Definition GetCachedFilter (filter_md : memory_desc) : Op ptr :=
  k <- this ;;
  match cached_filter_md_ptensor_ k with
  | None => undefined NullDereference
  | Some cached_filter_md =>
      if bool_decide (filter_md = cached_filter_md) then ret CachedFilterData
      else ret nullptr
  end.

(** [PadWithConvFusion(context, padding_left, padding_right,
    pad_attr_enabled)]: the two padding vectors as the call leaves them;
    they are left as they were when the check on the paddings input
    fails. *)
Definition PadWithConvFusion (padding_left padding_right : dims)
    (pad_attr_enabled : bool) : Op (dims * dims) :=
  k <- this ;;
  paddings <-
    (if pad_attr_enabled then ret (Some (padding_list_ k))
     else
       paddings_tf <- input (input_index_pad_ k) ;;
       if tensor_dims paddings_tf =? 2 then ret (Some (flat paddings_tf))
       else
         modify (CtxFailure
                   (errors.InvalidArgument
                      ("paddings must be 2-dimensional: "
                       ++ DebugString (shape paddings_tf)))) ;;
         ret None) ;;
  match paddings with
  | None => ret (padding_left, padding_right)
  | Some paddings =>
      let data_format := ToString (data_format_ k) in
      pads <-
        (if bool_decide (data_format = "NHWC") then
           pad_top <- subscript paddings 2 ;;
           pad_bottom <- subscript paddings 3 ;;
           pad_left <- subscript paddings 4 ;;
           pad_right <- subscript paddings 5 ;;
           ret (pad_top, pad_bottom, pad_left, pad_right)
         else if bool_decide (data_format = "NCHW") then
           pad_top <- subscript paddings 4 ;;
           pad_bottom <- subscript paddings 5 ;;
           pad_left <- subscript paddings 6 ;;
           pad_right <- subscript paddings 7 ;;
           ret (pad_top, pad_bottom, pad_left, pad_right)
         else ret (0, 0, 0, 0)) ;;
      let '(pad_top, pad_bottom, pad_left, pad_right) := pads in
      ret ([pad_top; pad_left], [pad_bottom; pad_right])
  end.

(** [ExtendConvFwdParams(context, params)] of the base class. *)
Definition ExtendConvFwdParams (k : MklConvOp) (params : MklConvFwdParams)
  : MklConvFwdParams :=
  {| src_dims := src_dims params;
     filter_dims := filter_dims params;
     bias_dims := bias_dims params;
     dst_dims := dst_dims params;
     strides := strides params;
     dilations := dilations params;
     padding_left := padding_left params;
     padding_right := padding_right params;
     tf_fmt := tf_fmt params;
     dtypes := dtypes params ++ Tinput T ++ Tfilter T ++ Tbias T ++ Toutput T;
     post_op_params :=
       post_op_params params
       ++ (if fuse_add_ k
           then [{| po_name := "sum"; po_alg := alg_undef; po_param := [1%float];
                    po_partial_key := "" |}]
           else [])
       ++ (if fuse_activation_ k
           then [{| po_name := "activation"; po_alg := activation_alg_ k;
                    po_param := [1%float; alpha_or_upbound_ k; 0%float];
                    po_partial_key := "" |}]
           else []) |}.

(** [GetBiasHandle(context, conv_fwd_pd, bias_tensor)] of the base class. *)
Definition GetBiasHandle (k : MklConvOp) : ptr :=
  if fuse_biasadd_ k then InputData kInputIndex_Bias else nullptr.

(** [AllocateOutputTensor(context, conv_prim_desc, output_dims_mkl_order,
    output_tf_format, is_conv2d, &output_tensor)] of the base class: the
    data of the output tensor.  When the summand cannot be forwarded the
    members [fuse_add_src_] and [fuse_add_dst_] are reset to memory objects
    on the summand and on the output. *)
Definition AllocateOutputTensor (output_dims_mkl_order : dims)
    (output_tf_format : TensorFormat) (is_conv2d : bool) : Op ptr :=
  k <- this ;;
  let output_tf_shape :=
    if is_conv2d then
      let out_batch := at_ output_dims_mkl_order 0 in
      let out_rows := at_ output_dims_mkl_order 2 in
      let out_cols := at_ output_dims_mkl_order 3 in
      let out_depth := at_ output_dims_mkl_order 1 in
      ShapeFromFormat output_tf_format out_batch [out_rows; out_cols] out_depth
    else
      let out_batch := at_ output_dims_mkl_order 0 in
      let out_planes := at_ output_dims_mkl_order 2 in
      let out_rows := at_ output_dims_mkl_order 3 in
      let out_cols := at_ output_dims_mkl_order 4 in
      let out_depth := at_ output_dims_mkl_order 1 in
      ShapeFromFormat output_tf_format out_batch [out_planes; out_rows; out_cols]
        out_depth in
  if fuse_add_ k then
    add_tensor <- input kInputIndex_Add ;;
    forwarded <-
      forward_input_to_output_with_shape kInputIndex_Add kOutputIndex_Dst
        output_tf_shape ;;
    if (forwarded : bool) then ret (InputData kInputIndex_Add)
    else
      dst_buf <- allocate_output kOutputIndex_Dst output_tf_shape ;;
      let add_buf := InputData kInputIndex_Add in
      let add_md := make_desc [num_elements (shape add_tensor)] (Toutput T) tag_x in
      let dst_md := add_md in
      assign (assign_fuse_add_src_ (Some (add_md, add_buf))) ;;
      assign (assign_fuse_add_dst_ (Some (dst_md, dst_buf))) ;;
      CreateAndExecuteReorder add_md dst_md add_buf dst_buf ;;
      ret dst_buf
  else allocate_output kOutputIndex_Dst output_tf_shape.

(** [new MklConvFwdPrimitive<...>(convFwdDims)]: the constructor runs
    [Setup] on the fresh object. *)
Definition new_MklConvFwdPrimitive (convFwdDims : MklConvFwdParams)
  : Op MklConvFwdPrimitive :=
  match Setup convFwdDims with
  | inl e => throw e
  | inr conv_fwd => emit (PrimitiveBuilt convFwdDims) ;; ret conv_fwd
  end.

(** A call of [conv_fwd->Execute(...)] from the kernel. *)
Definition conv_fwd_Execute (conv_fwd : MklConvFwdPrimitive)
    (src_data filter_data bias_data dst_data : ptr) : Op MklConvFwdPrimitive :=
  match Execute src_data filter_data bias_data dst_data conv_fwd with
  | (conv_fwd', Next _) | (conv_fwd', Return_) =>
      emit (Executed src_data filter_data bias_data dst_data) ;;
      ret conv_fwd'
  | (_, Raise e) => throw e
  | (_, Undefined u) => undefined u
  end.

(** The block of [Compute] that chooses the filter data handed to the
    primitive: the filter as the caller laid it out when that is the
    layout the primitive wants, otherwise the cached conversion when the
    filter is constant and the cache answers, otherwise a conversion made
    for this call. *)
Definition Compute_filter_data (conv_fwd_pd : ConvFwdPd) (filter_md : memory_desc)
  : Op ptr :=
  k <- this ;;
  if negb (bool_decide (filter_md = weights_desc conv_fwd_pd)) then
    cached <-
      (if is_filter_const_ k then
         empty <- IsFilterCacheEmpty ;;
         when empty (call (CacheFilter conv_fwd_pd filter_md)) ;;
         filter_data <- GetCachedFilter (weights_desc conv_fwd_pd) ;;
         ret (filter_data, negb (bool_decide (filter_data = nullptr)))
       else ret (nullptr, false)) ;;
    let '(filter_data, is_filter_cached) := cached in
    if negb is_filter_cached then
      CheckReorderToOpMem filter_md (weights_desc conv_fwd_pd)
        (InputData kInputIndex_Filter)
    else ret filter_data
  else ret (InputData kInputIndex_Filter).

(** The first block of [Compute]: the inputs, the padding, and the sizes
    in MKL-DNN order; the call returns here when an error has been
    reported. *)
Definition Compute_sizes : Op (TensorShape * ConvFwdSizes) :=
  src_tensor <- input kInputIndex_Src ;;
  filter_tensor <- input kInputIndex_Filter ;;
  k <- this ;;
  let pad_attr_enabled := existsb (fun padding_val => negb (padding_val =? 0))
                            (padding_list_ k) in
  paddings <-
    (if fuse_pad_ k || pad_attr_enabled
     then PadWithConvFusion [] [] pad_attr_enabled
     else ret ([], [])) ;;
  let src_tf_shape := shape src_tensor in
  let filter_tf_shape := shape filter_tensor in
  let '(sizes, reported) :=
    GetConvFwdSizesInMklOrder
      {| arg_strides := strides_ k; arg_padding := padding_ k;
         arg_data_format := data_format_ k; arg_dilations := dilations_ k;
         arg_src_shape := src_tf_shape; arg_filter_shape := filter_tf_shape;
         arg_padding_left := fst paddings; arg_padding_right := snd paddings;
         arg_pad_enabled := fuse_pad_ k || pad_attr_enabled;
         arg_is_depthwise := is_depthwise |} in
  when (negb (Status.ok reported)) (modify (CtxFailure reported)) ;;
  st <- context_status ;;
  if negb (Status.ok st) then return_
  else ret (src_tf_shape, sizes).

(** The corner case of [Compute]: an output of no element, or of batch
    size 0. *)
Definition nothing_to_compute (sizes : ConvFwdSizes) : bool :=
  let dst_tf_shape := MklDnnDimsToTFShape (out_dst_dims_tf_order sizes) in
  (num_elements dst_tf_shape =? 0) || (at_ (out_dst_dims_tf_order sizes) 0 =? 0).

(** [MklConvOp::Compute(OpKernelContext* context)]. *)
Definition Compute : Op unit :=
  try_catch
    (sized <- Compute_sizes ;;
     let '(src_tf_shape, sizes) := sized in
     k <- this ;;
     if nothing_to_compute sizes then
       allocate_output kOutputIndex_Dst src_tf_shape ;;
       return_
     else
       let is_conv2d := size (strides_ k) =? 4 in
       when (negb is_conv2d)
         (OP_REQUIRES (negb pad_enabled)
            (errors.InvalidArgument "Pad + Conv fusion only works for 2D") ;;
          OP_REQUIRES (negb (fuse_pad_ k))
            (errors.InvalidArgument "Pad+Conv fusion only works for 2D")) ;;
       when is_depthwise
         (OP_REQUIRES is_conv2d
            (errors.InvalidArgument
               "Only 2D convolution is supported for depthwise.")) ;;
       let tf_fmt := if is_conv2d
                     then TFDataFormatToMklDnnDataFormat (data_format_ k)
                     else TFDataFormatToMklDnn3DDataFormat (data_format_ k) in
       let mkl_fmt_tag := MklTensorFormatToMklDnnDataFormat tf_fmt in
       OP_REQUIRES (negb (bool_decide (mkl_fmt_tag = tag_undef)))
         (errors.InvalidArgument "Invalid data format") ;;
       let src_md := make_desc (out_src_dims sizes) (Tinput T) mkl_fmt_tag in
       let filter_format := if is_conv2d
                            then (if is_depthwise then tag_hwigo else tag_hwio)
                            else tag_dhwio in
       let filter_md := make_desc (out_filter_dims sizes) (Tfilter T) filter_format in
       let dilations := map (fun d => d - 1) (out_dilations sizes) in
       bias_dims <-
         (if fuse_biasadd_ k then
            bias_tensor <- input kInputIndex_Bias ;;
            let '(bias_dims, reported) := GetBiasSizeInMklOrder (shape bias_tensor) in
            when (negb (Status.ok reported)) (modify (CtxFailure reported)) ;;
            ret bias_dims
          else ret []) ;;
       let convFwdDims :=
         ExtendConvFwdParams k
           {| src_dims := out_src_dims sizes;
              filter_dims := out_filter_dims sizes;
              bias_dims := if fuse_biasadd_ k then bias_dims else NONE_DIMS;
              dst_dims := out_dst_dims_mkl_order sizes;
              strides := out_strides sizes;
              dilations := dilations;
              padding_left := out_padding_left sizes;
              padding_right := out_padding_right sizes;
              tf_fmt := tf_fmt;
              dtypes := "";
              post_op_params := [] |} in
       conv_fwd <- new_MklConvFwdPrimitive convFwdDims ;;
       let conv_fwd_pd := GetPrimitiveDesc conv_fwd in
       dst_data <-
         AllocateOutputTensor (out_dst_dims_mkl_order sizes) (data_format_ k)
           is_conv2d ;;
       let src_data := InputData kInputIndex_Src in
       filter_data <- Compute_filter_data conv_fwd_pd filter_md ;;
       (if fuse_biasadd_ k then
          let bias_data := GetBiasHandle k in
          conv_fwd_Execute conv_fwd src_data filter_data bias_data dst_data
        else
          conv_fwd_Execute conv_fwd src_data filter_data nullptr dst_data) ;;
       emit PrimitiveDeleted)
    (report_exception "581").

End Compute.

(** ** Contexts, as a call leaves them *)

Section ContextUpdates.
Context `{ConvEngine}.

Definition with_status (st : Status.t) (c : OpKernelContext) : OpKernelContext :=
  {| inputs := inputs c; forwardable := forwardable c; ctx_status := st;
     events := events c |}.

Definition add_event (ev : Event) (c : OpKernelContext) : OpKernelContext :=
  {| inputs := inputs c; forwardable := forwardable c; ctx_status := ctx_status c;
     events := events c ++ [ev] |}.

(** A body that at most reports on the status channel. *)
Definition status_only {K A} (m : Body (K * OpKernelContext) A) : Prop :=
  forall k c, exists st, fst (m (k, c)) = (k, with_status st c).

End ContextUpdates.

(** ** The fused matmul kernel: [MklFusedMatMulOp::Compute] *)

(** [MklDnnMatMulFwdParams], as the kernel fills it. *)
Record MklDnnMatMulFwdParams `{MklDnn} := {
  mm_src_dims : dims;
  mm_weight_dims : dims;
  mm_bias_dims : dims;
  mm_dst_dims : dims;
  mm_src_format : format_tag;
  mm_weight_format : format_tag;
  mm_post_op_params : list (string * list float);
}.

#[global] Instance MklDnnMatMulFwdParams_eq_dec `{MklDnn}
  : EqDecision MklDnnMatMulFwdParams.
Proof. solve_decision. Defined.

(** The part of [mkl_matmul_ops_common.h] the kernel is written against:
    the inner-product primitive descriptor the backend negotiates (or
    refuses, by throwing), how a reorder and an execution end, and the
    weight cache of the base class [MklDnnMatMulOpBase]. *)
Class MatMulEngine `{MklDnn} := {
  MatMulPd : Type;
  matmul_primitive_desc : MklDnnMatMulFwdParams -> mkldnn_error + MatMulPd;
  matmul_src_desc : MatMulPd -> memory_desc;
  matmul_weights_desc : MatMulPd -> memory_desc;
  matmul_dst_desc : MatMulPd -> memory_desc;
  matmul_reorder_error : memory_desc -> memory_desc -> ptr -> option mkldnn_error;
  matmul_execute_error : MatMulPd -> ptr -> ptr -> ptr -> ptr -> option mkldnn_error;
  WeightCache : Type;
  IsWeightCacheEmpty : WeightCache -> bool;
  CacheWeight : MatMulPd -> memory_desc -> WeightCache -> mkldnn_error + WeightCache;
  GetCachedWeight : memory_desc -> WeightCache -> ptr;
}.

(** An input of the matmul kernel: the tensor's shape and what its
    [MklDnnShape] says. *)
Record MatMulInput `{MklDnn} := {
  mm_shape : TensorShape;
  IsMklTensor : bool;
  GetTfShape : TensorShape;
  GetMklLayout : memory_desc;
}.

Inductive MatMulEvent `{MatMulEngine} :=
| MatMulPrimitiveBuilt (matmul_params : MklDnnMatMulFwdParams)
| MatMulOutputAllocated (index : Z) (output_shape : TensorShape)
| MatMulReordered (from to : memory_desc) (src dst : ptr)
| MatMulRead (buffer : ptr) (i : nat)
| MatMulExecuted (src weight bias dst : ptr).

(** The buffer an event writes. *)
Definition writes `{MatMulEngine} (ev : MatMulEvent) : option ptr :=
  match ev with
  | MatMulReordered _ _ _ dst => Some dst
  | MatMulExecuted _ _ _ dst => Some dst
  | _ => None
  end.

Record MatMulContext `{MatMulEngine} := {
  mm_inputs : Z -> MatMulInput;
  mm_status : Status.t;
  mm_events : list MatMulEvent;
}.

(** What outlives a call: the kernel object with the weight cache of its
    base class, and the pool of the primitive factory, a primitive's handle
    being its position in the pool. *)
Record MatMulState `{MatMulEngine} := {
  kernel : MklFusedMatMulOp;
  weight_cache : WeightCache;
  pool : list (MklDnnMatMulFwdParams * MatMulPd);
}.

#[global] Instance MatMulContext_channel `{MatMulEngine} {K : Type}
  : StatusChannel (K * MatMulContext) := {|
  status s := mm_status (snd s);
  set_status st s :=
    (fst s, {| mm_inputs := mm_inputs (snd s); mm_status := st;
               mm_events := mm_events (snd s) |});
|}.

Definition kInputIndexSrc : Z := 0.
Definition kInputIndexWeight : Z := 1.
Definition kInputIndexBias : Z := 2.

Section MatMulCompute.
Context `{MatMulEngine}.
(** The element type [T], by [typeid] name, and its size. *)
Variable T_name : string.
Variable sizeof_T : Z.

Abbreviation Op A := (Body (MatMulState * MatMulContext) A).

Definition mm_input (index : Z) : Op MatMulInput :=
  fun s => (s, Next (mm_inputs (snd s) index)).

Definition mm_emit (ev : MatMulEvent) : Op unit :=
  fun s =>
    ((fst s, {| mm_inputs := mm_inputs (snd s); mm_status := mm_status (snd s);
                mm_events := mm_events (snd s) ++ [ev] |}),
     Next tt).

Definition members : Op MklFusedMatMulOp := fun s => (s, Next (kernel (fst s))).

Definition IsMatrix (s : TensorShape) : bool := Z.of_nat (length s) =? 2.
Definition IsVector (s : TensorShape) : bool := Z.of_nat (length s) =? 1.
Definition dim_size (s : TensorShape) (i : Z) : Z := at_ s (Z.to_nat i).

(** Modelled from the spec: the primitive factory
    ([MklDnnMatMulFwdPrimitiveFactory::Get], declared in
    [mkl_matmul_ops_common.h]).  "On first request for a given descriptor
    value, builds the primitive ... and stores it keyed by descriptor
    equality; on repeated requests with an equal descriptor, returns the
    existing handle without rebuilding"; a failure to build is the
    backend's exception. *)
Definition find_primitive (matmul_params : MklDnnMatMulFwdParams)
    (p : list (MklDnnMatMulFwdParams * MatMulPd)) : option (nat * MatMulPd) :=
  match list_find (fun entry => fst entry = matmul_params) p with
  | Some (i, entry) => Some (i, snd entry)
  | None => None
  end.

Definition MklDnnMatMulFwdPrimitiveFactory_Get (matmul_params : MklDnnMatMulFwdParams)
  : Op (nat * MatMulPd) :=
  fun s =>
    match find_primitive matmul_params (pool (fst s)) with
    | Some prim => (s, Next prim)
    | None =>
        match matmul_primitive_desc matmul_params with
        | inl e => (s, Raise e)
        | inr pd =>
            bind (mm_emit (MatMulPrimitiveBuilt matmul_params))
              (fun _ => ret (length (pool (fst s)), pd))
              ({| kernel := kernel (fst s); weight_cache := weight_cache (fst s);
                  pool := pool (fst s) ++ [(matmul_params, pd)] |}, snd s)
        end
    end.

(** [ExtendMklDnnMatMulFwdParams(ctx, params)]: the post-op the second
    fused op adds, and the status reported for one it does not know. *)
Definition ExtendMklDnnMatMulFwdParams (k : MklFusedMatMulOp)
    (params : MklDnnMatMulFwdParams) : MklDnnMatMulFwdParams * Status.t :=
  let push entry :=
    {| mm_src_dims := mm_src_dims params; mm_weight_dims := mm_weight_dims params;
       mm_bias_dims := mm_bias_dims params; mm_dst_dims := mm_dst_dims params;
       mm_src_format := mm_src_format params;
       mm_weight_format := mm_weight_format params;
       mm_post_op_params := mm_post_op_params params ++ [entry] |} in
  if Z.of_nat (length (fused_ops_ k)) =? 2 then
    let post_op := nth 1 (fused_ops_ k) "" in
    if bool_decide (post_op = "Relu") then
      (push ("relu", [1%float; 0%float; 0%float]), Status.OK)
    else if bool_decide (post_op = "Relu6") then
      (push ("relu6", [1%float; 6%float; 0%float]), Status.OK)
    else if bool_decide (post_op = "Elu") then
      (push ("elu", [1%float; 1%float; 0%float]), Status.OK)
    else if bool_decide (post_op = "Gelu") then
      (push ("gelu", [1%float; 1%float; 0%float]), Status.OK)
    else
      (params,
       errors.InvalidArgument
         ("Unsupported post-argument in MklFusedMatMul: " ++ post_op))
  else (params, Status.OK).

(** The output tensor of the call, allocated for [n] elements. *)
Definition mm_allocate_output (index : Z) (output_shape : TensorShape) : Op ptr :=
  mm_emit (MatMulOutputAllocated index output_shape) ;;
  ret (OutputData index).

Definition mm_CheckReorderToOpMem (from to : memory_desc) (src : ptr) : Op ptr :=
  match matmul_reorder_error from to src with
  | Some e => throw e
  | None =>
      mm_emit (MatMulReordered from to src (OpMemData from to src)) ;;
      ret (OpMemData from to src)
  end.

(** [matmul_prim->Execute(src_data, weight_data, bias_data, dst_data)]. *)
Definition matmul_prim_Execute (matmul_pd : MatMulPd)
    (src_data weight_data bias_data dst_data : ptr) : Op unit :=
  match matmul_execute_error matmul_pd src_data weight_data bias_data dst_data with
  | Some e => throw e
  | None => mm_emit (MatMulExecuted src_data weight_data bias_data dst_data)
  end.

(** Reading the first [n] elements of the destination, in order, each
    compared with the minimum and the maximum so far. *)
Definition reads (dst_data : ptr) (n : nat) : Op unit :=
  fold_right (fun i rest => mm_emit (MatMulRead dst_data i) ;; rest) (ret tt) (seq 0 n).

(** The loop [for (int i = 0; i < dst_tensor->NumElements(); ++i)] over a
    destination of [n] elements.  The counter is an [int] compared with an
    [int64]: with [2^31] elements or more the loop does not end, and [++i]
    overflows after [2^31] reads. *)
Definition scan (dst_data : ptr) (n : Z) : Op unit :=
  if n <? 2 ^ 31 then reads dst_data (Z.to_nat n)
  else reads dst_data (Z.to_nat (2 ^ 31)) ;; undefined SignedOverflow.

Definition this_weight_cache : Op WeightCache :=
  fun s => (s, Next (weight_cache (fst s))).

(** [this->CacheWeight(...)], a call into the base class. *)
Definition this_CacheWeight (matmul_pd : MatMulPd) (weight_md : memory_desc) : Op unit :=
  fun s =>
    match CacheWeight matmul_pd weight_md (weight_cache (fst s)) with
    | inl e => (s, Raise e)
    | inr c => (({| kernel := kernel (fst s); weight_cache := c; pool := pool (fst s) |},
                 snd s), Next tt)
    end.

(** What the first block of [Compute] leaves in its locals. *)
Record MatMulLocals := {
  src_tensor : MatMulInput;
  batch : Z;
  channel : Z;
  l_src_dims : dims;
  l_weight_dims : dims;
  l_src_format : format_tag;
  l_weight_format : format_tag;
  matmul_params : MklDnnMatMulFwdParams;
}.

(** The first block of [Compute]: the inputs, the checks on their shapes,
    and the parameters of the primitive.  [batch], [k] and [channel] are
    [const int]: each dimension size, an [int64], is narrowed when it is
    stored, and compared or printed as the narrowed value. *)
Definition MatMul_prepare : Op MatMulLocals :=
  src_tensor <- mm_input kInputIndexSrc ;;
  weight_tensor <- mm_input kInputIndexWeight ;;
  bias_tensor <- mm_input kInputIndexBias ;;
  OP_REQUIRES (negb (IsMklTensor weight_tensor))
    (errors.InvalidArgument "Weight should not be in MKL Layout") ;;
  let src_tf_shape := if IsMklTensor src_tensor then GetTfShape src_tensor
                      else mm_shape src_tensor in
  let weight_tf_shape := mm_shape weight_tensor in
  OP_REQUIRES (IsMatrix src_tf_shape) (errors.InvalidArgument "In[0] is not a matrix") ;;
  OP_REQUIRES (IsMatrix weight_tf_shape)
    (errors.InvalidArgument "In[1] is not a matrix") ;;
  OP_REQUIRES (IsVector (mm_shape bias_tensor))
    (errors.InvalidArgument "Biases must be 1D") ;;
  this <- members ;;
  let dim_pair := (1, if transpose_b_ this then 1 else 0) in
  let batch := to_int (dim_size src_tf_shape (1 - fst dim_pair)) in
  let k := to_int (dim_size src_tf_shape (fst dim_pair)) in
  let channel := to_int (dim_size weight_tf_shape (1 - snd dim_pair)) in
  OP_REQUIRES (k =? dim_size weight_tf_shape (snd dim_pair))
    (errors.InvalidArgument
       ("Matrix size-incompatible: In[0]: " ++ DebugString src_tf_shape
        ++ ", In[1]: " ++ DebugString weight_tf_shape)) ;;
  OP_REQUIRES (dim_size (mm_shape bias_tensor) 0 =? channel)
    (errors.InvalidArgument
       ("Must provide as many biases as the channel size: "
        ++ DebugString (mm_shape bias_tensor) ++ " vs. " ++ pretty channel)) ;;
  let src_dims := [batch; k] in
  let weight_dims := [channel; k] in
  let bias_dims := [channel] in
  let dst_dims := [batch; channel] in
  let src_format := tag_nc in
  let weight_format := if transpose_b_ this then tag_oi else tag_io in
  let '(matmul_params, reported) :=
    ExtendMklDnnMatMulFwdParams this
      {| mm_src_dims := src_dims; mm_weight_dims := weight_dims;
         mm_bias_dims := bias_dims; mm_dst_dims := dst_dims;
         mm_src_format := src_format;
         mm_weight_format := if is_weight_const_ this then tag_any else weight_format;
         mm_post_op_params := [] |} in
  when (negb (Status.ok reported)) (modify (CtxFailure reported)) ;;
  ret {| src_tensor := src_tensor; batch := batch; channel := channel;
         l_src_dims := src_dims; l_weight_dims := weight_dims;
         l_src_format := src_format; l_weight_format := weight_format;
         matmul_params := matmul_params |}.

(** The shape the output tensor is allocated with. *)
Definition dst_tensor_shape (l : MatMulLocals) (matmul_pd : MatMulPd) : TensorShape :=
  if IsMklTensor (src_tensor l)
  then [get_size (matmul_dst_desc matmul_pd) / sizeof_T]
  else [batch l; channel l].

(** The body of the [try] block of [Compute]. *)
Definition MatMul_try_block (l : MatMulLocals) (matmul_pd : MatMulPd)
    (dst_shape : TensorShape) (dst_data : ptr) : Op unit :=
  this <- members ;;
  let src_data := InputData kInputIndexSrc in
  let weight_data := InputData kInputIndexWeight in
  let bias_data := InputData kInputIndexBias in
  let src_md := if IsMklTensor (src_tensor l) then GetMklLayout (src_tensor l)
                else make_desc (l_src_dims l) T_name (l_src_format l) in
  src_data <-
    (if negb (bool_decide (src_md = matmul_src_desc matmul_pd))
     then mm_CheckReorderToOpMem src_md (matmul_src_desc matmul_pd) src_data
     else ret src_data) ;;
  let weight_md := make_desc (l_weight_dims l) T_name (l_weight_format l) in
  weight_data <-
    (if negb (bool_decide (weight_md = matmul_weights_desc matmul_pd)) then
       cached_weight_data <-
         (if is_weight_const_ this then
            cache <- this_weight_cache ;;
            when (IsWeightCacheEmpty cache)
              (this_CacheWeight matmul_pd weight_md) ;;
            cache <- this_weight_cache ;;
            ret (GetCachedWeight (matmul_weights_desc matmul_pd) cache)
          else ret nullptr) ;;
       if negb (bool_decide (cached_weight_data = nullptr))
       then ret cached_weight_data
       else mm_CheckReorderToOpMem weight_md (matmul_weights_desc matmul_pd)
              weight_data
     else ret weight_data) ;;
  scan dst_data (num_elements dst_shape) ;;
  matmul_prim_Execute matmul_pd src_data weight_data bias_data dst_data.

(** [MklFusedMatMulOp::Compute(OpKernelContext* ctx)]. *)
Definition MatMul_Compute : Op unit :=
  l <- MatMul_prepare ;;
  matmul_prim <- MklDnnMatMulFwdPrimitiveFactory_Get (matmul_params l) ;;
  let matmul_pd := snd matmul_prim in
  let dst_shape := dst_tensor_shape l matmul_pd in
  dst_data <- mm_allocate_output 0 dst_shape ;;
  if (batch l =? 0) || (channel l =? 0) then return_
  else
    try_catch (MatMul_try_block l matmul_pd dst_shape dst_data)
      (report_exception "1322").

End MatMulCompute.

Definition mm_add_event `{MatMulEngine} (ev : MatMulEvent) (c : MatMulContext)
  : MatMulContext :=
  {| mm_inputs := mm_inputs c; mm_status := mm_status c;
     mm_events := mm_events c ++ [ev] |}.

(** ** The scan of the output *)

(** The reads of a scan of the [n] elements of a buffer, in order. *)
Definition reads_all `{MatMulEngine} (buffer : ptr) (n : nat) : list MatMulEvent :=
  map (MatMulRead buffer) (seq 0 n).

(** No event of [l] writes the buffer. *)
Definition unwritten `{MatMulEngine} (buffer : ptr) (l : list MatMulEvent) : Prop :=
  Forall (fun ev => writes ev <> Some buffer) l.

(** The backend throws on some reorder, or on some caching of the weight. *)
Definition preparation_may_throw `{MatMulEngine} : Prop :=
  (exists from to src e, matmul_reorder_error from to src = Some e)
  \/ (exists matmul_pd weight_md cache e, CacheWeight matmul_pd weight_md cache = inl e).

(** A part of [Compute] that gets the operands ready: it goes on, or throws
    when the backend does; it reports nothing, and writes nothing to
    [buffer]. *)
Definition preparing `{MatMulEngine} {A} (buffer : ptr)
    (m : Body (MatMulState * MatMulContext) A) : Prop :=
  forall s, exists done_ : list MatMulEvent,
    mm_events (snd (fst (m s))) = (mm_events (snd s) ++ done_)%list
    /\ unwritten buffer done_
    /\ mm_status (snd (fst (m s))) = mm_status (snd s)
    /\ match snd (m s) with
       | Next _ => True
       | Raise _ => preparation_may_throw
       | _ => False
       end.

(** A part of [Compute] that ends with the scan of a [buffer] of [n]
    elements and the execution of the primitive on it.  It ends in one of
    three ways: every element is read and the primitive is executed; a
    backend exception is in flight, thrown by the preparation before the
    first read or by the execution after the last one; or, with [2^31]
    elements or more, the counter of the scan overflows after [2^31]
    reads. *)
Definition scanning `{MatMulEngine} (buffer : ptr) (n : Z)
    (m : Body (MatMulState * MatMulContext) unit) : Prop :=
  forall s, exists before after : list MatMulEvent,
    mm_events (snd (fst (m s))) = (mm_events (snd s) ++ before ++ after)%list
    /\ unwritten buffer before
    /\ mm_status (snd (fst (m s))) = mm_status (snd s)
    /\ ((n < 2 ^ 31
         /\ exists src_data weight_data,
            after = (reads_all buffer (Z.to_nat n)
                     ++ [MatMulExecuted src_data weight_data
                           (InputData kInputIndexBias) buffer])%list
            /\ snd (m s) = Next tt)
        \/ (exists e,
               ((preparation_may_throw /\ after = [])
                \/ (n < 2 ^ 31 /\ after = reads_all buffer (Z.to_nat n)))
               /\ snd (m s) = Raise e)
        \/ (2 ^ 31 <= n
            /\ after = reads_all buffer (Z.to_nat (2 ^ 31))
            /\ snd (m s) = Undefined SignedOverflow)).

(** ** Concurrent calls on one kernel *)

(** Several threads run [Compute] on the same kernel object, each with a
    context of its own, and with equal descriptors, so that each works with
    the same primitive descriptor and the same filter layout.  What they
    share is the filter cache, which the kernel touches in three critical
    sections under [mu_]: [IsFilterCacheEmpty] and [GetCachedFilter] under
    the shared lock, [CacheFilter] under the exclusive lock.  A thread is
    followed from the point where its filter is constant and has to be
    reordered; its steps are the critical sections, one at a time, and the
    reorder it makes for itself when the cache does not answer.  The events
    of all the calls are kept in one log, in the order they happen. *)

Inductive pc `{ConvEngine} :=
| AtIsFilterCacheEmpty
| AtCacheFilter
| AtGetCachedFilter
| AtReorder
| Done (filter_data : ptr)
| Thrown (e : mkldnn_error)
| Crashed (u : UB).

Record System `{ConvEngine} := {
  shared : MklConvOp;
  log : list Event;
  threads : list pc;
}.

Section Threads.
Context `{ConvEngine}.
Variable T : KernelTypes.
Variable conv_fwd_pd : ConvFwdPd.
Variable filter_md : memory_desc.
Variable inputs_ : Z -> InputTensor.

Definition context_of (l : list Event) : OpKernelContext :=
  {| inputs := inputs_; forwardable := fun _ => false;
     ctx_status := Status.OK; events := l |}.

(** One critical section (or the thread's own reorder), run on the shared
    kernel: where the thread is afterwards. *)
Definition section_ {A} (at_ : pc) (op : Body (MklConvOp * OpKernelContext) A)
    (next : A -> pc) (sys : System) : pc * MklConvOp * list Event :=
  match op (shared sys, context_of (log sys)) with
  | ((k, c), Next a) => (next a, k, events c)
  | ((k, c), Return_) => (at_, k, events c)
  | ((k, c), Raise e) => (Thrown e, k, events c)
  | ((k, c), Undefined u) => (Crashed u, k, events c)
  end.

Definition thread_step (at_ : pc) (sys : System) : pc * MklConvOp * list Event :=
  match at_ with
  | AtIsFilterCacheEmpty =>
      section_ at_ IsFilterCacheEmpty
        (fun empty => if empty : bool then AtCacheFilter else AtGetCachedFilter) sys
  | AtCacheFilter =>
      section_ at_ (call (CacheFilter T conv_fwd_pd filter_md))
        (fun _ => AtGetCachedFilter) sys
  | AtGetCachedFilter =>
      section_ at_ (GetCachedFilter (weights_desc conv_fwd_pd))
        (fun filter_data =>
           if bool_decide (filter_data = nullptr) then AtReorder
           else Done filter_data) sys
  | AtReorder =>
      section_ at_ (CheckReorderToOpMem filter_md (weights_desc conv_fwd_pd)
                  (InputData kInputIndex_Filter))
        Done sys
  | Done _ | Thrown _ | Crashed _ => (at_, shared sys, log sys)
  end.

(** Thread [i] takes its next step; a thread that has finished, or an
    index that names no thread, leaves the system as it is. *)
Definition step (sys : System) (i : nat) : System :=
  match threads sys !! i with
  | Some at_ =>
      let '(at', k, l) := thread_step at_ sys in
      {| shared := k; log := l; threads := <[i := at']> (threads sys) |}
  | None => sys
  end.

(** A schedule is the order in which the threads take their steps. *)
Definition run (schedule : list nat) (sys : System) : System :=
  fold_left step schedule sys.

(** [n] threads about to look at the cache of kernel [k]. *)
Definition start (k : MklConvOp) (n : nat) : System :=
  {| shared := k; log := []; threads := replicate n AtIsFilterCacheEmpty |}.

(** The layout conversions of the filter among the events. *)
Definition is_conversion (ev : Event) : bool :=
  match ev with
  | Reordered from to src _ =>
      bool_decide (from = filter_md) && bool_decide (to = weights_desc conv_fwd_pd)
      && bool_decide (src = InputData kInputIndex_Filter)
  | _ => false
  end.

Definition conversions (l : list Event) : nat :=
  length (filter (fun ev => is_conversion ev = true) l).

(** Every thread takes at least [n] steps in the schedule. *)
Definition fair (n : nat) (nthreads : nat) (schedule : list nat) : Prop :=
  forall i, (i < nthreads)%nat ->
            (n <= length (filter (fun j => j = i) schedule))%nat.

(** *** The state of the cache, seen from the threads *)

Let wanted := weights_desc conv_fwd_pd.
Let converted := OpMemData filter_md wanted (InputData kInputIndex_Filter).
Let size_ := get_size wanted / sizeof_Tfilter T.

(** The steps a thread still has to take, at most. *)
Definition remaining (at_ : pc) : nat :=
  match at_ with
  | AtIsFilterCacheEmpty => 3
  | AtCacheFilter => 2
  | AtGetCachedFilter => 1
  | AtReorder => 1
  | Done _ | Thrown _ | Crashed _ => 0
  end.

(** Before the conversion: the cache is empty and nothing has been
    converted; every thread is still on its way to [CacheFilter]. *)
Definition waiting (at_ : pc) : Prop :=
  at_ = AtIsFilterCacheEmpty \/ at_ = AtCacheFilter.

(** After it: the cache holds the one conversion; every thread is on its
    way to the cached buffer, or has it. *)
Definition served (at_ : pc) : Prop :=
  at_ = AtIsFilterCacheEmpty \/ at_ = AtCacheFilter \/ at_ = AtGetCachedFilter
  \/ at_ = Done CachedFilterData.

Definition cache_filled (k : MklConvOp) : Prop :=
  cached_filter_data_ptensor_ k
  = {| t_shape := [size_]; t_copy_of := Some converted |}
  /\ cached_filter_md_ptensor_ k = Some wanted.

Definition invariant (sys : System) : Prop :=
  (NumElements (cached_filter_data_ptensor_ (shared sys)) = 0
   /\ conversions (log sys) = 0%nat
   /\ Forall waiting (threads sys))
  \/ (cache_filled (shared sys)
      /\ conversions (log sys) = 1%nat
      /\ Forall served (threads sys)).

(** The steps thread [j] still has to take. *)
Definition remaining_of (sys : System) (j : nat) : nat :=
  match threads sys !! j with Some at_ => remaining at_ | None => 0%nat end.

End Threads.

Arguments conversions : simpl never.
(** ** Reference instances *)

(** The two layouts the source names, NHWC and NCHW, with the positions the
    comments of [PadWithConvFusion] give their dimensions, and a backend
    whose memory descriptors are the triples they are made from.  The
    kernels are run on concrete inputs against these. *)
Module Reference.

Inductive Format := FORMAT_NHWC | FORMAT_NCHW.

Definition format_from_string (s : string) : option Format :=
  if bool_decide (s = "NHWC") || bool_decide (s = "NDHWC") then Some FORMAT_NHWC
  else if bool_decide (s = "NCHW") || bool_decide (s = "NCDHW") then Some FORMAT_NCHW
  else None.

Definition to_string (f : Format) : string :=
  match f with FORMAT_NHWC => "NHWC" | FORMAT_NCHW => "NCHW" end.

(** The position of dimension [c] among [n] dimensions. *)
Definition GetTensorDimIndex (f : Format) (n : nat) (c : ascii) : nat :=
  let spatial := (n - 2)%nat in
  match f with
  | FORMAT_NHWC =>
      if bool_decide (c = "N"%char) then 0%nat
      else if bool_decide (c = "0"%char) then 1%nat
      else if bool_decide (c = "1"%char) then 2%nat
      else if bool_decide (c = "2"%char) then 3%nat
      else if bool_decide (c = "H"%char) then (spatial - 1)%nat
      else if bool_decide (c = "W"%char) then spatial
      else (spatial + 1)%nat
  | FORMAT_NCHW =>
      if bool_decide (c = "N"%char) then 0%nat
      else if bool_decide (c = "C"%char) then 1%nat
      else if bool_decide (c = "0"%char) then 2%nat
      else if bool_decide (c = "1"%char) then 3%nat
      else if bool_decide (c = "2"%char) then 4%nat
      else if bool_decide (c = "H"%char) then spatial
      else (spatial + 1)%nat
  end.

Definition get_tensor_dim (v : list Z) (f : Format) (c : ascii) : Z :=
  nth (GetTensorDimIndex f (length v) c) v 0.

(** A shape as [[d0,d1,...]]. *)
Definition debug_string (s : list Z) : string :=
  "[" ++ String.concat "," (map pretty s) ++ "]".

#[export] Instance formats : TensorFormatApi := {|
  TensorFormat := Format;
  FORMAT_default := FORMAT_NHWC;
  FormatFromString := format_from_string;
  GetTensorDim := get_tensor_dim;
  ToString := to_string;
  DebugString := debug_string;
|}.

Inductive Tag :=
| undef | any | x | hwio | hwigo | dhwio | nc | oi | io | nhwc | nchw | ndhwc | ncdhw
| blocked (inner : Z).

#[export] Instance Tag_eq_dec : EqDecision Tag.
Proof. solve_decision. Defined.

Definition Desc : Type := list Z * string * Tag.

#[export] Instance backend : MklDnn := {|
  memory_desc := Desc;
  format_tag := Tag;
  tag_undef := undef;
  tag_any := any;
  tag_x := x;
  tag_hwio := hwio;
  tag_hwigo := hwigo;
  tag_dhwio := dhwio;
  tag_nc := nc;
  tag_oi := oi;
  tag_io := io;
  MklTensorFormat := Format;
  TFDataFormatToMklDnnDataFormat f := f;
  TFDataFormatToMklDnn3DDataFormat f := f;
  MklTensorFormatToMklDnnDataFormat f :=
    match f with FORMAT_NHWC => nhwc | FORMAT_NCHW => nchw end;
  make_desc d ty tag := (d, ty, tag);
  get_size d := 4 * num_elements (fst (fst d));
|}.


(** A convolution engine for 2-D convolutions without padding: the
    negotiated descriptor is the parameters it was asked for, the weights
    are wanted in a blocked layout, every backend call ends as [build],
    [reorder] and [execute] say, and the framework answers a request for a
    persistent tensor as [persistent] says. *)
Definition conv_sizes (a : ConvSizesArgs) : ConvFwdSizes * Status.t :=
  let n := GetTensorDim (arg_src_shape a) (arg_data_format a) "N" in
  let h := GetTensorDim (arg_src_shape a) (arg_data_format a) "H" in
  let w := GetTensorDim (arg_src_shape a) (arg_data_format a) "W" in
  let c := GetTensorDim (arg_src_shape a) (arg_data_format a) "C" in
  let fh := at_ (arg_filter_shape a) 0 in
  let fw := at_ (arg_filter_shape a) 1 in
  let fi := at_ (arg_filter_shape a) 2 in
  let fo := at_ (arg_filter_shape a) 3 in
  let sh := GetTensorDim (arg_strides a) (arg_data_format a) "H" in
  let sw := GetTensorDim (arg_strides a) (arg_data_format a) "W" in
  let oh := (h - fh) / sh + 1 in
  let ow := (w - fw) / sw + 1 in
  ({| out_src_dims := [n; c; h; w];
      out_filter_dims := [fo; fi; fh; fw];
      out_strides := [sh; sw];
      out_dilations := [GetTensorDim (arg_dilations a) (arg_data_format a) "H";
                        GetTensorDim (arg_dilations a) (arg_data_format a) "W"];
      out_dst_dims_tf_order :=
        match arg_data_format a with
        | FORMAT_NHWC => [n; oh; ow; fo]
        | FORMAT_NCHW => [n; fo; oh; ow]
        end;
      out_dst_dims_mkl_order := [n; fo; oh; ow];
      out_padding_left := arg_padding_left a;
      out_padding_right := arg_padding_right a |},
   if c =? fi then Status.OK
   else errors.InvalidArgument "filter and input must have the same depth").

Definition conv_engine_on (persistent : string -> TensorShape -> Status.t)
    (build : MklConvFwdParams -> option mkldnn_error)
    (reorder execute : option mkldnn_error) : ConvEngine := {|
  ConvFwdPd := MklConvFwdParams;
  primitive_desc p := match build p with Some e => inl e | None => inr p end;
  weights_desc p := (filter_dims p, "f", blocked 8);
  reorder_error _ _ _ := reorder;
  execute_error _ _ _ _ _ := execute;
  GetConvFwdSizesInMklOrder := conv_sizes;
  GetBiasSizeInMklOrder s := ([num_elements s], Status.OK);
  ShapeFromFormat f batch spatial depth :=
    match f with
    | FORMAT_NHWC => batch :: spatial ++ [depth]
    | FORMAT_NCHW => batch :: depth :: spatial
    end;
  allocate_persistent := persistent;
  sizeof_memory_desc := 696;
|}.

(** The same engine under a framework that grants every persistent
    tensor. *)
Definition conv_engine (build : MklConvFwdParams -> option mkldnn_error)
    (reorder execute : option mkldnn_error) : ConvEngine :=
  conv_engine_on (fun _ _ => Status.OK) build reorder execute.

(** A matmul engine of the same kind, with a weight cache that holds the
    descriptor it was filled for. *)
Definition matmul_engine (build : MklDnnMatMulFwdParams -> option mkldnn_error)
    (reorder execute : option mkldnn_error) : MatMulEngine := {|
  MatMulPd := MklDnnMatMulFwdParams;
  matmul_primitive_desc p := match build p with Some e => inl e | None => inr p end;
  matmul_src_desc p := (mm_src_dims p, "f", mm_src_format p);
  matmul_weights_desc p :=
    (mm_weight_dims p, "f",
     if bool_decide (mm_weight_format p = any) then blocked 8 else mm_weight_format p);
  matmul_dst_desc p := (mm_dst_dims p, "f", nc);
  matmul_reorder_error _ _ _ := reorder;
  matmul_execute_error _ _ _ _ _ := execute;
  WeightCache := option Desc;
  IsWeightCacheEmpty c := bool_decide (c = None);
  CacheWeight p _ c :=
    match reorder with
    | Some e => inl e
    | None => inr (Some (mm_weight_dims p, "f",
                         if bool_decide (mm_weight_format p = any) then blocked 8
                         else mm_weight_format p))
    end;
  GetCachedWeight md c :=
    if bool_decide (c = Some md) then CachedFilterData else nullptr;
|}.

Definition float_types : KernelTypes := {|
  Tinput := "f"; Tfilter := "f"; Tbias := "f"; Toutput := "f"; Ttemp_output := "f";
  sizeof_Tfilter := 4;
|}.

End Reference.

(** ** Construction-time validation, as properties of the attributes *)

Section ConvValidation.
Context `{MklDnn}.

(** The status a constructor leaves on the construction context. *)
Definition ctor_status {K} (members : K)
    (ctor : Body (K * OpKernelConstruction) unit) (a : NodeAttrs) : Status.t :=
  snd (fst (run_ctor members ctor a)).

(** Every spatial dilation is larger than 0: H and W for rank 4, the
    three spatial dimensions for rank 5. *)
Definition spatial_dilations_positive (d : list Z) (f : TensorFormat) (rank : Z)
  : bool :=
  if rank =? 4 then (0 <? GetTensorDim d f "H") && (0 <? GetTensorDim d f "W")
  else (0 <? GetTensorDim d f "0") && (0 <? GetTensorDim d f "1")
       && (0 <? GetTensorDim d f "2").

(** The grounds for failure the validator's contract lists, for strides
    [s], dilations [d] and a recognised layout [f]. *)
Definition listed_violation (s d : list Z) (f : TensorFormat)
    (has_padding_list has_explicit_paddings : bool) : bool :=
  negb (GetTensorDim s f "N" =? 1) || negb (GetTensorDim s f "C" =? 1)
  || negb (GetTensorDim d f "N" =? 1) || negb (GetTensorDim d f "C" =? 1)
  || negb (spatial_dilations_positive d f (size s))
  || negb ((size s =? 4) || (size s =? 5))
  || (has_padding_list && has_explicit_paddings).

(** The attributes the constructor accepts. *)
Definition attributes_accepted (a : NodeAttrs) : bool :=
  match attr_dilations a, attr_strides a, attr_data_format a, attr_padding a with
  | Some d, Some s, Some df, Some _ =>
      match FormatFromString df with
      | Some f =>
          negb (HasAttr (attr_padding_list a) && HasAttr (attr_explicit_paddings a))
          && ((size s =? 4) || (size s =? 5))
          && ((GetTensorDim s f "N" =? 1) && (GetTensorDim s f "C" =? 1))
          && (size d =? size s)
          && ((GetTensorDim d f "N" =? 1) && (GetTensorDim d f "C" =? 1))
          && spatial_dilations_positive d f (size s)
      | None => false
      end
  | _, _, _, _ => false
  end.

(** The batch or the channel stride is not 1, and every check before that
    one passes. *)
Definition strides_unsupported (a : NodeAttrs) : bool :=
  match attr_dilations a, attr_strides a, attr_data_format a with
  | Some _, Some s, Some df =>
      match FormatFromString df with
      | Some f =>
          negb (HasAttr (attr_padding_list a) && HasAttr (attr_explicit_paddings a))
          && ((size s =? 4) || (size s =? 5))
          && negb ((GetTensorDim s f "N" =? 1) && (GetTensorDim s f "C" =? 1))
      | None => false
      end
  | _, _, _ => false
  end.

(** A required attribute is absent. *)
Definition attribute_missing (a : NodeAttrs) : bool :=
  negb (HasAttr (attr_dilations a) && HasAttr (attr_strides a)
        && HasAttr (attr_data_format a) && HasAttr (attr_padding a)).

End ConvValidation.

(** Attributes on which the stride rank and the dilation rank disagree. *)
Definition rank_mismatch_attrs : NodeAttrs := {|
  attr_dilations := Some [1; 1; 1; 1; 1];
  attr_padding_list := None;
  attr_explicit_paddings := None;
  attr_strides := Some [1; 1; 1; 1];
  attr_data_format := Some "NHWC";
  attr_padding := Some SAME;
  attr_is_filter_const := None;
  attr_fused_ops := None;
  attr_num_args := None;
  attr_leakyrelu_alpha := None;
  attr_transpose_a := None;
  attr_transpose_b := None;
|}.

(** ** The fusion policy, as properties of the fused-op list *)

(** The fused-op lists [MklFusedConvOp] has a branch for. *)
Definition conv_fusions : list (list string) :=
  [ ["BiasAdd"];
    ["Relu"]; ["Relu6"]; ["Elu"]; ["LeakyRelu"];
    ["BiasAdd"; "Relu"]; ["BiasAdd"; "Relu6"]; ["BiasAdd"; "Elu"];
    ["BiasAdd"; "LeakyRelu"];
    ["BiasAdd"; "Add"];
    ["BiasAdd"; "Add"; "Relu"]; ["BiasAdd"; "Add"; "Relu6"];
    ["BiasAdd"; "Add"; "Elu"]; ["BiasAdd"; "Add"; "LeakyRelu"] ].

(** The fused-op lists [MklFusedDepthwiseConvOp] has a branch for. *)
Definition depthwise_fusions : list (list string) :=
  [ ["BiasAdd"]; ["BiasAdd"; "Relu"]; ["BiasAdd"; "Relu6"]; ["BiasAdd"; "Elu"] ].

(** The number of extra arguments [MklFusedConvOp] requires with a list:
    two with a residual add, one with a bias, unchecked otherwise. *)
Definition conv_num_args_ok (ops : list string) (num_args : Z) : bool :=
  if bool_decide ("Add" ∈ ops) then num_args =? 2
  else if bool_decide ("BiasAdd" ∈ ops) then num_args =? 1
  else true.

(** What the fused convolution constructor accepts of [fused_ops],
    [num_args] and [leakyrelu_alpha]. *)
Definition conv_fusion_accepted (a : NodeAttrs) : bool :=
  match attr_fused_ops a, attr_num_args a with
  | Some ops, Some n =>
      bool_decide (ops ∈ conv_fusions)
      && conv_num_args_ok ops n
      && (if bool_decide ("LeakyRelu" ∈ ops) then HasAttr (attr_leakyrelu_alpha a)
          else true)
  | _, _ => false
  end.

(** What the fused depthwise constructor accepts. *)
Definition depthwise_fusion_accepted (a : NodeAttrs) : bool :=
  match attr_fused_ops a, attr_num_args a with
  | Some ops, Some n => bool_decide (ops ∈ depthwise_fusions) && (n =? 1)
  | _, _ => false
  end.

(** The fusion sets the policy enumerates, as sets of fusion kinds: a
    fused-op list belongs to one when its distinct kinds are exactly the
    set's, every activation name counting as the kind Activation and [Add]
    as ResidualAdd. *)
Inductive FusionKind := BiasAdd | Activation | ResidualAdd.

#[global] Instance FusionKind_eq_dec : EqDecision FusionKind.
Proof. solve_decision. Defined.

Definition fusion_kind (op : string) : option FusionKind :=
  if bool_decide (op = "BiasAdd") then Some BiasAdd
  else if bool_decide (op = "Add") then Some ResidualAdd
  else if bool_decide (op ∈ ["Relu"; "Relu6"; "Elu"; "LeakyRelu"]) then Some Activation
  else None.

Definition enumerated_fusion_sets : list (list FusionKind) :=
  [ []; [BiasAdd]; [Activation]; [BiasAdd; Activation]; [BiasAdd; ResidualAdd];
    [BiasAdd; ResidualAdd; Activation] ].

(** The set of kinds a fused-op list requests, in the order the policy
    writes its sets; [None] when a name is of no kind. *)
Definition fusion_set (ops : list string) : option (list FusionKind) :=
  ks ← mapM fusion_kind ops;
  Some (filter (fun k => k ∈ ks) [BiasAdd; ResidualAdd; Activation]).

(** The fused-op list requests one of the enumerated sets. *)
Definition enumerated (ops : list string) : bool :=
  match fusion_set ops with
  | Some fs => bool_decide (fs ∈ enumerated_fusion_sets)
  | None => false
  end.

Definition fused_attrs (base : NodeAttrs) (ops : list string) (num_args : Z)
  : NodeAttrs := {|
  attr_dilations := attr_dilations base;
  attr_padding_list := attr_padding_list base;
  attr_explicit_paddings := attr_explicit_paddings base;
  attr_strides := attr_strides base;
  attr_data_format := attr_data_format base;
  attr_padding := attr_padding base;
  attr_is_filter_const := attr_is_filter_const base;
  attr_fused_ops := Some ops;
  attr_num_args := Some num_args;
  attr_leakyrelu_alpha := attr_leakyrelu_alpha base;
  attr_transpose_a := attr_transpose_a base;
  attr_transpose_b := attr_transpose_b base;
|}.

(** Attributes of a 2-D convolution that pass the base validation. *)
Definition conv2d_attrs : NodeAttrs := {|
  attr_dilations := Some [1; 1; 1; 1];
  attr_padding_list := None;
  attr_explicit_paddings := None;
  attr_strides := Some [1; 1; 1; 1];
  attr_data_format := Some "NHWC";
  attr_padding := Some SAME;
  attr_is_filter_const := Some true;
  attr_fused_ops := None;
  attr_num_args := None;
  attr_leakyrelu_alpha := None;
  attr_transpose_a := None;
  attr_transpose_b := None;
|}.

(** The status a constructor body leaves when it starts from members [k],
    attributes [a] and a context whose status is [st]. *)
Definition body_status {K} (body : Body (K * OpKernelConstruction) unit)
    (k : K) (a : NodeAttrs) (st : Status.t) : Status.t :=
  construction_status
    (snd (fst (body (k, {| node_attrs := a; construction_status := st |})))).

(** A body that leaves an error already reported as it is. *)
Definition keeps_error {K A} (b : Body (K * OpKernelConstruction) A) : Prop :=
  forall s, status s <> Status.OK -> status (fst (b s)) = status s.

(** ** Concrete kernels and calls *)

Module Example.
Import Reference.

Definition boom : mkldnn_error := {| e_status := 5; e_message := "could not create a primitive" |}.

(** The engine on which every backend call succeeds. *)
Definition engine : ConvEngine := conv_engine (fun _ => None) None None.

(** A [Conv2D] kernel over a constant filter. *)
Definition conv_kernel : MklConvOp :=
  fst (construct (MklConvOp_members false false) MklConvOp_ctor conv2d_attrs).

Definition tensor (s : TensorShape) : InputTensor := {| shape := s; flat := [] |}.

(** A 3x3 image of one channel and a 2x2 filter with one output channel. *)
Definition conv_inputs (index : Z) : InputTensor :=
  if index =? 0 then tensor [1; 3; 3; 1]
  else if index =? 1 then tensor [2; 2; 1; 1]
  else tensor [0].

(** The same image with a filter of no output channel. *)
Definition empty_output_inputs (index : Z) : InputTensor :=
  if index =? 0 then tensor [1; 3; 3; 1]
  else if index =? 1 then tensor [2; 2; 1; 0]
  else tensor [0].

(** A 3x3 image of no channel and a 2x2 filter of no input channel with
    one output channel: the filter has no element, the output has four. *)
Definition empty_filter_inputs (index : Z) : InputTensor :=
  if index =? 0 then tensor [1; 3; 3; 0]
  else if index =? 1 then tensor [2; 2; 0; 1]
  else tensor [0].

(** The sizes of that convolution. *)
Definition empty_output_sizes : ConvFwdSizes := {|
  out_src_dims := [1; 1; 3; 3];
  out_filter_dims := [0; 1; 2; 2];
  out_strides := [1; 1];
  out_dilations := [1; 1];
  out_dst_dims_tf_order := [1; 2; 2; 0];
  out_dst_dims_mkl_order := [1; 0; 2; 2];
  out_padding_left := [];
  out_padding_right := [];
|}.

Definition fresh_context {E : ConvEngine} (i : Z -> InputTensor) : OpKernelContext :=
  {| inputs := i; forwardable := fun _ => false; ctx_status := Status.OK;
     events := [] |}.

(** One call of [Compute] on kernel [k]: the kernel afterwards, what the
    call did, its status and how it ended. *)
Definition conv_call {E : ConvEngine} (pad_enabled is_depthwise : bool)
    (i : Z -> InputTensor) (k : MklConvOp)
  : MklConvOp * list Event * Status.t * Flow unit :=
  let r := Compute float_types pad_enabled is_depthwise (k, fresh_context i) in
  (fst (fst r), events (snd (fst r)), ctx_status (snd (fst r)), snd r).

(** The descriptor of the convolution of [conv_inputs]. *)
Definition conv_descriptor : MklConvFwdParams := {|
  src_dims := [1; 1; 3; 3];
  filter_dims := [1; 1; 2; 2];
  bias_dims := [];
  dst_dims := [1; 1; 2; 2];
  strides := [1; 1];
  dilations := [0; 0];
  padding_left := [];
  padding_right := [];
  tf_fmt := FORMAT_NHWC;
  dtypes := "ffff";
  post_op_params := [];
|}.

(** The descriptor of the convolution of [empty_filter_inputs]. *)
Definition empty_filter_descriptor : MklConvFwdParams := {|
  src_dims := [1; 0; 3; 3];
  filter_dims := [1; 0; 2; 2];
  bias_dims := [];
  dst_dims := [1; 1; 2; 2];
  strides := [1; 1];
  dilations := [0; 0];
  padding_left := [];
  padding_right := [];
  tf_fmt := FORMAT_NHWC;
  dtypes := "ffff";
  post_op_params := [];
|}.

(** The descriptor of a convolution of another filter, 3x3. *)
Definition other_descriptor : MklConvFwdParams := {|
  src_dims := [1; 1; 3; 3];
  filter_dims := [1; 1; 3; 3];
  bias_dims := [];
  dst_dims := [1; 1; 1; 1];
  strides := [1; 1];
  dilations := [0; 0];
  padding_left := [];
  padding_right := [];
  tf_fmt := FORMAT_NHWC;
  dtypes := "ffff";
  post_op_params := [];
|}.

Definition is_build {E : ConvEngine} (ev : Event) : bool :=
  match ev with PrimitiveBuilt _ => true | _ => false end.

Definition builds {E : ConvEngine} (l : list Event) : list Event :=
  filter (fun ev => is_build ev = true) l.


(** The two calls of the kernel on the same inputs, one after the other. *)
Definition first_call {E : ConvEngine} := conv_call false false conv_inputs conv_kernel.
Definition second_call {E : ConvEngine} :=
  conv_call false false conv_inputs (fst (fst (fst first_call))).

(** The kernel after its first call, with the filter of that call cached. *)
Definition warm_kernel : MklConvOp := fst (fst (fst (first_call (E := engine)))).

Definition call_events {E : ConvEngine}
    (r : MklConvOp * list Event * Status.t * Flow unit) : list Event :=
  snd (fst (fst r)).

(** A fused matmul kernel, [BiasAdd] over a constant weight. *)
Definition matmul_attrs : NodeAttrs := {|
  attr_dilations := None;
  attr_padding_list := None;
  attr_explicit_paddings := None;
  attr_strides := None;
  attr_data_format := None;
  attr_padding := None;
  attr_is_filter_const := Some true;
  attr_fused_ops := Some ["BiasAdd"];
  attr_num_args := Some 1;
  attr_leakyrelu_alpha := None;
  attr_transpose_a := Some false;
  attr_transpose_b := Some false;
|}.

Definition matmul_kernel : MklFusedMatMulOp :=
  fst (fst (run_ctor MklFusedMatMulOp_members MklFusedMatMulOp_ctor matmul_attrs)).

Definition matrix (s : TensorShape) : MatMulInput :=
  {| mm_shape := s; IsMklTensor := false; GetTfShape := s;
     GetMklLayout := (s, "f", nc) |}.

(** A 2x3 matrix times a 3x4 matrix, with 4 biases. *)
Definition matmul_inputs (index : Z) : MatMulInput :=
  if index =? 0 then matrix [2; 3]
  else if index =? 1 then matrix [3; 4]
  else matrix [4].

(** A matrix of no row times a 3x4 matrix. *)
Definition empty_batch_inputs (index : Z) : MatMulInput :=
  if index =? 0 then matrix [0; 3]
  else if index =? 1 then matrix [3; 4]
  else matrix [4].

Definition matmul_state (E : MatMulEngine) (cache : WeightCache)
    (built : list (MklDnnMatMulFwdParams * MatMulPd)) : MatMulState :=
  {| kernel := matmul_kernel; weight_cache := cache; pool := built |}.

(** The state before the first call: nothing cached, nothing built. *)
Definition matmul_start (E : MatMulEngine) (nothing : WeightCache) : MatMulState :=
  matmul_state E nothing [].

Definition matmul_context {E : MatMulEngine} (i : Z -> MatMulInput)
    (l : list MatMulEvent) : MatMulContext :=
  {| mm_inputs := i; mm_status := Status.OK; mm_events := l |}.

(** One call of the matmul [Compute] on engine [E], from state [s]. *)
Definition matmul_call (E : MatMulEngine) (i : Z -> MatMulInput) (s : MatMulState)
  : MatMulState * list MatMulEvent * Status.t * Flow unit :=
  let r := MatMul_Compute "f" 4 (s, matmul_context i []) in
  (fst (fst r), mm_events (snd (fst r)), mm_status (snd (fst r)), snd r).

Definition matmul_events {E : MatMulEngine}
    (r : MatMulState * list MatMulEvent * Status.t * Flow unit) : list MatMulEvent :=
  snd (fst (fst r)).

(** The descriptor of the product of [empty_batch_inputs]. *)
Definition empty_batch_descriptor : MklDnnMatMulFwdParams := {|
  mm_src_dims := [0; 3];
  mm_weight_dims := [4; 3];
  mm_bias_dims := [4];
  mm_dst_dims := [0; 4];
  mm_src_format := nc;
  mm_weight_format := any;
  mm_post_op_params := [];
|}.

(** The descriptor of the product of [matmul_inputs]. *)
Definition matmul_descriptor : MklDnnMatMulFwdParams := {|
  mm_src_dims := [2; 3];
  mm_weight_dims := [4; 3];
  mm_bias_dims := [4];
  mm_dst_dims := [2; 4];
  mm_src_format := nc;
  mm_weight_format := any;
  mm_post_op_params := [];
|}.

(** Engines on which the backend refuses to build, and to execute. *)
Definition refusing : MatMulEngine := matmul_engine (fun _ => Some boom) None None.
Definition failing : MatMulEngine := matmul_engine (fun _ => None) None (Some boom).
Definition working : MatMulEngine := matmul_engine (fun _ => None) None None.
(** An engine on which every reorder throws. *)
Definition stalling : MatMulEngine := matmul_engine (fun _ => None) (Some boom) None.
Definition conv_refusing : ConvEngine := conv_engine (fun _ => Some boom) None None.
Definition conv_failing : ConvEngine := conv_engine (fun _ => None) None (Some boom).

End Example.

(** * Further definitions *)


(** A value an [int] holds. *)
Definition fits_int (x : Z) : Prop := - 2 ^ 31 <= x < 2 ^ 31.

Section FilterCacheStates.
Context `{ConvEngine}.
Variable T : KernelTypes.

(** The filter cache of kernel [k] holds a conversion to layout [md]. *)
Definition cache_holds (md : memory_desc) (k : MklConvOp) : Prop :=
  0 < NumElements (cached_filter_data_ptensor_ k)
  /\ cached_filter_md_ptensor_ k = Some md.

(** Kernel [k] with the filter cache as [CacheFilter] fills it: the data
    tensor, of as many elements as the converted filter takes, holding a
    copy of the conversion, and the descriptor tensor holding the layout. *)
Definition with_cached_filter (conv_fwd_pd : ConvFwdPd) (filter_md : memory_desc)
    (k : MklConvOp) : MklConvOp :=
  assign_cached_filter_md_ptensor_ (Some (weights_desc conv_fwd_pd))
    (assign_cached_filter_data_ptensor_
       {| t_shape := [get_size (weights_desc conv_fwd_pd) / sizeof_Tfilter T];
          t_copy_of := Some (OpMemData filter_md (weights_desc conv_fwd_pd)
                               (InputData kInputIndex_Filter)) |} k).
(** The events of a writer that fills the cache: the conversion, then the
    two persistent tensors. *)
Definition caching (conv_fwd_pd : ConvFwdPd) (filter_md : memory_desc)
    (c : OpKernelContext) : OpKernelContext :=
  add_event (PersistentAllocated [sizeof_memory_desc])
    (add_event (PersistentAllocated
                  [get_size (weights_desc conv_fwd_pd) / sizeof_Tfilter T])
       (add_event (Reordered filter_md (weights_desc conv_fwd_pd)
                     (InputData kInputIndex_Filter)
                     (OpMemData filter_md (weights_desc conv_fwd_pd)
                        (InputData kInputIndex_Filter))) c)).

(** The framework grants the two persistent tensors of the cache. *)
Definition cache_granted (conv_fwd_pd : ConvFwdPd) : Prop :=
  allocate_persistent (Tfilter T)
    [get_size (weights_desc conv_fwd_pd) / sizeof_Tfilter T] = Status.OK
  /\ allocate_persistent "uint8" [sizeof_memory_desc] = Status.OK.

End FilterCacheStates.

(** Every state a body can end in is related to the state it started in. *)
Definition within {S A} (R : S -> S -> Prop) (m : Body S A) : Prop :=
  forall s, R s (fst (m s)).

Section KernelFrame.
Context `{ConvEngine}.

(** The members a call of [Compute] only reads. *)
Definition read_only_members (k : MklConvOp) :=
  (strides_ k, dilations_ k, padding_list_ k, is_filter_const_ k, padding_ k,
   data_format_ k, fuse_biasadd_ k, fuse_activation_ k, fuse_pad_ k, fuse_add_ k,
   alpha_or_upbound_ k, activation_alg_ k, input_index_pad_ k).

(** A filter cache that is not empty has its layout stored. *)
Definition cache_consistent (k : MklConvOp) : Prop :=
  NumElements (cached_filter_data_ptensor_ k) <> 0 ->
  exists md, cached_filter_md_ptensor_ k = Some md.

(** The framework grants the persistent tensor of the cached layout. *)
Definition descriptor_tensor_granted : Prop :=
  allocate_persistent "uint8" [sizeof_memory_desc] = Status.OK.

(** The two members of the filter cache are the same in both states. *)
Definition same_cache {C} (s s' : MklConvOp * C) : Prop :=
  cached_filter_data_ptensor_ (fst s') = cached_filter_data_ptensor_ (fst s)
  /\ cached_filter_md_ptensor_ (fst s') = cached_filter_md_ptensor_ (fst s).

(** What a call may do to the kernel object.  It writes no member but the
    two tensors of the filter cache and the two memory objects of the fused
    add; the cache only when the filter is constant and the cache is
    empty, the memory objects only when an add is fused.  When the
    framework grants the tensor of the layout, a cache that is consistent
    stays so. *)
Definition kernel_step (k k' : MklConvOp) : Prop :=
  read_only_members k' = read_only_members k
  /\ (is_filter_const_ k = false \/ NumElements (cached_filter_data_ptensor_ k) <> 0 ->
      cached_filter_data_ptensor_ k' = cached_filter_data_ptensor_ k
      /\ cached_filter_md_ptensor_ k' = cached_filter_md_ptensor_ k)
  /\ (fuse_add_ k = false ->
      fuse_add_src_ k' = fuse_add_src_ k /\ fuse_add_dst_ k' = fuse_add_dst_ k)
  /\ (descriptor_tensor_granted -> cache_consistent k -> cache_consistent k').

(** What a call may do to the state: a step of the kernel, and a status
    that is left alone once it is an error. *)
Definition call_step (s s' : MklConvOp * OpKernelContext) : Prop :=
  kernel_step (fst s) (fst s')
  /\ (ctx_status (snd s) <> Status.OK -> ctx_status (snd s') = ctx_status (snd s)).
End KernelFrame.

Section Lifetime.
Context `{ConvEngine}.

(** How many primitives a list of events builds, and how many it deletes. *)
Fixpoint count_built (l : list Event) : nat :=
  match l with
  | [] => 0
  | PrimitiveBuilt _ :: l => S (count_built l)
  | _ :: l => count_built l
  end.

Fixpoint count_deleted (l : list Event) : nat :=
  match l with
  | [] => 0
  | PrimitiveDeleted :: l => S (count_deleted l)
  | _ :: l => count_deleted l
  end.

(** The state after is the state before with more events, none of which
    builds or deletes a primitive. *)
Definition quiet_step {K} (s s' : K * OpKernelContext) : Prop :=
  exists evs, events (snd s') = (events (snd s) ++ evs)%list
              /\ count_built evs = 0%nat /\ count_deleted evs = 0%nat.

(** A body that builds one primitive and deletes it when it runs to its
    end, and deletes nothing when it ends in another way. *)
Definition owns_primitive {K A} (m : Body (K * OpKernelContext) A) : Prop :=
  forall s, exists evs,
    events (snd (fst (m s))) = (events (snd s) ++ evs)%list
    /\ match snd (m s) with
       | Next _ => count_built evs = 1%nat /\ count_deleted evs = 1%nat
       | _ => (count_built evs <= 1)%nat /\ count_deleted evs = 0%nat
       end.

(** A body that builds nothing and deletes a primitive exactly when it runs
    to its end. *)
Definition releases_primitive {K A} (m : Body (K * OpKernelContext) A) : Prop :=
  forall s, exists evs,
    events (snd (fst (m s))) = (events (snd s) ++ evs)%list
    /\ count_built evs = 0%nat
    /\ match snd (m s) with
       | Next _ => count_deleted evs = 1%nat
       | _ => count_deleted evs = 0%nat
       end.
End Lifetime.

Section OnError.
Context `{ConvEngine} {K : Type}.

(** On a context that carries an error, the body changes nothing, throws
    nothing and has no undefined behaviour but an out-of-bounds read. *)
Definition idle_on_error {A} (m : Body (K * OpKernelContext) A) : Prop :=
  forall s, ctx_status (snd s) <> Status.OK ->
    fst (m s) = s /\ (forall e, snd (m s) <> Raise e)
    /\ (forall u, snd (m s) = Undefined u -> u = OutOfBounds).

(** On a context that carries an error, the body changes nothing and ends
    the function, by [return;] or in an out-of-bounds read. *)
Definition stops_on_error {A} (m : Body (K * OpKernelContext) A) : Prop :=
  forall s, ctx_status (snd s) <> Status.OK ->
    fst (m s) = s /\ (snd (m s) = Return_ \/ snd (m s) = Undefined OutOfBounds).
End OnError.

Section ComputeChecks.
Context `{ConvEngine}.

(** The message [Compute] rejects a call with once the sizes are known and
    there is something to compute, by the first check that fails. *)
Definition Compute_rejection (pad_enabled is_depthwise : bool) (k : MklConvOp)
  : option string :=
  let is_conv2d := size (strides_ k) =? 4 in
  let tf_fmt := if is_conv2d then TFDataFormatToMklDnnDataFormat (data_format_ k)
                else TFDataFormatToMklDnn3DDataFormat (data_format_ k) in
  if negb is_conv2d && pad_enabled then Some "Pad + Conv fusion only works for 2D"
  else if negb is_conv2d && fuse_pad_ k then Some "Pad+Conv fusion only works for 2D"
  else if is_depthwise && negb is_conv2d
  then Some "Only 2D convolution is supported for depthwise."
  else if bool_decide (MklTensorFormatToMklDnnDataFormat tf_fmt = tag_undef)
  then Some "Invalid data format"
  else None.
End ComputeChecks.

Section FusionMembers.
Context `{MklDnn}.

(** The members the fusion setters write. *)
Definition fusion_members (k : MklConvOp)
  : bool * bool * bool * bool * algorithm * float * Z :=
  (fuse_biasadd_ k, fuse_add_ k, fuse_activation_ k, fuse_pad_ k,
   activation_alg_ k, alpha_or_upbound_ k, input_index_pad_ k).

Definition same_fusion {C} (s s' : MklConvOp * C) : Prop :=
  fusion_members (fst s') = fusion_members (fst s).

(** The activation a fused-op list ends with: the algorithm, and the alpha
    or upper bound that goes with it. *)
Definition fused_activation (ops : list string) (leakyrelu_alpha : float)
  : option (algorithm * float) :=
  match last ops with
  | Some op =>
      if bool_decide (op = "Relu") then Some (eltwise_relu, 0%float)
      else if bool_decide (op = "Relu6") then Some (eltwise_bounded_relu, 6%float)
      else if bool_decide (op = "Elu") then Some (eltwise_elu, 1%float)
      else if bool_decide (op = "LeakyRelu") then Some (eltwise_relu, leakyrelu_alpha)
      else None
  | None => None
  end.

(** The post-ops a fused-op list stands for: the sum of a residual add,
    then the activation. *)
Definition fused_post_ops (ops : list string) (leakyrelu_alpha : float)
  : list PostOpParam :=
  (if bool_decide ("Add" ∈ ops)
   then [{| po_name := "sum"; po_alg := alg_undef; po_param := [1%float];
            po_partial_key := "" |}]
   else [])
  ++ match fused_activation ops leakyrelu_alpha with
     | Some (alg, alpha_or_upbound) =>
         [{| po_name := "activation"; po_alg := alg;
             po_param := [1%float; alpha_or_upbound; 0%float];
             po_partial_key := "" |}]
     | None => []
     end.
End FusionMembers.

(** The attributes the fused matmul constructor accepts: all four present,
    one or two fused ops of which the first is [BiasAdd], and no transposed
    first operand. *)
Definition matmul_attributes_accepted (a : NodeAttrs) : bool :=
  match attr_fused_ops a, attr_transpose_a a, attr_transpose_b a,
        attr_is_filter_const a with
  | Some ops, Some ta, Some _, Some _ =>
      match ops with
      | [first] | [first; _] => bool_decide (first = "BiasAdd") && negb ta
      | _ => false
      end
  | _, _, _, _ => false
  end.



Section MatMulInputs.
Context `{MatMulEngine}.

(** The shape of the first operand as the fused matmul call sees it. *)
Definition src_tf_shape (c : MatMulContext) : TensorShape :=
  let src_tensor := mm_inputs c kInputIndexSrc in
  if IsMklTensor src_tensor then GetTfShape src_tensor else mm_shape src_tensor.

(** The inputs the fused matmul call accepts for kernel [k]: a weight in
    plain layout, two matrices such that the inner dimension of the first,
    as the [int] it is stored in, is the inner dimension of the weight, and
    as many biases as the channel size, as the [int] it is stored in. *)
Definition matmul_inputs_accepted (k : MklFusedMatMulOp) (c : MatMulContext) : bool :=
  let weight := mm_shape (mm_inputs c kInputIndexWeight) in
  let bias := mm_shape (mm_inputs c kInputIndexBias) in
  negb (IsMklTensor (mm_inputs c kInputIndexWeight))
  && match src_tf_shape c, weight, bias with
     | [_; inner], [w0; w1], [biases] =>
         (to_int inner =? (if transpose_b_ k then w1 else w0))
         && (biases =? to_int (if transpose_b_ k then w0 else w1))
     | _, _, _ => false
     end.
End MatMulInputs.

(** ** The gradient kernel of the fused matmul: [MklFusedMatMulGradOp] *)

(** [MklDnnMatMulBwdFilterParams], as the kernel fills it. *)
Record MklDnnMatMulBwdFilterParams `{MklDnn} := {
  bwd_src_dims : dims;
  bwd_diff_weight_dims : dims;
  bwd_diff_bias_dims : dims;
  bwd_diff_dst_dims : dims;
  bwd_src_format : format_tag;
  bwd_diff_weight_format : format_tag;
  bwd_diff_dst_format : format_tag;
}.

(** The part of [mkl_matmul_ops_common.h] the gradient kernel is written
    against: the primitive factory with the pool it keeps, whose [Get]
    answers with the primitive descriptor or throws, the descriptors the
    backend has negotiated, and how a reorder and an execution end. *)
Class MatMulBwdEngine `{MklDnn} := {
  tag_cn : format_tag;
  BwdFilterPd : Type;
  BwdFilterPool : Type;
  MklDnnMatMulBwdFilterPrimitiveFactory_Get :
    MklDnnMatMulBwdFilterParams -> BwdFilterPool
    -> BwdFilterPool * (mkldnn_error + BwdFilterPd);
  bwd_src_desc : BwdFilterPd -> memory_desc;
  bwd_diff_dst_desc : BwdFilterPd -> memory_desc;
  bwd_diff_weights_desc : BwdFilterPd -> memory_desc;
  bwd_diff_bias_desc : BwdFilterPd -> memory_desc;
  bwd_reorder_error : memory_desc -> memory_desc -> ptr -> option mkldnn_error;
  bwd_execute_error : BwdFilterPd -> ptr -> ptr -> ptr -> ptr -> option mkldnn_error;
}.

Inductive GradEvent `{MklDnn} :=
| GradOutputAllocated (index : Z) (output_shape : TensorShape)
| GradReordered (from to : memory_desc) (src dst : ptr)
| GradExecuted (src diff_weight bias diff_dst : ptr)
| GradRead (buffer : ptr) (i : nat).

Record GradContext `{MklDnn} := {
  grad_inputs : Z -> MatMulInput;
  grad_status : Status.t;
  grad_events : list GradEvent;
}.

#[global] Instance GradContext_channel `{MklDnn} {K : Type}
  : StatusChannel (K * GradContext) := {|
  status s := grad_status (snd s);
  set_status st s :=
    (fst s, {| grad_inputs := grad_inputs (snd s); grad_status := st;
               grad_events := grad_events (snd s) |});
|}.

Module MklFusedMatMulGradOp.

(** The members of the class. *)
Record t := {
  transpose_a_ : bool;
  transpose_b_ : bool;
  fused_ops_ : list string;
}.

Definition assign_transpose_a_ (v : bool) (k : t) : t :=
  {| transpose_a_ := v; transpose_b_ := transpose_b_ k; fused_ops_ := fused_ops_ k |}.

Definition assign_transpose_b_ (v : bool) (k : t) : t :=
  {| transpose_a_ := transpose_a_ k; transpose_b_ := v; fused_ops_ := fused_ops_ k |}.

Definition assign_fused_ops_ (v : list string) (k : t) : t :=
  {| transpose_a_ := transpose_a_ k; transpose_b_ := transpose_b_ k; fused_ops_ := v |}.

(** [MklFusedMatMulGradOp::MklFusedMatMulGradOp(OpKernelConstruction* ctx)]. *)
Definition ctor : Body (t * OpKernelConstruction) unit :=
  a <- attrs ;;
  GetAttr_member "fused_ops" (attr_fused_ops a) fused_ops_ assign_fused_ops_ ;;
  GetAttr_member "transpose_a" (attr_transpose_a a) transpose_a_ assign_transpose_a_ ;;
  GetAttr_member "transpose_b" (attr_transpose_b a) transpose_b_ assign_transpose_b_ ;;
  k <- this ;;
  OP_REQUIRES (Z.of_nat (length (fused_ops_ k)) =? 1)
    (errors.InvalidArgument "MklFusedMatMul must have 1 post-arguments at most.") ;;
  first <- subscript (fused_ops_ k) 0 ;;
  OP_REQUIRES (bool_decide (first = "BiasAddGrad"))
    (errors.InvalidArgument
       "The 1st post-argument of MklFusedMatMul must be BiasAddGrad.").

(** What outlives a call: the kernel object and the pool of the primitive
    factory. *)
Record State `{MatMulBwdEngine} := {
  kernel : t;
  pool : BwdFilterPool;
}.

Section Compute.
Context `{MatMulBwdEngine}.
(** The element type [T], by [typeid] name, and its size. *)
Variable T_name : string.
Variable sizeof_T : Z.

Abbreviation Op A := (Body (State * GradContext) A).

Definition input (index : Z) : Op MatMulInput :=
  fun s => (s, Next (grad_inputs (snd s) index)).

Definition emit (ev : GradEvent) : Op unit :=
  fun s =>
    ((fst s, {| grad_inputs := grad_inputs (snd s); grad_status := grad_status (snd s);
                grad_events := grad_events (snd s) ++ [ev] |}),
     Next tt).

Definition members : Op t := fun s => (s, Next (kernel (fst s))).

(** [shape.dim_size(d)] on a shape whose rank the kernel has not checked:
    asking for a dimension the shape does not have is an access out of
    bounds. *)
Definition dim_size (s : TensorShape) (d : Z) : Op Z := subscript s (Z.to_nat d).

(** [MklDnnMatMulBwdFilterPrimitiveFactory<T>::Get(matmul_params)] followed
    by [GetPrimitiveDesc()]. *)
Definition Get (matmul_params : MklDnnMatMulBwdFilterParams) : Op BwdFilterPd :=
  fun s =>
    let '(p, answer) :=
      MklDnnMatMulBwdFilterPrimitiveFactory_Get matmul_params (pool (fst s)) in
    let s' := ({| kernel := kernel (fst s); pool := p |}, snd s) in
    match answer with
    | inl e => (s', Raise e)
    | inr pd => (s', Next pd)
    end.

(** [AllocateOutputSetMklShape(ctx, idx, &tensor, shape, mkl_shape)]. *)
Definition AllocateOutputSetMklShape (idx : Z) (output_shape : TensorShape) : Op ptr :=
  emit (GradOutputAllocated idx output_shape) ;;
  ret (OutputData idx).

(** [AllocateOutputTensor(context, dst_pd, output_dims_mkl_order,
    output_tf_format, output_tensor, idx)]. *)
Definition AllocateOutputTensor (dst_pd : memory_desc) (output_dims_mkl_order : dims)
    (idx : Z) : Op ptr :=
  let output_tf_shape := [get_size dst_pd / sizeof_T] in
  AllocateOutputSetMklShape idx output_tf_shape.

Definition CheckReorderToOpMem (from to : memory_desc) (src : ptr) : Op ptr :=
  match bwd_reorder_error from to src with
  | Some e => throw e
  | None =>
      emit (GradReordered from to src (OpMemData from to src)) ;;
      ret (OpMemData from to src)
  end.

(** [matmul_prim->Execute(src_data, diff_weight_data, bias_data,
    diff_dst_data)]. *)
Definition Execute (matmul_pd : BwdFilterPd)
    (src_data diff_weight_data bias_data diff_dst_data : ptr) : Op unit :=
  match bwd_execute_error matmul_pd src_data diff_weight_data bias_data diff_dst_data
  with
  | Some e => throw e
  | None => emit (GradExecuted src_data diff_weight_data bias_data diff_dst_data)
  end.

Definition reads (data : ptr) (n : nat) : Op unit :=
  fold_right (fun i rest => emit (GradRead data i) ;; rest) (ret tt) (seq 0 n).

(** The loop [for (int i = 0; i < n; ++i)] over [data[i]]: the index is an
    [int], so with [2^31] elements or more it does not reach [n] and [++i]
    overflows after [2^31] reads. *)
Definition scan (data : ptr) (n : Z) : Op unit :=
  if n <? 2 ^ 31 then reads data (Z.to_nat n)
  else reads data (Z.to_nat (2 ^ 31)) ;; undefined SignedOverflow.

(** What the first part of the [try] block leaves in its locals. *)
Record Locals := {
  src_tensor : MatMulInput;
  diff_dst_tensor : MatMulInput;
  batch : Z;
  k : Z;
  channel : Z;
}.

(** The first part of the [try] block: the inputs, their dimensions, the
    check that they agree, and the [return] when there is nothing to
    compute. *)
Definition Compute_sizes : Op Locals :=
  let diff_dst_index := 1 in
  let src_index := 0 in
  src_tensor <- input src_index ;;
  diff_dst_tensor <- input diff_dst_index ;;
  let src_tf_shape := if IsMklTensor src_tensor then GetTfShape src_tensor
                      else mm_shape src_tensor in
  let diff_dst_tf_shape := if IsMklTensor diff_dst_tensor
                           then GetTfShape diff_dst_tensor
                           else mm_shape diff_dst_tensor in
  this <- members ;;
  let dim_pair := (if transpose_a_ this then 0 else 1,
                   if transpose_a_ this then 1 else 0) in
  batch <- dim_size src_tf_shape (1 - fst dim_pair) ;;
  let batch := to_int batch in
  k <- dim_size src_tf_shape (fst dim_pair) ;;
  let k := to_int k in
  channel <- dim_size diff_dst_tf_shape 1 ;;
  let channel := to_int channel in
  rows <- dim_size diff_dst_tf_shape 0 ;;
  OP_REQUIRES (batch =? rows)
    (errors.InvalidArgument
       ("Matrix size-incompatible: In[0]: " ++ DebugString src_tf_shape
        ++ ", In[1]: " ++ DebugString diff_dst_tf_shape)) ;;
  if (batch =? 0) || (channel =? 0) then return_
  else ret {| src_tensor := src_tensor; diff_dst_tensor := diff_dst_tensor;
              batch := batch; k := k; channel := channel |}.

(** The parameters the primitive is asked for. *)
Definition matmul_params (this : t) (l : Locals) : MklDnnMatMulBwdFilterParams :=
  let src_dims := [batch l; k l] in
  let diff_dst_dims := [batch l; channel l] in
  let diff_weight_dims := [channel l; k l] in
  let diff_bias_dims := [channel l] in
  let diff_weight_format := if transpose_b_ this then tag_oi else tag_io in
  {| bwd_src_dims := src_dims; bwd_diff_weight_dims := diff_weight_dims;
     bwd_diff_bias_dims := diff_bias_dims; bwd_diff_dst_dims := diff_dst_dims;
     bwd_src_format := tag_nc; bwd_diff_weight_format := diff_weight_format;
     bwd_diff_dst_format := tag_nc |}.

(** The rest of the [try] block, from the primitive on. *)
Definition Compute_primitive (l : Locals) : Op unit :=
  this <- members ;;
  let src_dims := [batch l; k l] in
  let diff_dst_dims := [batch l; channel l] in
  let diff_weight_dims := [channel l; k l] in
  let diff_bias_dims := [channel l] in
  let src_format := if transpose_a_ this then tag_cn else tag_nc in
  let diff_dst_format := tag_nc in
  matmul_pd <- Get (matmul_params this l) ;;
  (if IsMklTensor (src_tensor l) then
     AllocateOutputTensor (bwd_diff_weights_desc matmul_pd) diff_weight_dims 0 ;;
     AllocateOutputTensor (bwd_diff_bias_desc matmul_pd) diff_bias_dims 1
   else
     let diff_weight_tensor_shape :=
       if transpose_b_ this then [channel l; k l] else [k l; channel l] in
     AllocateOutputSetMklShape 0 diff_weight_tensor_shape ;;
     AllocateOutputSetMklShape 1 [channel l]) ;;
  let src_data := InputData 0 in
  let diff_dst_data := InputData 1 in
  let bias_data := OutputData 1 in
  let diff_weight_data := OutputData 0 in
  let src_md := if IsMklTensor (src_tensor l) then GetMklLayout (src_tensor l)
                else make_desc src_dims T_name src_format in
  let diff_dst_md := if IsMklTensor (diff_dst_tensor l)
                     then GetMklLayout (diff_dst_tensor l)
                     else make_desc diff_dst_dims T_name diff_dst_format in
  src_data <-
    (if negb (bool_decide (src_md = bwd_src_desc matmul_pd))
     then CheckReorderToOpMem src_md (bwd_src_desc matmul_pd) src_data
     else ret src_data) ;;
  diff_dst_data <-
    (if negb (bool_decide (diff_dst_md = bwd_diff_dst_desc matmul_pd))
     then CheckReorderToOpMem diff_dst_md (bwd_diff_dst_desc matmul_pd) diff_dst_data
     else ret diff_dst_data) ;;
  Execute matmul_pd src_data diff_weight_data bias_data diff_dst_data ;;
  scan diff_dst_data (num_elements (mm_shape (diff_dst_tensor l))).

(** [MklFusedMatMulGradOp::Compute(OpKernelContext* ctx)]. *)
Definition Compute : Op unit :=
  try_catch
    (l <- Compute_sizes ;;
     Compute_primitive l)
    (report_exception "1527").

End Compute.

(** The reads of a scan of the [n] elements of a buffer, in order. *)
Definition reads_all `{MklDnn} (buffer : ptr) (n : nat) : list GradEvent :=
  map (GradRead buffer) (seq 0 n).

(** The outputs a list of events allocates. *)
Definition allocated `{MklDnn} (l : list GradEvent) : list Z :=
  omap (fun ev => match ev with
                  | GradOutputAllocated index _ => Some index
                  | _ => None
                  end) l.

Definition with_status `{MklDnn} (st : Status.t) (c : GradContext) : GradContext :=
  {| grad_inputs := grad_inputs c; grad_status := st; grad_events := grad_events c |}.

Definition add_events `{MklDnn} (evs : list GradEvent) (c : GradContext) : GradContext :=
  {| grad_inputs := grad_inputs c; grad_status := grad_status c;
     grad_events := grad_events c ++ evs |}.

End MklFusedMatMulGradOp.


(** ** Further kernels and calls *)

Module Cases.
Import Reference.
Import Example.

(** The convolution kernel with explicit paddings of 1 and 2 rows and of 3
    and 4 columns. *)
Definition padded_kernel : MklConvOp :=
  assign_padding_list_ [0; 0; 1; 2; 3; 4; 0; 0] conv_kernel.

(** A fused convolution kernel, [BiasAdd] over a constant filter. *)
Definition bias_kernel : MklConvOp :=
  fst (construct (MklConvOp_members false false) (MklFusedConvOp_ctor false)
         (fused_attrs conv2d_attrs ["BiasAdd"] 1)).

(** The same kernel of the class that fuses a pad. *)
Definition pad_kernel : MklConvOp :=
  fst (construct (MklConvOp_members false false) (MklFusedConvOp_ctor true)
         (fused_attrs conv2d_attrs ["BiasAdd"] 1)).

(** A kernel over five dimensions. *)
Definition conv3d_attrs : NodeAttrs := {|
  attr_dilations := Some [1; 1; 1; 1; 1];
  attr_padding_list := None;
  attr_explicit_paddings := None;
  attr_strides := Some [1; 1; 1; 1; 1];
  attr_data_format := Some "NDHWC";
  attr_padding := Some SAME;
  attr_is_filter_const := Some true;
  attr_fused_ops := None;
  attr_num_args := None;
  attr_leakyrelu_alpha := None;
  attr_transpose_a := None;
  attr_transpose_b := None;
|}.

Definition conv3d_kernel : MklConvOp :=
  fst (construct (MklConvOp_members false false) MklConvOp_ctor conv3d_attrs).

(** The sizes of the convolution of [conv_inputs]. *)
Definition conv_sizes_2x2 : ConvFwdSizes := {|
  out_src_dims := [1; 1; 3; 3];
  out_filter_dims := [1; 1; 2; 2];
  out_strides := [1; 1];
  out_dilations := [1; 1];
  out_dst_dims_tf_order := [1; 2; 2; 1];
  out_dst_dims_mkl_order := [1; 1; 2; 2];
  out_padding_left := [];
  out_padding_right := [];
|}.

(** A context on which an error has been reported. *)
Definition failed_context {E : ConvEngine} (i : Z -> InputTensor) : OpKernelContext :=
  {| inputs := i; forwardable := fun _ => false;
     ctx_status := errors.InvalidArgument "reported earlier"; events := [] |}.

(** The image and the filter of [conv_inputs] with a bias of rank 2. *)
Definition matrix_bias_inputs (index : Z) : InputTensor :=
  if index =? 0 then tensor [1; 3; 3; 1]
  else if index =? 1 then tensor [2; 2; 1; 1]
  else tensor [1; 1].

(** The engine on which every backend call succeeds, with the size helper
    of a bias that gives no dimensions for a bias that is not a vector. *)
Definition strict_engine : ConvEngine := {|
  ConvFwdPd := MklConvFwdParams;
  primitive_desc p := inr p;
  weights_desc p := (filter_dims p, "f", blocked 8);
  reorder_error _ _ _ := None;
  execute_error _ _ _ _ _ := None;
  GetConvFwdSizesInMklOrder := conv_sizes;
  GetBiasSizeInMklOrder s :=
    match s with
    | [n] => ([n], Status.OK)
    | _ => ([], errors.InvalidArgument "Bias must be 1-dimensional")
    end;
  ShapeFromFormat f batch spatial depth :=
    match f with
    | FORMAT_NHWC => batch :: spatial ++ [depth]
    | FORMAT_NCHW => batch :: depth :: spatial
    end;
  allocate_persistent _ _ := Status.OK;
  sizeof_memory_desc := 696;
|}.

(** A fused matmul kernel whose second fused op the kernel does not know. *)
Definition tanh_attrs : NodeAttrs := {|
  attr_dilations := None;
  attr_padding_list := None;
  attr_explicit_paddings := None;
  attr_strides := None;
  attr_data_format := None;
  attr_padding := None;
  attr_is_filter_const := Some true;
  attr_fused_ops := Some ["BiasAdd"; "Tanh"];
  attr_num_args := Some 1;
  attr_leakyrelu_alpha := None;
  attr_transpose_a := Some false;
  attr_transpose_b := Some false;
|}.

Definition tanh_kernel : MklFusedMatMulOp :=
  fst (fst (run_ctor MklFusedMatMulOp_members MklFusedMatMulOp_ctor tanh_attrs)).

Definition tanh_state (E : MatMulEngine) (nothing : WeightCache) : MatMulState :=
  {| kernel := tanh_kernel; weight_cache := nothing; pool := [] |}.

(** A backend for the gradient kernel: the primitive descriptor is the
    parameters it was asked for, the factory keeps no pool, and every
    backend call ends as [build], [reorder] and [execute] say. *)
Definition grad_engine (build reorder execute : option mkldnn_error)
  : MatMulBwdEngine := {|
  tag_cn := io;
  BwdFilterPd := MklDnnMatMulBwdFilterParams;
  BwdFilterPool := unit;
  MklDnnMatMulBwdFilterPrimitiveFactory_Get p _ :=
    (tt, match build with Some e => inl e | None => inr p end);
  bwd_src_desc p := (bwd_src_dims p, "f", bwd_src_format p);
  bwd_diff_dst_desc p := (bwd_diff_dst_dims p, "f", bwd_diff_dst_format p);
  bwd_diff_weights_desc p := (bwd_diff_weight_dims p, "f", bwd_diff_weight_format p);
  bwd_diff_bias_desc p := (bwd_diff_bias_dims p, "f", x);
  bwd_reorder_error _ _ _ := reorder;
  bwd_execute_error _ _ _ _ _ := execute;
|}.

Definition grad_working : MatMulBwdEngine := grad_engine None None None.
Definition grad_refusing : MatMulBwdEngine := grad_engine (Some boom) None None.

Definition grad_attrs : NodeAttrs := {|
  attr_dilations := None;
  attr_padding_list := None;
  attr_explicit_paddings := None;
  attr_strides := None;
  attr_data_format := None;
  attr_padding := None;
  attr_is_filter_const := None;
  attr_fused_ops := Some ["BiasAddGrad"];
  attr_num_args := None;
  attr_leakyrelu_alpha := None;
  attr_transpose_a := Some false;
  attr_transpose_b := Some false;
|}.

Definition grad_kernel : MklFusedMatMulGradOp.t :=
  fst (fst (run_ctor
              {| MklFusedMatMulGradOp.transpose_a_ := false;
                 MklFusedMatMulGradOp.transpose_b_ := false;
                 MklFusedMatMulGradOp.fused_ops_ := [] |}
              MklFusedMatMulGradOp.ctor grad_attrs)).

(** A 2x3 matrix and the gradient of a 2x4 product. *)
Definition grad_inputs_2x3 (index : Z) : MatMulInput :=
  if index =? 0 then matrix [2; 3] else matrix [2; 4].

(** A matrix of no row and the gradient of a product of no row. *)
Definition grad_inputs_empty (index : Z) : MatMulInput :=
  if index =? 0 then matrix [0; 3] else matrix [0; 4].

Definition grad_start (E : MatMulBwdEngine) (nothing : BwdFilterPool)
    (i : Z -> MatMulInput) : MklFusedMatMulGradOp.State * GradContext :=
  ({| MklFusedMatMulGradOp.kernel := grad_kernel;
      MklFusedMatMulGradOp.pool := nothing |},
   {| grad_inputs := i; grad_status := Status.OK; grad_events := [] |}).

End Cases.

(** * Theorems *)

#[local] Set Warnings "-clear-no-such-hyp".

(** Sequencing is associative, so a nested sequence runs as a flat one. *)
Lemma bind_bind {S A B C} (m : Body S A) (f : A -> Body S B) (g : B -> Body S C)
    (s : S) :
  bind (bind m f) g s = bind m (fun a => bind (f a) g) s.
Proof. unfold bind. destruct (m s) as [s' [a| |e|u]]; reflexivity. Qed.

Ltac run := repeat (progress (rewrite ?bind_bind; cbn)).

(** Case analysis on the test a kernel body is stuck on, closing the
    branches in which the body has already ended. *)
Ltac ended :=
  lazymatch goal with
  | |- context [@bind] => fail
  | |- context [@OP_REQUIRES] => fail
  | _ => solve [ intros; simplify_eq/=; rewrite ?andb_false_r, ?andb_true_r;
                 repeat split; intros; repeat case_match; simplify_eq/=;
                 try discriminate; try congruence; auto ]
  end.

Ltac fork t :=
  let E := fresh "E" in
  destruct t eqn:E;
  try (apply Z.eqb_eq in E; rewrite E in *);
  run; try ended.

Ltac fork_test c :=
  lazymatch c with
  | (?a && _)%bool => fork_test a
  | negb ?a => fork_test a
  | HasAttr ?a => fork a
  | true => fail
  | false => fail
  | _ => fork c
  end.

Ltac head_fork :=
  match goal with
  | |- context [bind (OP_REQUIRES ?c _) _ _] => fork_test c
  | |- context [OP_REQUIRES ?c _ (_, _)] => fork_test c
  | |- context [bind (GetAttr_member _ ?a _ _) _ _] => fork a
  | |- context [bind (GetAttr_local _ ?a _) _ _] => fork a
  | |- context [bind (when ?c _) _ _] => fork_test c
  | |- context [when ?c _ (_, _)] => fork_test c
  | |- context [GetAttr_local _ ?a _ (_, _)] => fork a
  | |- context [GetAttr_member _ ?a _ _ (_, _)] => fork a
  | |- context [(if ?c then _ else _) (_, _)] => fork_test c
  | |- context [(match ?c with Some _ => _ | None => _ end) (_, _)] => fork c
  | |- context [bind (match ?c with Some _ => _ | None => _ end) _ _] => fork c
  end.

(** Decisions on closed terms, by computation. *)
Ltac eval_decisions :=
  repeat match goal with
         | |- context [@bool_decide ?P ?d] =>
             let v := eval vm_compute in (@bool_decide P d) in
             lazymatch v with true => idtac | false => idtac end;
             change (@bool_decide P d) with v
         end.

Section ConvValidationFacts.
Context `{MklDnn}.

(** One run of the base constructor from an OK construction context: it
    leaves the attributes alone, ends by falling through or by [return;],
    and its status is decided by the attributes. *)
Lemma MklConvOp_ctor_run (k : MklConvOp) (a : NodeAttrs) :
  let r := MklConvOp_ctor (k, {| node_attrs := a; construction_status := Status.OK |}) in
  let st := construction_status (snd (fst r)) in
  node_attrs (snd (fst r)) = a
  /\ (snd r = Next tt \/ snd r = Return_)
  /\ (st = Status.OK <-> attributes_accepted a = true)
  /\ (Status.code st = Some Status.UNIMPLEMENTED <-> strides_unsupported a = true)
  /\ (Status.code st = Some Status.NOT_FOUND -> attribute_missing a = true)
  /\ Status.code st <> Some Status.ABORTED.
Proof.
  intros r. remember r as r0 eqn:Er. cbn zeta. revert Er. subst r.
  destruct a as [dil pl ep str df pad ifc fo na la ta tb].
  unfold attributes_accepted, strides_unsupported, attribute_missing,
    MklConvOp_ctor, spatial_dilations_positive.
  cbn.
  fork dil. fork pl; fork ep; fork str.
  all: repeat head_fork.
Qed.

End ConvValidationFacts.

Section ConvValidationTheorem.
Context `{MklDnn}.

End ConvValidationTheorem.


Section FusionFacts.
Context `{MklDnn}.

(** After the base constructor, whatever it reported. *)
Lemma after_base_ctor (k : MklConvOp) (a : NodeAttrs) :
  exists k1 st1,
    call MklConvOp_ctor (k, {| node_attrs := a; construction_status := Status.OK |})
    = ((k1, {| node_attrs := a; construction_status := st1 |}), Next tt)
    /\ (st1 = Status.OK <-> attributes_accepted a = true).
Proof.
  destruct (MklConvOp_ctor_run k a) as (Ha & Hfl & Hok & _).
  cbn zeta in *. unfold call.
  destruct (MklConvOp_ctor _) as [[k1 [a1 st1]] fl]. cbn in *. subst a1.
  exists k1, st1. split; [|exact Hok].
  destruct Hfl; subst; reflexivity.
Qed.

Lemma MklFusedConvOp_body_listed (pad_enabled : bool) (k : MklConvOp) (a : NodeAttrs)
    (ops : list string) (n : Z) :
  attr_fused_ops a = Some ops -> attr_num_args a = Some n ->
  ops ∈ conv_fusions ->
  body_status (MklFusedConvOp_body pad_enabled) k a Status.OK = Status.OK
  <-> conv_fusion_accepted a = true.
Proof.
  intros Hops Hn Hin. unfold conv_fusion_accepted. rewrite Hops, Hn.
  rewrite (bool_decide_eq_true_2 _ Hin).
  destruct a as [dil pl ep str df pad ifc fo na la ta tb]. cbn in Hops, Hn. subst fo na.
  unfold body_status, MklFusedConvOp_body, conv_fusions in *.
  repeat (apply elem_of_cons in Hin; destruct Hin as [->|Hin]);
    [..|by apply elem_of_nil in Hin].
  all: unfold set_fuse_biasadd, set_fuse_activation, set_fuse_add, set_fuse_pad,
         conv_num_args_ok; cbn; eval_decisions; run.
  all: repeat head_fork.
Qed.

Lemma MklFusedConvOp_body_unlisted (pad_enabled : bool) (k : MklConvOp) (a : NodeAttrs)
    (ops : list string) (n : Z) :
  attr_fused_ops a = Some ops -> attr_num_args a = Some n ->
  ops ∉ conv_fusions ->
  body_status (MklFusedConvOp_body pad_enabled) k a Status.OK
  = if bool_decide (ops = [])
    then errors.InvalidArgument "Fused Conv2D must have at least one fused op."
    else fusion_not_implemented ops.
Proof.
  intros Hops Hn Hin.
  destruct a as [dil pl ep str df pad ifc fo na la ta tb]. cbn in Hops, Hn. subst fo na.
  unfold body_status, MklFusedConvOp_body, conv_fusions in *.
  run. destruct (bool_decide (ops = [])); [reflexivity|]. run.
  repeat match goal with
         | |- context [bool_decide (ops = ?l)] =>
             rewrite (bool_decide_eq_false_2 (ops = l))
               by (intros ->; apply Hin; refine (bool_decide_unpack _ _); vm_compute; exact I)
         end.
  reflexivity.
Qed.

End FusionFacts.

(** A status reported before a body runs is the status after it: bodies
    report through [CtxFailure] only, which keeps the first error. *)
Section KeepsError.
Context {K : Type}.
Abbreviation St := (K * OpKernelConstruction)%type.

Lemma keeps_error_ret {A} (a : A) : keeps_error (K := K) (ret a).
Proof. intros s _. reflexivity. Qed.

Lemma keeps_error_bind {A B} (m : Body St A) (f : A -> Body St B) :
  keeps_error m -> (forall a, keeps_error (f a)) -> keeps_error (bind m f).
Proof.
  intros Hm Hf s Hs. unfold bind. specialize (Hm s Hs).
  destruct (m s) as [s' [a| |e|u]]; cbn [fst] in *; try exact Hm.
  transitivity (status s'); [|exact Hm]. apply Hf. rewrite Hm. exact Hs.
Qed.

Lemma keeps_error_OP_REQUIRES (c : bool) (e : Status.t) :
  keeps_error (OP_REQUIRES (S := St) c e).
Proof.
  intros [k [a st]] Hs. unfold OP_REQUIRES. destruct c; [reflexivity|].
  cbn in *. destruct st; [contradiction|reflexivity].
Qed.

Lemma keeps_error_OP_REQUIRES_OK (e : Status.t) :
  keeps_error (OP_REQUIRES_OK (S := St) e).
Proof.
  intros [k [a st]] Hs. unfold OP_REQUIRES_OK. destruct (Status.ok e); [reflexivity|].
  cbn in *. destruct st; [contradiction|reflexivity].
Qed.

Lemma keeps_error_assign (f : K -> K) : keeps_error (assign (C := OpKernelConstruction) f).
Proof. intros s _. reflexivity. Qed.

Lemma keeps_error_attrs : keeps_error (attrs (K := K)).
Proof. intros s _. reflexivity. Qed.

Lemma keeps_error_this : keeps_error (this (K := K) (C := OpKernelConstruction)).
Proof. intros s _. reflexivity. Qed.

Lemma keeps_error_when (c : bool) (m : Body St unit) :
  keeps_error m -> keeps_error (when c m).
Proof. intros Hm. destruct c; [exact Hm|apply keeps_error_ret]. Qed.

Lemma keeps_error_if {A} (c : bool) (m1 m2 : Body St A) :
  keeps_error m1 -> keeps_error m2 -> keeps_error (if c then m1 else m2).
Proof. destruct c; auto. Qed.

Lemma keeps_error_GetAttr_local {A} (name : string) (a : option A) (init : A) :
  keeps_error (GetAttr_local (K := K) name a init).
Proof.
  unfold GetAttr_local. destruct (GetAttr name a init).
  apply keeps_error_bind; [apply keeps_error_OP_REQUIRES_OK|].
  intros _. apply keeps_error_ret.
Qed.
End KeepsError.

Create HintDb keeps_error.
#[local] Hint Resolve keeps_error_ret keeps_error_OP_REQUIRES keeps_error_OP_REQUIRES_OK
  keeps_error_assign keeps_error_attrs keeps_error_this keeps_error_when
  keeps_error_if keeps_error_GetAttr_local : keeps_error.

Ltac keeps_error :=
  repeat first
    [ apply keeps_error_bind; [|intros ?]
    | apply keeps_error_if
    | apply keeps_error_when
    | solve [auto with keeps_error] ].

Section FusionFacts2.
Context `{MklDnn}.
Lemma MklFusedConvOp_body_keeps_error (pad_enabled : bool) :
  keeps_error (MklFusedConvOp_body pad_enabled).
Proof.
  unfold MklFusedConvOp_body, set_fuse_biasadd, set_fuse_activation, set_fuse_add,
    set_fuse_pad.
  keeps_error.
Qed.

Lemma MklFusedDepthwiseConvOp_body_keeps_error (pad_enabled : bool) :
  keeps_error (MklFusedDepthwiseConvOp_body pad_enabled).
Proof.
  unfold MklFusedDepthwiseConvOp_body, set_fuse_biasadd, set_fuse_activation,
    set_fuse_add, set_fuse_pad.
  keeps_error.
Qed.

Lemma MklFusedDepthwiseConvOp_body_listed (pad_enabled : bool) (k : MklConvOp)
    (a : NodeAttrs) (ops : list string) (n : Z) :
  attr_fused_ops a = Some ops -> attr_num_args a = Some n ->
  ops ∈ depthwise_fusions ->
  body_status (MklFusedDepthwiseConvOp_body pad_enabled) k a Status.OK = Status.OK
  <-> depthwise_fusion_accepted a = true.
Proof.
  intros Hops Hn Hin. unfold depthwise_fusion_accepted. rewrite Hops, Hn.
  rewrite (bool_decide_eq_true_2 _ Hin).
  destruct a as [dil pl ep str df pad ifc fo na la ta tb]. cbn in Hops, Hn. subst fo na.
  unfold body_status, MklFusedDepthwiseConvOp_body, depthwise_fusions in *.
  repeat (apply elem_of_cons in Hin; destruct Hin as [->|Hin]);
    [..|by apply elem_of_nil in Hin].
  all: unfold set_fuse_biasadd, set_fuse_activation, set_fuse_add, set_fuse_pad;
    cbn; eval_decisions; run.
  all: repeat head_fork.
Qed.

Lemma MklFusedDepthwiseConvOp_body_unlisted (pad_enabled : bool) (k : MklConvOp)
    (a : NodeAttrs) (ops : list string) (n : Z) :
  attr_fused_ops a = Some ops -> attr_num_args a = Some n ->
  ops ∉ depthwise_fusions ->
  body_status (MklFusedDepthwiseConvOp_body pad_enabled) k a Status.OK
  = if bool_decide (ops = [])
    then errors.InvalidArgument
           "Fused DepthwiseConv2D must have at least one fused op."
    else fusion_not_implemented ops.
Proof.
  intros Hops Hn Hin.
  destruct a as [dil pl ep str df pad ifc fo na la ta tb]. cbn in Hops, Hn. subst fo na.
  unfold body_status, MklFusedDepthwiseConvOp_body, depthwise_fusions in *.
  run. destruct (bool_decide (ops = [])); [reflexivity|]. run.
  repeat match goal with
         | |- context [bool_decide (ops = ?l)] =>
             rewrite (bool_decide_eq_false_2 (ops = l))
               by (intros ->; apply Hin; refine (bool_decide_unpack _ _); vm_compute; exact I)
         end.
  reflexivity.
Qed.

Lemma MklFusedConvOp_body_missing (pad_enabled : bool) (k : MklConvOp) (a : NodeAttrs) :
  attr_fused_ops a = None \/ attr_num_args a = None ->
  body_status (MklFusedConvOp_body pad_enabled) k a Status.OK <> Status.OK.
Proof.
  destruct a as [dil pl ep str df pad ifc fo na la ta tb]. cbn.
  unfold body_status, MklFusedConvOp_body.
  intros [->| ->]; run; [discriminate|]. destruct fo; run; discriminate.
Qed.

Lemma MklFusedDepthwiseConvOp_body_missing (pad_enabled : bool) (k : MklConvOp)
    (a : NodeAttrs) :
  attr_fused_ops a = None \/ attr_num_args a = None ->
  body_status (MklFusedDepthwiseConvOp_body pad_enabled) k a Status.OK <> Status.OK.
Proof.
  destruct a as [dil pl ep str df pad ifc fo na la ta tb]. cbn.
  unfold body_status, MklFusedDepthwiseConvOp_body.
  intros [->| ->]; run; [discriminate|]. destruct fo; run; discriminate.
Qed.

(** The status of a derived constructor, from the status of its body. *)
Lemma derived_ctor_status (body : Body (MklConvOp * OpKernelConstruction) unit)
    (k : MklConvOp) (a : NodeAttrs) :
  keeps_error body ->
  exists k1,
    (attributes_accepted a = true ->
       ctor_status k (bind (call MklConvOp_ctor) (fun _ => body)) a
       = body_status body k1 a Status.OK)
    /\ (attributes_accepted a <> true ->
         ctor_status k (bind (call MklConvOp_ctor) (fun _ => body)) a <> Status.OK).
Proof.
  intros Hkeep. destruct (after_base_ctor k a) as (k1 & st1 & Hcall & Hok).
  exists k1. unfold ctor_status, run_ctor, bind. rewrite Hcall. cbn [fst snd].
  split.
  - intros Hacc. apply Hok in Hacc. subst st1. reflexivity.
  - intros Hacc Hst. apply Hacc, Hok.
    destruct st1 as [|c m]; [reflexivity|].
    specialize (Hkeep (k1, {| node_attrs := a; construction_status := Status.Error c m |})).
    cbn in Hkeep. rewrite Hkeep in Hst; [discriminate Hst|discriminate].
Qed.

Lemma unlisted_status_not_OK (ops : list string) (e : Status.t) :
  (if bool_decide (ops = []) then e else fusion_not_implemented ops) = Status.OK ->
  e = Status.OK.
Proof. destruct (bool_decide _); [auto|discriminate]. Qed.

(** C5, as amended.  The fused convolution constructor ends with an OK
    status exactly when the base validation accepts the attributes and
    [fused_ops] is one of the ordered lists [BiasAdd], [A], [BiasAdd, A],
    [BiasAdd, Add], [BiasAdd, Add, A] with A among Relu, Relu6, Elu and
    LeakyRelu, [num_args] being 1 for a list with BiasAdd and without Add
    and 2 for a list with Add, and [leakyrelu_alpha] being present for a
    list with LeakyRelu.  Any other list is rejected: the empty list with
    an InvalidArgument, a non-empty one with Unimplemented.  The fused
    depthwise constructor does the same over [BiasAdd] and [BiasAdd, A]
    with A among Relu, Relu6 and Elu, and [num_args] 1.  Every list either
    constructor has a branch for requests one of the enumerated fusion
    sets. *)
Theorem fusion_policy (pad_enabled : bool) (k : MklConvOp) (a : NodeAttrs) :
  (ctor_status k (MklFusedConvOp_ctor pad_enabled) a = Status.OK
     <-> attributes_accepted a = true /\ conv_fusion_accepted a = true)
  /\ (forall ops n,
        attributes_accepted a = true ->
        attr_fused_ops a = Some ops -> attr_num_args a = Some n ->
        ops ∉ conv_fusions ->
        ctor_status k (MklFusedConvOp_ctor pad_enabled) a
        = if bool_decide (ops = [])
          then errors.InvalidArgument "Fused Conv2D must have at least one fused op."
          else fusion_not_implemented ops)
  /\ (ctor_status k (MklFusedDepthwiseConvOp_ctor pad_enabled) a = Status.OK
       <-> attributes_accepted a = true /\ depthwise_fusion_accepted a = true)
  /\ (forall ops n,
        attributes_accepted a = true ->
        attr_fused_ops a = Some ops -> attr_num_args a = Some n ->
        ops ∉ depthwise_fusions ->
        ctor_status k (MklFusedDepthwiseConvOp_ctor pad_enabled) a
        = if bool_decide (ops = [])
          then errors.InvalidArgument
                 "Fused DepthwiseConv2D must have at least one fused op."
          else fusion_not_implemented ops)
  /\ Forall (fun ops => enumerated ops = true) conv_fusions
  /\ depthwise_fusions ⊆ conv_fusions.
Proof.
  unfold MklFusedConvOp_ctor, MklFusedDepthwiseConvOp_ctor.
  destruct (derived_ctor_status _ k a (MklFusedConvOp_body_keeps_error pad_enabled))
    as (k1 & Hc1 & Hc2).
  destruct (derived_ctor_status _ k a
              (MklFusedDepthwiseConvOp_body_keeps_error pad_enabled))
    as (k2 & Hd1 & Hd2).
  refine (conj (conj _ _) (conj _ (conj (conj _ _) (conj _ (conj _ _))))).
  - intros Hst. destruct (decide (attributes_accepted a = true)) as [Hacc|Hacc];
      [|destruct (Hc2 Hacc Hst)].
    split; [exact Hacc|].
    rewrite (Hc1 Hacc) in Hst.
    destruct (attr_fused_ops a) as [ops|] eqn:Hops;
      [|destruct (MklFusedConvOp_body_missing pad_enabled k1 a (or_introl Hops) Hst)].
    destruct (attr_num_args a) as [n|] eqn:Hn;
      [|destruct (MklFusedConvOp_body_missing pad_enabled k1 a (or_intror Hn) Hst)].
    destruct (decide (ops ∈ conv_fusions)) as [Hin|Hin].
    + apply (MklFusedConvOp_body_listed pad_enabled k1 a ops n Hops Hn Hin), Hst.
    + rewrite (MklFusedConvOp_body_unlisted pad_enabled k1 a ops n Hops Hn Hin) in Hst.
      apply unlisted_status_not_OK in Hst. discriminate Hst.
  - intros [Hacc Hfus]. rewrite (Hc1 Hacc).
    unfold conv_fusion_accepted in Hfus.
    destruct (attr_fused_ops a) as [ops|] eqn:Hops; [|discriminate].
    destruct (attr_num_args a) as [n|] eqn:Hn; [|discriminate].
    assert (Hin : ops ∈ conv_fusions).
    { apply andb_prop in Hfus as [Hfus _]. apply andb_prop in Hfus as [Hfus _].
      apply bool_decide_eq_true_1 in Hfus. exact Hfus. }
    apply (MklFusedConvOp_body_listed pad_enabled k1 a ops n Hops Hn Hin).
    unfold conv_fusion_accepted. rewrite Hops, Hn. exact Hfus.
  - intros ops n Hacc Hops Hn Hin. rewrite (Hc1 Hacc).
    apply (MklFusedConvOp_body_unlisted pad_enabled k1 a ops n Hops Hn Hin).
  - intros Hst. destruct (decide (attributes_accepted a = true)) as [Hacc|Hacc];
      [|destruct (Hd2 Hacc Hst)].
    split; [exact Hacc|].
    rewrite (Hd1 Hacc) in Hst.
    destruct (attr_fused_ops a) as [ops|] eqn:Hops;
      [|destruct (MklFusedDepthwiseConvOp_body_missing pad_enabled k2 a
                    (or_introl Hops) Hst)].
    destruct (attr_num_args a) as [n|] eqn:Hn;
      [|destruct (MklFusedDepthwiseConvOp_body_missing pad_enabled k2 a
                    (or_intror Hn) Hst)].
    destruct (decide (ops ∈ depthwise_fusions)) as [Hin|Hin].
    + apply (MklFusedDepthwiseConvOp_body_listed pad_enabled k2 a ops n Hops Hn Hin), Hst.
    + rewrite (MklFusedDepthwiseConvOp_body_unlisted pad_enabled k2 a ops n Hops Hn Hin)
        in Hst.
      apply unlisted_status_not_OK in Hst. discriminate Hst.
  - intros [Hacc Hfus]. rewrite (Hd1 Hacc).
    unfold depthwise_fusion_accepted in Hfus.
    destruct (attr_fused_ops a) as [ops|] eqn:Hops; [|discriminate].
    destruct (attr_num_args a) as [n|] eqn:Hn; [|discriminate].
    assert (Hin : ops ∈ depthwise_fusions).
    { apply andb_prop in Hfus as [Hfus _].
      apply bool_decide_eq_true_1 in Hfus. exact Hfus. }
    apply (MklFusedDepthwiseConvOp_body_listed pad_enabled k2 a ops n Hops Hn Hin).
    unfold depthwise_fusion_accepted. rewrite Hops, Hn. exact Hfus.
  - intros ops n Hacc Hops Hn Hin. rewrite (Hd1 Hacc).
    apply (MklFusedDepthwiseConvOp_body_unlisted pad_enabled k2 a ops n Hops Hn Hin).
  - refine (bool_decide_unpack _ _). vm_compute. exact I.
  - refine (bool_decide_unpack _ _). vm_compute. exact I.
Qed.
End FusionFacts2.



(** C9.  The fused matmul constructor reads [fused_ops_[0]] after checking
    only that the list has at most two elements: the read is out of bounds
    exactly when the attributes the constructor fetches are all present and
    [fused_ops] is the empty list, no error has been reported when it
    happens, and the length check rejects lists of more than two elements
    only. *)
Theorem MklFusedMatMulOp_ctor_reads_first_unchecked
    (k : MklFusedMatMulOp) (a : NodeAttrs) :
  let r := run_ctor k MklFusedMatMulOp_ctor a in
  (snd r = Undefined OutOfBounds
     <-> attr_fused_ops a = Some []
         /\ HasAttr (attr_transpose_a a) = true
         /\ HasAttr (attr_transpose_b a) = true
         /\ HasAttr (attr_is_filter_const a) = true)
  /\ (snd r = Undefined OutOfBounds -> snd (fst r) = Status.OK)
  /\ (forall ops,
        attr_fused_ops a = Some ops ->
        HasAttr (attr_transpose_a a) = true ->
        HasAttr (attr_transpose_b a) = true ->
        HasAttr (attr_is_filter_const a) = true ->
        (2 < length ops)%nat ->
        snd (fst r)
        = errors.InvalidArgument "MklFusedMatMul must have 2 post-arguments at most.").
Proof.
  intros r. remember r as r0 eqn:Er. revert Er. subst r.
  destruct a as [dil pl ep str df pad ifc fo na la ta tb].
  unfold run_ctor, MklFusedMatMulOp_ctor. cbn.
  destruct fo as [ops|]; run;
    [|intros ->; cbn; repeat split; intros; destruct_and?; discriminate].
  destruct ta as [ta|]; run;
    [|intros ->; cbn; repeat split; intros; destruct_and?; discriminate].
  destruct tb as [tb|]; run;
    [|intros ->; cbn; repeat split; intros; destruct_and?; discriminate].
  destruct ifc as [ifc|]; run;
    [|intros ->; cbn; repeat split; intros; destruct_and?; discriminate].
  destruct ops as [|op ops]; run.
  { intros ->; cbn. repeat split; intros; simplify_eq/=; try reflexivity; lia. }
  repeat match goal with
         | |- context [bind (OP_REQUIRES ?c _) _ _] => destruct c eqn:?; run
         | |- context [OP_REQUIRES ?c _ (_, _)] => destruct c eqn:?; run
         end.
  all: repeat match goal with
              | E : (_ <=? _) = true |- _ => apply Z.leb_le in E
              | E : (_ <=? _) = false |- _ => apply Z.leb_gt in E
              end.
  all: intros ->; cbn; repeat split; intros; destruct_and?; simplify_eq/=;
    try discriminate; try reflexivity; lia.
Qed.

(** What a sequence that falls through has done. *)
Lemma bind_Next_inv {S A B} (m : Body S A) (f : A -> Body S B) (s s' : S) (b : B) :
  bind m f s = (s', Next b) ->
  exists a s1, m s = (s1, Next a) /\ f a s1 = (s', Next b).
Proof.
  unfold bind. destruct (m s) as [s1 [a| |e|u]]; intros Hb; try discriminate.
  exists a, s1. auto.
Qed.

Section StatusOnly.
Context `{ConvEngine} {K : Type}.

Abbreviation Op A := (Body (K * OpKernelContext) A).

Lemma with_status_same (c : OpKernelContext) : with_status (ctx_status c) c = c.
Proof. destruct c; reflexivity. Qed.

Lemma status_only_here {A} (m : Op A) :
  (forall s, fst (m s) = s) -> status_only (K := K) m.
Proof.
  intros Hm k c. exists (ctx_status c). rewrite Hm, with_status_same. reflexivity.
Qed.

Lemma status_only_ret {A} (a : A) : status_only (K := K) (ret a).
Proof. apply status_only_here. reflexivity. Qed.

Lemma status_only_bind {A B} (m : Op A) (f : A -> Op B) :
  status_only (K := K) m -> (forall a, status_only (K := K) (f a)) -> status_only (K := K) (bind m f).
Proof.
  intros Hm Hf k c. unfold bind. destruct (Hm k c) as [st Hst].
  destruct (m (k, c)) as [s1 [a| |e|u]]; cbn in Hst; subst s1; eauto.
  destruct (Hf a k (with_status st c)) as [st' Hst']. exists st'.
  rewrite Hst'. reflexivity.
Qed.

Lemma status_only_input (i : Z) : status_only (K := K) (input i).
Proof. apply status_only_here. reflexivity. Qed.

Lemma status_only_this : status_only (K := K) (this (K := K)).
Proof. apply status_only_here. reflexivity. Qed.

Lemma status_only_context_status : status_only (K := K) context_status.
Proof. apply status_only_here. reflexivity. Qed.

Lemma status_only_subscript {A} (v : list A) (i : nat) : status_only (K := K) (subscript v i).
Proof. apply status_only_here. intros s. unfold subscript. destruct (v !! i); reflexivity. Qed.

Lemma status_only_return_ {A} : status_only (K := K) (return_ (A := A)).
Proof. apply status_only_here. reflexivity. Qed.

Lemma status_only_CtxFailure (e : Status.t) : status_only (K := K) (modify (CtxFailure e)).
Proof. intros k c. eexists. reflexivity. Qed.

Lemma status_only_OP_REQUIRES (b : bool) (e : Status.t) :
  status_only (K := K) (OP_REQUIRES b e).
Proof.
  intros k c. unfold OP_REQUIRES. destruct b.
  - exists (ctx_status c). cbn. rewrite with_status_same. reflexivity.
  - eexists. reflexivity.
Qed.

Lemma status_only_when (b : bool) (m : Op unit) :
  status_only (K := K) m -> status_only (K := K) (when b m).
Proof. destruct b; [auto|intros _; apply status_only_ret]. Qed.

Lemma status_only_if {A} (b : bool) (m1 m2 : Op A) :
  status_only (K := K) m1 -> status_only (K := K) m2 -> status_only (K := K) (if b then m1 else m2).
Proof. destruct b; auto. Qed.
End StatusOnly.

Create HintDb status_only.
#[local] Hint Resolve status_only_ret status_only_input status_only_this
  status_only_context_status status_only_subscript status_only_return_
  status_only_CtxFailure status_only_OP_REQUIRES : status_only.

Ltac status_only :=
  repeat first
    [ apply status_only_bind; [|intros ?]
    | apply status_only_if
    | apply status_only_when
    | solve [auto with status_only]
    | match goal with
      | |- status_only (match ?x with _ => _ end) => destruct x
      end ].

Section ZeroSized.
Context `{ConvEngine}.

Lemma status_only_PadWithConvFusion (l r : dims) (b : bool) :
  status_only (PadWithConvFusion l r b).
Proof. unfold PadWithConvFusion. status_only. Qed.

(** The first block of [Compute] builds nothing and leaves the kernel
    alone; when control leaves it for the rest of [Compute], no error has
    been reported. *)
Lemma Compute_sizes_frame (is_depthwise : bool) (k k1 : MklConvOp)
    (c c1 : OpKernelContext) (r : TensorShape * ConvFwdSizes) :
  Compute_sizes is_depthwise (k, c) = ((k1, c1), Next r) ->
  k1 = k /\ c1 = with_status Status.OK c
  /\ fst r = shape (inputs c kInputIndex_Src).
Proof.
  unfold Compute_sizes. run.
  set (pad_attr_enabled := existsb _ _).
  intros Hrun. apply bind_Next_inv in Hrun as (paddings & [k2 c2] & Hpad & Hrun).
  assert (Hframe : exists st, (k2, c2) = (k, with_status st c)).
  { assert (Hso : status_only (if fuse_pad_ k || pad_attr_enabled
                               then PadWithConvFusion [] [] pad_attr_enabled
                               else ret ([], [])))
      by (apply status_only_if;
          [apply status_only_PadWithConvFusion|apply status_only_ret]).
    destruct (Hso k c) as [st Hst]. rewrite Hpad in Hst. eauto. }
  destruct Hframe as [st Hframe]. simplify_eq.
  revert Hrun.
  destruct (GetConvFwdSizesInMklOrder _) as [sizes reported].
  destruct reported as [|code msg], st as [|code' msg']; run;
    intros; simplify_eq/=; auto.
Qed.

Lemma Compute_nothing_to_compute (T : KernelTypes) (pad_enabled is_depthwise : bool)
    (k : MklConvOp) (c : OpKernelContext) (s1 : MklConvOp * OpKernelContext)
    (src_tf_shape : TensorShape) (sizes : ConvFwdSizes) :
  Compute_sizes is_depthwise (k, c) = (s1, Next (src_tf_shape, sizes)) ->
  nothing_to_compute sizes = true ->
  Compute T pad_enabled is_depthwise (k, c)
  = ((k, add_event (OutputAllocated kOutputIndex_Dst (shape (inputs c kInputIndex_Src)))
           (with_status Status.OK c)),
     Return_).
Proof.
  intros Hsizes Hzero. destruct s1 as [k1 c1].
  destruct (Compute_sizes_frame _ _ _ _ _ _ Hsizes) as (-> & -> & Hshape).
  cbn in Hshape. subst src_tf_shape.
  unfold Compute, try_catch. unfold bind at 1.
  rewrite Hsizes. run. rewrite Hzero. run. reflexivity.
Qed.
End ZeroSized.

Section MatMulZeroSized.
Context `{MatMulEngine}.

Lemma MatMul_Compute_nothing_to_compute (T_name : string) (sizeof_T : Z)
    (s s1 : MatMulState * MatMulContext) (l : MatMulLocals)
    (s2 : MatMulState) (c2 : MatMulContext) (matmul_prim : nat * MatMulPd) :
  MatMul_prepare (s) = (s1, Next l) ->
  MklDnnMatMulFwdPrimitiveFactory_Get (matmul_params l) s1
    = ((s2, c2), Next matmul_prim) ->
  batch l = 0 \/ channel l = 0 ->
  MatMul_Compute T_name sizeof_T s
  = ((s2, mm_add_event
            (MatMulOutputAllocated 0 (dst_tensor_shape sizeof_T l (snd matmul_prim)))
            c2),
     Return_)
  /\ (IsMklTensor (src_tensor l) = false ->
      num_elements (dst_tensor_shape sizeof_T l (snd matmul_prim)) = 0).
Proof.
  intros Hprep Hget Hzero. split.
  - unfold MatMul_Compute. unfold bind at 1. rewrite Hprep.
    unfold bind at 1. rewrite Hget. run.
    replace ((batch l =? 0) || (channel l =? 0)) with true; [reflexivity|].
    symmetry. apply orb_true_iff. rewrite !Z.eqb_eq. exact Hzero.
  - intros Hplain. unfold dst_tensor_shape. rewrite Hplain. cbn.
    destruct Hzero as [-> | ->]; lia.
Qed.
End MatMulZeroSized.

Section NothingToCompute.
Context `{TensorFormatApi} `{!MklDnn} `{!ConvEngine} `{!MatMulEngine}.

End NothingToCompute.

Section ExecuteFacts.
Context `{ConvEngine}.

(** C6, as amended.  After an [Execute] call that returns, the source,
    filter and destination slots of the primitive are bound to the dummy
    data, and so is the bias slot when a bias was passed (it is left as it
    was otherwise), so that a primitive with no slot bound before the call
    has none bound after it.  When the backend's compute call throws, the
    exception leaves [Execute] with the slots still bound to the caller's
    buffers.  The call is undefined exactly when a bias is passed to a
    primitive built without one. *)
Theorem Execute_resets_on_normal_return (p : MklConvFwdPrimitive)
    (src_data filter_data bias_data dst_data : ptr) :
  let r := Execute src_data filter_data bias_data dst_data p in
  (snd r = Next tt ->
     src_mem (fst r) = DummyData /\ filter_mem (fst r) = DummyData
     /\ dst_mem (fst r) = DummyData
     /\ bias_mem (fst r)
        = (if bool_decide (bias_data = nullptr) then bias_mem p else Some DummyData))
  /\ (forall e, snd r = Raise e ->
        src_mem (fst r) = src_data /\ filter_mem (fst r) = filter_data
        /\ dst_mem (fst r) = dst_data
        /\ bias_mem (fst r)
           = (if bool_decide (bias_data = nullptr) then bias_mem p else Some bias_data))
  /\ (unbound p -> snd r = Next tt -> unbound (fst r))
  /\ (snd r = Undefined NullDereference
        <-> bias_data <> nullptr /\ bias_mem p = None)
  /\ (bias_data = nullptr \/ bias_mem p <> None ->
        snd r = match execute_error (fwd_pd p) src_data filter_data
                        (if bool_decide (bias_data = nullptr) then bias_mem p
                         else Some bias_data) dst_data with
                | Some e => Raise e
                | None => Next tt
                end).
Proof.
  unfold Execute, unbound. destruct p as [sm fm bm dm pd].
  unfold bind, when, src_mem_set_data_handle, filter_mem_set_data_handle,
    bias_mem_set_data_handle, dst_mem_set_data_handle, fwd_primitives_execute,
    modify, ret.
  destruct (bool_decide (bias_data = nullptr)) eqn:Hb; cbn.
  - apply bool_decide_eq_true_1 in Hb. subst bias_data.
    destruct (execute_error pd src_data filter_data bm dst_data); cbn.
    all: repeat split; intros; simplify_eq/=; try done; naive_solver.
  - apply bool_decide_eq_false_1 in Hb.
    destruct bm as [b|]; cbn.
    + destruct (execute_error pd src_data filter_data (Some bias_data) dst_data); cbn.
      all: repeat split; intros; simplify_eq/=; try done;
        naive_solver.
    + repeat split; intros; simplify_eq/=; try done; naive_solver.
Qed.
End ExecuteFacts.

Section FilterCacheFacts.
Context `{ConvEngine}.
Variable T : KernelTypes.

Lemma IsFilterCacheEmpty_run (k : MklConvOp) (c : OpKernelContext) :
  IsFilterCacheEmpty (k, c)
  = ((k, c), Next (NumElements (cached_filter_data_ptensor_ k) =? 0)).
Proof. reflexivity. Qed.

(** A second writer finds the cache filled and leaves it alone. *)
Lemma CacheFilter_filled (conv_fwd_pd : ConvFwdPd) (filter_md : memory_desc)
    (k : MklConvOp) (c : OpKernelContext) :
  0 < NumElements (cached_filter_data_ptensor_ k) ->
  call (CacheFilter T conv_fwd_pd filter_md) (k, c) = ((k, c), Next tt).
Proof.
  intros Hfull. unfold call, CacheFilter. run.
  apply Z.ltb_lt in Hfull. rewrite Hfull. reflexivity.
Qed.

Lemma GetCachedFilter_run (filter_md cached_md : memory_desc)
    (k : MklConvOp) (c : OpKernelContext) :
  cached_filter_md_ptensor_ k = Some cached_md ->
  GetCachedFilter filter_md (k, c)
  = ((k, c), Next (if bool_decide (filter_md = cached_md) then CachedFilterData
                   else nullptr)).
Proof.
  intros Hmd. unfold GetCachedFilter. run. rewrite Hmd.
  destruct (bool_decide _); reflexivity.
Qed.

End FilterCacheFacts.

(** ** Concurrent first use of the filter cache *)

Section ThreadFacts.
Context `{ConvEngine}.
Variable T : KernelTypes.
Variable conv_fwd_pd : ConvFwdPd.
Variable filter_md : memory_desc.
Variable inputs_ : Z -> InputTensor.

Let wanted := weights_desc conv_fwd_pd.
Let converted := OpMemData filter_md wanted (InputData kInputIndex_Filter).
Let size_ := get_size wanted / sizeof_Tfilter T.

Hypothesis reorder_completes :
  reorder_error filter_md wanted (InputData kInputIndex_Filter) = None.
Hypothesis data_tensor_granted :
  allocate_persistent (Tfilter T) [size_] = Status.OK.
Hypothesis descriptor_tensor_granted :
  allocate_persistent "uint8" [sizeof_memory_desc] = Status.OK.
Hypothesis converted_not_empty : 0 < size_.


Lemma NumElements_filled (k : MklConvOp) :
  cache_filled T conv_fwd_pd filter_md k ->
  NumElements (cached_filter_data_ptensor_ k) = size_.
Proof.
  intros [-> _]. unfold NumElements, num_elements, size_, wanted. cbn.
  apply Z.mul_1_r.
Qed.

Lemma conversions_app (l1 l2 : list Event) :
  conversions conv_fwd_pd filter_md (l1 ++ l2)
  = (conversions conv_fwd_pd filter_md l1 + conversions conv_fwd_pd filter_md l2)%nat.
Proof. unfold conversions. rewrite filter_app, length_app. reflexivity. Qed.

Lemma conversions_conversion (dst : ptr) :
  conversions conv_fwd_pd filter_md
    [Reordered filter_md wanted (InputData kInputIndex_Filter) dst] = 1%nat.
Proof.
  unfold conversions. rewrite filter_cons_True; [reflexivity|].
  cbn. rewrite !bool_decide_eq_true_2 by reflexivity. reflexivity.
Qed.

Lemma conversions_allocation (s : TensorShape) :
  conversions conv_fwd_pd filter_md [PersistentAllocated s] = 0%nat.
Proof. unfold conversions. rewrite filter_cons_False; [reflexivity|]. cbn. discriminate. Qed.

(** What one step of a thread does, before and after the conversion. *)
Lemma thread_step_waiting (at_ : pc) (sys : System) :
  NumElements (cached_filter_data_ptensor_ (shared sys)) = 0 ->
  conversions conv_fwd_pd filter_md (log sys) = 0%nat ->
  waiting at_ ->
  let '(at', k, l) := thread_step T conv_fwd_pd filter_md inputs_ at_ sys in
  (remaining at' < remaining at_)%nat
  /\ ((k = shared sys /\ l = log sys /\ waiting at')
      \/ (cache_filled T conv_fwd_pd filter_md k /\ conversions conv_fwd_pd filter_md l = 1%nat
          /\ served at')).
Proof.
  intros Hempty Hnone [-> | ->]; cbn.
  - unfold section_. cbn. rewrite Hempty. cbn. split; [lia|].
    left. unfold waiting. auto.
  - unfold section_, call, CacheFilter, CheckReorderToOpMem, CreateAndExecuteReorder.
    run. rewrite Hempty. run.
    fold wanted. rewrite reorder_completes. run.
    unfold AllocatePersistentTensor. fold wanted. fold size_.
    rewrite data_tensor_granted. run. rewrite descriptor_tensor_granted. run.
    split; [lia|]. right. split; [split; reflexivity|].
    split; [|unfold served; auto].
    rewrite !conversions_app, Hnone, conversions_conversion, !conversions_allocation.
    reflexivity.
Qed.

Lemma thread_step_served (at_ : pc) (sys : System) :
  cache_filled T conv_fwd_pd filter_md (shared sys) ->
  served at_ ->
  let '(at', k, l) := thread_step T conv_fwd_pd filter_md inputs_ at_ sys in
  (remaining at' <= remaining at_ - 1)%nat
  /\ k = shared sys /\ l = log sys /\ served at'.
Proof.
  intros Hfilled Hat.
  pose proof (NumElements_filled _ Hfilled) as Hsize.
  destruct Hfilled as [Hdata Hmd].
  destruct Hat as [-> | [-> | [-> | ->]]]; cbn [thread_step].
  - unfold section_. rewrite IsFilterCacheEmpty_run, Hsize.
    replace (size_ =? 0) with false by (symmetry; apply Z.eqb_neq; lia).
    repeat split; [cbn; lia|unfold served; auto].
  - unfold section_. rewrite (CacheFilter_filled T) by lia.
    repeat split; [cbn; lia|unfold served; auto].
  - unfold section_. rewrite (GetCachedFilter_run _ wanted) by exact Hmd.
    rewrite (bool_decide_eq_true_2 (weights_desc conv_fwd_pd = wanted)) by reflexivity.
    rewrite (bool_decide_eq_false_2 (CachedFilterData = nullptr)) by discriminate.
    repeat split; [cbn; lia|unfold served; auto].
  - repeat split; [cbn; lia|unfold served; auto].
Qed.

Lemma step_invariant (sys : System) (i : nat) :
  invariant T conv_fwd_pd filter_md sys ->
  invariant T conv_fwd_pd filter_md (step T conv_fwd_pd filter_md inputs_ sys i)
  /\ length (threads (step T conv_fwd_pd filter_md inputs_ sys i))
     = length (threads sys)
  /\ (forall j,
        (remaining_of (step T conv_fwd_pd filter_md inputs_ sys i) j
         <= remaining_of sys j - (if bool_decide (j = i) then 1 else 0))%nat).
Proof.
  intros Hinv. unfold step, remaining_of.
  destruct (threads sys !! i) as [at_|] eqn:Hi.
  2:{ split; [exact Hinv|]. split; [reflexivity|].
      intros j. case_bool_decide; [subst j; rewrite Hi|]; lia. }
  assert (Hlt : (i < length (threads sys))%nat) by (eapply lookup_lt_Some; eauto).
  destruct Hinv as [(Hempty & Hnone & Hall) | (Hfilled & Hone & Hall)].
  - pose proof (thread_step_waiting at_ sys Hempty Hnone) as Hstep.
    rewrite Forall_lookup in Hall. specialize (Hstep (Hall _ _ Hi)).
    destruct (thread_step _ _ _ _ _ _) as [[at' k] l]. cbn.
    destruct Hstep as [Hrem Hnext]. split; [|split].
    + destruct Hnext as [(-> & -> & Hw) | (Hf & Hc & Hs)].
      * left. repeat split; auto. apply Forall_insert; [|exact Hw].
        apply Forall_lookup. exact Hall.
      * right. repeat split; auto; try apply Hf. apply Forall_insert; [|exact Hs].
        apply Forall_lookup. intros j x Hj. specialize (Hall _ _ Hj).
        unfold waiting, served in *. tauto.
    + apply length_insert.
    + intros j. case_bool_decide as Hji.
      * subst j. rewrite list_lookup_insert_eq by exact Hlt. rewrite Hi. lia.
      * rewrite list_lookup_insert_ne by congruence. lia.
  - rewrite Forall_lookup in Hall.
    pose proof (thread_step_served at_ sys Hfilled (Hall _ _ Hi)) as Hstep.
    destruct (thread_step _ _ _ _ _ _) as [[at' k] l]. cbn.
    destruct Hstep as (Hrem & -> & -> & Hs). split; [|split].
    + right. repeat split; auto; try apply Hfilled. apply Forall_insert; [|exact Hs].
      apply Forall_lookup. exact Hall.
    + apply length_insert.
    + intros j. case_bool_decide as Hji.
      * subst j. rewrite list_lookup_insert_eq by exact Hlt. rewrite Hi. lia.
      * rewrite list_lookup_insert_ne by congruence. lia.
Qed.

Lemma run_invariant (schedule : list nat) (sys : System) :
  invariant T conv_fwd_pd filter_md sys ->
  invariant T conv_fwd_pd filter_md (run T conv_fwd_pd filter_md inputs_ schedule sys)
  /\ length (threads (run T conv_fwd_pd filter_md inputs_ schedule sys))
     = length (threads sys)
  /\ (forall j,
        (remaining_of (run T conv_fwd_pd filter_md inputs_ schedule sys) j
         <= remaining_of sys j - length (filter (fun i => i = j) schedule))%nat).
Proof.
  unfold run. revert sys. induction schedule as [|i schedule IH]; intros sys Hinv.
  - cbn. split; [exact Hinv|]. split; [reflexivity|]. intros j. lia.
  - cbn [fold_left].
    destruct (step_invariant sys i Hinv) as (Hinv' & Hlen' & Hrem').
    destruct (IH _ Hinv') as (Hinv'' & Hlen'' & Hrem'').
    split; [exact Hinv''|]. split; [congruence|].
    intros j. specialize (Hrem' j). specialize (Hrem'' j).
    destruct (decide (i = j)) as [->|Hij].
    + rewrite filter_cons_True by reflexivity. cbn [length].
      rewrite bool_decide_eq_true_2 in Hrem' by reflexivity. lia.
    + rewrite filter_cons_False by exact Hij.
      rewrite bool_decide_eq_false_2 in Hrem' by congruence. lia.
Qed.

End ThreadFacts.

(** ** The scan of the fused matmul output *)

Section ScanFacts.
Context `{MatMulEngine}.
Variable buffer : ptr.
Hypothesis not_operation_memory :
  forall from to src, buffer <> OpMemData from to src.

Lemma preparing_here {A} (m : Body (MatMulState * MatMulContext) A) :
  (forall s, exists a, m s = (s, Next a)) -> preparing buffer m.
Proof.
  intros Hm s. destruct (Hm s) as [a ->]. exists []. cbn.
  rewrite app_nil_r. repeat split. constructor.
Qed.

Lemma preparing_ret {A} (a : A) : preparing buffer (ret a).
Proof. apply preparing_here. eauto. Qed.

Lemma preparing_bind {A B} (m : Body (MatMulState * MatMulContext) A) (f : A -> Body (MatMulState * MatMulContext) B) :
  preparing buffer m -> (forall a, preparing buffer (f a)) ->
  preparing buffer (bind m f).
Proof.
  intros Hm Hf s. destruct (Hm s) as (d1 & He1 & Hu1 & Hs1 & Hfl1).
  unfold bind. destruct (m s) as [s1 [a| |e|u]]; cbn in *; try contradiction.
  - destruct (Hf a s1) as (d2 & He2 & Hu2 & Hs2 & Hfl2).
    exists (d1 ++ d2)%list. rewrite He2, He1, Hs2, Hs1, app_assoc.
    repeat split; [apply Forall_app; auto|exact Hfl2].
  - exists d1. auto.
Qed.

Lemma preparing_if {A} (b : bool) (m1 m2 : Body (MatMulState * MatMulContext) A) :
  preparing buffer m1 -> preparing buffer m2 ->
  preparing buffer (if b then m1 else m2).
Proof. destruct b; auto. Qed.

Lemma preparing_when (b : bool) (m : Body (MatMulState * MatMulContext) unit) :
  preparing buffer m -> preparing buffer (when b m).
Proof. destruct b; [auto|intros _; apply preparing_ret]. Qed.

Lemma preparing_members : preparing buffer members.
Proof. apply preparing_here. intros s. eexists. reflexivity. Qed.

Lemma preparing_this_weight_cache : preparing buffer this_weight_cache.
Proof. apply preparing_here. intros s. eexists. reflexivity. Qed.

Lemma preparing_this_CacheWeight (matmul_pd : MatMulPd) (weight_md : memory_desc) :
  preparing buffer (this_CacheWeight matmul_pd weight_md).
Proof.
  intros s. exists []. unfold this_CacheWeight.
  destruct (CacheWeight _ _ _) as [e|c] eqn:Hcache; cbn; rewrite app_nil_r.
  - repeat split; [constructor|]. right. eauto.
  - repeat split. constructor.
Qed.

Lemma preparing_CheckReorderToOpMem (from to : memory_desc) (src : ptr) :
  preparing buffer (mm_CheckReorderToOpMem from to src).
Proof.
  intros s. unfold mm_CheckReorderToOpMem.
  destruct (matmul_reorder_error from to src) as [e|] eqn:Hreorder.
  - exists []. cbn. rewrite app_nil_r. repeat split; [constructor|].
    left. eauto.
  - eexists. cbn. repeat split. repeat constructor. cbn.
    intros Heq. apply (not_operation_memory from to src). congruence.
Qed.

(** Reading [n] elements: they are read one after the other, and nothing
    else is done. *)
Lemma dst_reads_run (n : nat) (s : MatMulState * MatMulContext) :
  reads buffer n s
  = ((fst s, {| mm_inputs := mm_inputs (snd s); mm_status := mm_status (snd s);
                mm_events := mm_events (snd s) ++ reads_all buffer n |}),
     Next tt).
Proof.
  unfold reads, reads_all. generalize (seq 0 n). intros l. revert s.
  induction l as [|i l IH]; intros [k c].
  - cbn. rewrite app_nil_r. destruct c; reflexivity.
  - cbn [fold_right map]. unfold bind at 1. cbn [mm_emit fst snd].
    rewrite IH. cbn. rewrite <- app_assoc. reflexivity.
Qed.

(** The loop over a buffer of [n] elements reads them all when the counter
    can reach [n], and otherwise overflows after [2^31] reads. *)
Lemma scan_run (n : Z) (s : MatMulState * MatMulContext) :
  scan buffer n s
  = ((fst s, {| mm_inputs := mm_inputs (snd s); mm_status := mm_status (snd s);
                mm_events := mm_events (snd s)
                             ++ reads_all buffer
                                  (Z.to_nat (if n <? 2 ^ 31 then n else 2 ^ 31)) |}),
     if n <? 2 ^ 31 then Next tt else Undefined SignedOverflow).
Proof.
  unfold scan. destruct (n <? 2 ^ 31).
  - apply dst_reads_run.
  - unfold bind. rewrite dst_reads_run. reflexivity.
Qed.

Lemma scanning_bind {A} (n : Z) (m : Body (MatMulState * MatMulContext) A) (f : A -> Body (MatMulState * MatMulContext) unit) :
  preparing buffer m -> (forall a, scanning buffer n (f a)) ->
  scanning buffer n (bind m f).
Proof.
  intros Hm Hf s. destruct (Hm s) as (d1 & He1 & Hu1 & Hs1 & Hfl1).
  unfold bind. destruct (m s) as [s1 [a| |e|u]]; cbn in *; try contradiction.
  - destruct (Hf a s1) as (d2 & after & He2 & Hu2 & Hs2 & Hfl2).
    exists (d1 ++ d2)%list, after. rewrite He2, He1, Hs2, Hs1, !app_assoc.
    repeat split; [apply Forall_app; auto|exact Hfl2].
  - exists d1, []. rewrite app_nil_r. repeat split; eauto.
    right. left. exists e. split; [left; split; [exact Hfl1|reflexivity]|reflexivity].
Qed.

Lemma scanning_scan_Execute (n : Z) (matmul_pd : MatMulPd)
    (src_data weight_data : ptr) :
  scanning buffer n
    (bind (scan buffer n)
       (fun _ => matmul_prim_Execute matmul_pd src_data weight_data
                   (InputData kInputIndexBias) buffer)).
Proof.
  intros s. exists []. unfold bind. rewrite scan_run.
  destruct (n <? 2 ^ 31) eqn:Hn.
  - apply Z.ltb_lt in Hn. unfold matmul_prim_Execute.
    destruct (matmul_execute_error _ _ _ _ _) as [e|]; cbn.
    + exists (reads_all buffer (Z.to_nat n)). repeat split; [constructor|].
      right. left. exists e. split; [right; split; [exact Hn|reflexivity]|reflexivity].
    + eexists. rewrite <- app_assoc. repeat split; [constructor|].
      left. split; [exact Hn|]. eauto.
  - apply Z.ltb_ge in Hn. cbn.
    exists (reads_all buffer (Z.to_nat (2 ^ 31))). repeat split; [constructor|].
    right. right. repeat split. exact Hn.
Qed.

Lemma scanning_try_block (T_name : string) (l : MatMulLocals) (matmul_pd : MatMulPd)
    (dst_shape : TensorShape) :
  scanning buffer (num_elements dst_shape)
    (MatMul_try_block T_name l matmul_pd dst_shape buffer).
Proof.
  unfold MatMul_try_block.
  apply scanning_bind; [apply preparing_members|intros this].
  apply scanning_bind.
  { apply preparing_if; [apply preparing_CheckReorderToOpMem|apply preparing_ret]. }
  intros src_data. apply scanning_bind.
  { apply preparing_if; [|apply preparing_ret].
    apply preparing_bind.
    - apply preparing_if; [|apply preparing_ret].
      apply preparing_bind; [apply preparing_this_weight_cache|intros cache].
      apply preparing_bind.
      { apply preparing_when, preparing_this_CacheWeight. }
      intros _. apply preparing_bind; [apply preparing_this_weight_cache|intros c].
      apply preparing_ret.
    - intros p. apply preparing_if;
        [apply preparing_ret|apply preparing_CheckReorderToOpMem]. }
  intros weight_data. apply scanning_scan_Execute.
Qed.
End ScanFacts.

Section ScanTheorem.
Context `{MatMulEngine}.

End ScanTheorem.

(** ** Exceptions of the fused matmul call *)

Section MatMulExceptions.
Context `{MatMulEngine}.

(** C8, on the code.  The fused matmul [Compute] asks the factory for its
    primitive before its [try] block: when the factory has to build the
    primitive and the backend throws, the exception leaves [Compute], with
    nothing reported on the status channel.  Once the factory has
    answered, no exception leaves [Compute]. *)
Theorem MklFusedMatMulOp_Compute_build_exception_escapes (T_name : string)
    (sizeof_T : Z) (s s1 : MatMulState * MatMulContext) (l : MatMulLocals) :
  MatMul_prepare s = (s1, Next l) ->
  (forall e,
      find_primitive (matmul_params l) (pool (fst s1)) = None ->
      matmul_primitive_desc (matmul_params l) = inl e ->
      MatMul_Compute T_name sizeof_T s = (s1, Raise e))
  /\ (forall s2 matmul_prim,
         MklDnnMatMulFwdPrimitiveFactory_Get (matmul_params l) s1
         = (s2, Next matmul_prim) ->
         forall e, snd (MatMul_Compute T_name sizeof_T s) <> Raise e).
Proof.
  intros Hprep. split.
  - intros e Hfind Hbuild. unfold MatMul_Compute. unfold bind at 1. rewrite Hprep.
    unfold bind at 1. unfold MklDnnMatMulFwdPrimitiveFactory_Get.
    rewrite Hfind, Hbuild. reflexivity.
  - intros s2 matmul_prim Hget e. unfold MatMul_Compute. unfold bind at 1.
    rewrite Hprep. unfold bind at 1. rewrite Hget.
    unfold bind at 1. cbn [mm_allocate_output bind mm_emit ret fst snd].
    destruct ((batch l =? 0) || (channel l =? 0)); [discriminate|].
    unfold try_catch.
    destruct (MatMul_try_block _ _ _ _ _ _) as [s3 [[]| |e'|u]];
      unfold report_exception, OP_REQUIRES_OK; cbn; discriminate.
Qed.
End MatMulExceptions.

(** * Further properties of the kernels *)


Section SetupFacts.
Context `{ConvEngine}.

(** What [Execute] does on a primitive whose slots are unbound. *)
Lemma Execute_unbound_run (p : MklConvFwdPrimitive)
    (src_data filter_data bias_data dst_data : ptr) :
  unbound p ->
  Execute src_data filter_data bias_data dst_data p
  = if bool_decide (bias_data = nullptr) then
      match execute_error (fwd_pd p) src_data filter_data (bias_mem p) dst_data with
      | Some e =>
          ({| src_mem := src_data; filter_mem := filter_data; bias_mem := bias_mem p;
              dst_mem := dst_data; fwd_pd := fwd_pd p |}, Raise e)
      | None => (p, Next tt)
      end
    else
      match bias_mem p with
      | None =>
          ({| src_mem := src_data; filter_mem := filter_data; bias_mem := None;
              dst_mem := DummyData; fwd_pd := fwd_pd p |},
           Undefined NullDereference)
      | Some _ =>
          match execute_error (fwd_pd p) src_data filter_data (Some bias_data)
                  dst_data with
          | Some e =>
              ({| src_mem := src_data; filter_mem := filter_data;
                  bias_mem := Some bias_data; dst_mem := dst_data;
                  fwd_pd := fwd_pd p |}, Raise e)
          | None => (p, Next tt)
          end
      end.
Proof.
  destruct p as [sm fm bm dm pd]. unfold unbound. cbn.
  intros (-> & -> & -> & Hb).
  unfold Execute, bind, when, src_mem_set_data_handle, filter_mem_set_data_handle,
    bias_mem_set_data_handle, dst_mem_set_data_handle, fwd_primitives_execute,
    modify, ret.
  destruct (bool_decide (bias_data = nullptr)) eqn:Hbias; cbn.
  - destruct (execute_error pd src_data filter_data bm dst_data); reflexivity.
  - destruct Hb as [-> | ->]; cbn; [reflexivity|].
    destruct (execute_error pd src_data filter_data (Some bias_data) dst_data);
      reflexivity.
Qed.

(** X1.  A primitive that [Setup] has made holds the descriptor the backend
    negotiated for its parameters and has every slot on dummy data, with a
    bias memory exactly when the parameters carry bias dimensions.
    Executing it with a bias pointer dereferences a null pointer exactly
    when it was set up without bias dimensions; an execution that returns
    normally leaves it as [Setup] made it, and the execution without bias
    never has undefined behaviour. *)
Theorem Setup_then_Execute (convFwdDims : MklConvFwdParams) (p : MklConvFwdPrimitive)
    (src_data filter_data bias_data dst_data : ptr) :
  Setup convFwdDims = inr p ->
  let r := Execute src_data filter_data bias_data dst_data p in
  primitive_desc convFwdDims = inr (fwd_pd p)
  /\ unbound p
  /\ (bias_mem p = None <-> bias_dims convFwdDims = [])
  /\ (snd r = Undefined NullDereference
      <-> bias_data <> nullptr /\ bias_dims convFwdDims = [])
  /\ (snd r = Next tt -> fst r = p)
  /\ (forall u, snd (Execute_no_bias src_data filter_data dst_data p) <> Undefined u).
Proof.
  unfold Setup. destruct (primitive_desc convFwdDims) as [e|pd] eqn:Hpd; [discriminate|].
  intros [= <-]. cbn zeta.
  assert (Hun : unbound {| src_mem := DummyData; filter_mem := DummyData;
                           bias_mem := if bool_decide (bias_dims convFwdDims = [])
                                       then None else Some DummyData;
                           dst_mem := DummyData; fwd_pd := pd |}).
  { unfold unbound. cbn. destruct (bool_decide _); auto. }
  unfold Execute_no_bias. rewrite !(Execute_unbound_run _ _ _ _ _ Hun). cbn.
  rewrite (bool_decide_eq_true_2 (nullptr = nullptr)) by reflexivity.
  split; [reflexivity|]. split; [exact Hun|].
  case_bool_decide as Hdims; case_bool_decide as Hbias;
    repeat match goal with
           | |- context [execute_error ?a ?b ?c ?d ?e] =>
               destruct (execute_error a b c d e)
           end; cbn.
  all: repeat split; intros; destruct_and?; try congruence; try discriminate; auto.
Qed.

End SetupFacts.

Section PadFacts.
Context `{ConvEngine}.

(** X5.  [PadWithConvFusion] changes nothing in the kernel or the
    context.  From the paddings, which it takes from the padding list of
    the kernel or from the paddings input, it reads the entries 2 to 5 for
    NHWC and 4 to 7 for NCHW, without checking that there are that many:
    on fewer the read is out of bounds.  For any other format the padding
    is zero.  The paddings are taken to fit an [int]. *)
Theorem PadWithConvFusion_by_layout (k : MklConvOp) (c : OpKernelContext)
    (padding_left padding_right : dims) (pad_attr_enabled : bool)
    (paddings : list Z) :
  (if pad_attr_enabled then padding_list_ k = paddings
   else tensor_dims (inputs c (input_index_pad_ k)) = 2
        /\ flat (inputs c (input_index_pad_ k)) = paddings) ->
  Forall fits_int paddings ->
  let r := PadWithConvFusion padding_left padding_right pad_attr_enabled (k, c) in
  fst r = (k, c)
  /\ (ToString (data_format_ k) = "NHWC" ->
      snd r = if bool_decide (6 <= length paddings)%nat
              then Next ([at_ paddings 2; at_ paddings 4],
                         [at_ paddings 3; at_ paddings 5])
              else Undefined OutOfBounds)
  /\ (ToString (data_format_ k) = "NCHW" ->
      snd r = if bool_decide (8 <= length paddings)%nat
              then Next ([at_ paddings 4; at_ paddings 6],
                         [at_ paddings 5; at_ paddings 7])
              else Undefined OutOfBounds)
  /\ (ToString (data_format_ k) <> "NHWC" -> ToString (data_format_ k) <> "NCHW" ->
      snd r = Next ([0; 0], [0; 0])).
Proof.
  intros Hsrc _ r.
  assert (Hr : r = bind (ret (S := MklConvOp * OpKernelContext) (Some paddings))
                     (fun p =>
                        match p with
                        | None => ret (padding_left, padding_right)
                        | Some paddings =>
                            let data_format := ToString (data_format_ k) in
                            pads <-
                              (if bool_decide (data_format = "NHWC") then
                                 pad_top <- subscript paddings 2 ;;
                                 pad_bottom <- subscript paddings 3 ;;
                                 pad_left <- subscript paddings 4 ;;
                                 pad_right <- subscript paddings 5 ;;
                                 ret (pad_top, pad_bottom, pad_left, pad_right)
                               else if bool_decide (data_format = "NCHW") then
                                 pad_top <- subscript paddings 4 ;;
                                 pad_bottom <- subscript paddings 5 ;;
                                 pad_left <- subscript paddings 6 ;;
                                 pad_right <- subscript paddings 7 ;;
                                 ret (pad_top, pad_bottom, pad_left, pad_right)
                               else ret (0, 0, 0, 0)) ;;
                            let '(pad_top, pad_bottom, pad_left, pad_right) := pads in
                            ret ([pad_top; pad_left], [pad_bottom; pad_right])
                        end) (k, c)).
  { subst r. unfold PadWithConvFusion. destruct pad_attr_enabled.
    - subst paddings. reflexivity.
    - destruct Hsrc as [Hdims <-]. unfold bind at 1. cbn [this fst snd].
      unfold bind at 1. unfold bind at 1. cbn [input fst snd]. rewrite Hdims.
      reflexivity. }
  clearbody r. subst r. unfold bind at 1. cbn [ret fst snd]. cbv zeta.
  destruct (decide (ToString (data_format_ k) = "NHWC")) as [Hf|Hf];
    [rewrite (bool_decide_eq_true_2 _ Hf)
    |rewrite (bool_decide_eq_false_2 _ Hf);
     destruct (decide (ToString (data_format_ k) = "NCHW")) as [Hg|Hg];
     [rewrite (bool_decide_eq_true_2 _ Hg)|rewrite (bool_decide_eq_false_2 _ Hg)]].
  all: destruct paddings as [|p0 [|p1 [|p2 [|p3 [|p4 [|p5 [|p6 [|p7 rest]]]]]]]].
  all: cbn [length]; repeat case_bool_decide; try lia.
  all: cbn; repeat split; congruence.
Qed.
End PadFacts.

Lemma bind_Next {S A B} (m : Body S A) (f : A -> Body S B) (s s1 : S) (a : A) :
  m s = (s1, Next a) -> bind m f s = f a s1.
Proof. intros Hm. unfold bind. rewrite Hm. reflexivity. Qed.

Section FilterDataFacts.
Context `{ConvEngine}.
Variable T : KernelTypes.

Lemma NumElements_one (n : Z) (p : option ptr) :
  NumElements {| t_shape := [n]; t_copy_of := p |} = n.
Proof. unfold NumElements, num_elements. cbn. lia. Qed.

(** The writer that finds the cache empty converts the filter and stores
    the conversion with its layout. *)
Lemma CacheFilter_empty (conv_fwd_pd : ConvFwdPd) (filter_md : memory_desc)
    (k : MklConvOp) (c : OpKernelContext) :
  NumElements (cached_filter_data_ptensor_ k) = 0 ->
  reorder_error filter_md (weights_desc conv_fwd_pd) (InputData kInputIndex_Filter)
  = None ->
  cache_granted T conv_fwd_pd ->
  call (CacheFilter T conv_fwd_pd filter_md) (k, c)
  = ((with_cached_filter T conv_fwd_pd filter_md k, caching T conv_fwd_pd filter_md c),
     Next tt).
Proof.
  intros Hempty Hreorder [Hdata Hmd].
  unfold call, CacheFilter, CheckReorderToOpMem, CreateAndExecuteReorder.
  run. rewrite Hempty. run. rewrite Hreorder. run.
  unfold AllocatePersistentTensor. rewrite Hdata. run. rewrite Hmd. run.
  reflexivity.
Qed.

Lemma cache_holds_with_cached_filter (conv_fwd_pd : ConvFwdPd)
    (filter_md : memory_desc) (k : MklConvOp) :
  0 < get_size (weights_desc conv_fwd_pd) / sizeof_Tfilter T ->
  cache_holds (weights_desc conv_fwd_pd)
    (with_cached_filter T conv_fwd_pd filter_md k).
Proof.
  intros Hsize. split; [|reflexivity].
  unfold with_cached_filter. cbn [assign_cached_filter_md_ptensor_
    assign_cached_filter_data_ptensor_ cached_filter_data_ptensor_].
  rewrite NumElements_one. exact Hsize.
Qed.

(** A call that finds the conversion it wants in the cache takes it from
    there. *)
Lemma Compute_filter_data_cached (conv_fwd_pd : ConvFwdPd) (filter_md : memory_desc)
    (k : MklConvOp) (c : OpKernelContext) :
  is_filter_const_ k = true ->
  filter_md <> weights_desc conv_fwd_pd ->
  cache_holds (weights_desc conv_fwd_pd) k ->
  Compute_filter_data T conv_fwd_pd filter_md (k, c) = ((k, c), Next CachedFilterData).
Proof.
  intros Hconst Hne [Hfull Hmd]. unfold Compute_filter_data.
  unfold bind at 1. cbn [this fst snd].
  rewrite (bool_decide_eq_false_2 _ Hne), Hconst. cbn [negb].
  rewrite bind_bind. unfold bind at 1. rewrite IsFilterCacheEmpty_run.
  replace (NumElements (cached_filter_data_ptensor_ k) =? 0) with false
    by (symmetry; apply Z.eqb_neq; lia).
  rewrite bind_bind. unfold bind at 1. cbn [when ret].
  rewrite bind_bind. unfold bind at 1.
  rewrite (GetCachedFilter_run _ _ _ _ Hmd).
  rewrite (bool_decide_eq_true_2 _ eq_refl). reflexivity.
Qed.

(** X8.  Take a kernel with a constant filter and an empty cache, a filter
    that is not in the layout the primitive wants, a conversion that does
    not throw and takes at least one element, and a framework that grants
    the two persistent tensors.  The first call converts the filter,
    allocates the two persistent tensors, stores the conversion with its
    layout, and hands the cached data to the primitive.  A later call that
    wants the same layout finds it in the cache: it converts nothing and
    changes nothing. *)
Theorem Compute_filter_data_round_trip (conv_fwd_pd : ConvFwdPd)
    (filter_md : memory_desc) (k : MklConvOp) (c c' : OpKernelContext) :
  is_filter_const_ k = true ->
  filter_md <> weights_desc conv_fwd_pd ->
  NumElements (cached_filter_data_ptensor_ k) = 0 ->
  reorder_error filter_md (weights_desc conv_fwd_pd) (InputData kInputIndex_Filter)
  = None ->
  cache_granted T conv_fwd_pd ->
  0 < get_size (weights_desc conv_fwd_pd) / sizeof_Tfilter T ->
  let k1 := with_cached_filter T conv_fwd_pd filter_md k in
  Compute_filter_data T conv_fwd_pd filter_md (k, c)
  = ((k1, caching T conv_fwd_pd filter_md c), Next CachedFilterData)
  /\ cache_holds (weights_desc conv_fwd_pd) k1
  /\ Compute_filter_data T conv_fwd_pd filter_md (k1, c') = ((k1, c'), Next CachedFilterData).
Proof.
  intros Hconst Hne Hempty Hreorder Hgranted Hsize k1.
  pose proof (cache_holds_with_cached_filter conv_fwd_pd filter_md k Hsize) as Hholds.
  split; [|split; [exact Hholds|]].
  - unfold Compute_filter_data.
    unfold bind at 1. cbn [this fst snd].
    rewrite (bool_decide_eq_false_2 _ Hne), Hconst. cbn [negb].
    rewrite bind_bind. unfold bind at 1. rewrite IsFilterCacheEmpty_run, Hempty.
    cbn [Z.eqb].
    rewrite bind_bind. unfold bind at 1. cbn [when].
    rewrite (CacheFilter_empty _ _ _ _ Hempty Hreorder Hgranted).
    rewrite bind_bind. unfold bind at 1.
    rewrite (GetCachedFilter_run _ (weights_desc conv_fwd_pd)) by reflexivity.
    rewrite (bool_decide_eq_true_2 _ eq_refl). reflexivity.
  - apply Compute_filter_data_cached; [exact Hconst|exact Hne|exact Hholds].
Qed.

End FilterDataFacts.

Section Within.
Context {S : Type} (R : S -> S -> Prop).
Hypothesis R_refl : forall s, R s s.
Hypothesis R_trans : forall s1 s2 s3, R s1 s2 -> R s2 s3 -> R s1 s3.

Lemma within_here {A} (m : Body S A) : (forall s, fst (m s) = s) -> within R m.
Proof. intros Hm s. rewrite Hm. apply R_refl. Qed.

Lemma within_ret {A} (a : A) : within R (ret a).
Proof. apply within_here. reflexivity. Qed.

Lemma within_return_ {A} : within R (return_ (A := A)).
Proof. apply within_here. reflexivity. Qed.

Lemma within_throw {A} (e : mkldnn_error) : within R (throw (A := A) e).
Proof. apply within_here. reflexivity. Qed.

Lemma within_undefined {A} (u : UB) : within R (undefined (A := A) u).
Proof. apply within_here. reflexivity. Qed.

Lemma within_subscript {A} (v : list A) (i : nat) : within R (subscript v i).
Proof. apply within_here. intros s. unfold subscript. destruct (v !! i); reflexivity. Qed.

Lemma within_bind {A B} (m : Body S A) (f : A -> Body S B) :
  within R m -> (forall a, within R (f a)) -> within R (bind m f).
Proof.
  intros Hm Hf s. unfold bind. specialize (Hm s).
  destruct (m s) as [s1 [a| |e|u]]; cbn [fst] in *; try exact Hm.
  eapply R_trans; [exact Hm|apply Hf].
Qed.

Lemma within_if {A} (b : bool) (m1 m2 : Body S A) :
  within R m1 -> within R m2 -> within R (if b then m1 else m2).
Proof. destruct b; auto. Qed.

Lemma within_when (b : bool) (m : Body S unit) : within R m -> within R (when b m).
Proof. destruct b; [auto|intros _; apply within_ret]. Qed.

Lemma within_call (m : Body S unit) : within R m -> within R (call m).
Proof.
  intros Hm s. unfold call. specialize (Hm s).
  destruct (m s) as [s1 [a| |e|u]]; exact Hm.
Qed.

Lemma within_try_catch (body : Body S unit) (handler : mkldnn_error -> Body S unit) :
  within R body -> (forall e, within R (handler e)) -> within R (try_catch body handler).
Proof.
  intros Hb Hh s. unfold try_catch. specialize (Hb s).
  destruct (body s) as [s1 [a| |e|u]]; cbn [fst] in *; try exact Hb.
  eapply R_trans; [exact Hb|apply Hh].
Qed.
End Within.

Section CallStep.
Context `{ConvEngine}.
Variable T : KernelTypes.

Lemma kernel_step_refl (k : MklConvOp) : kernel_step k k.
Proof. repeat split; auto. Qed.

Lemma kernel_step_trans (k1 k2 k3 : MklConvOp) :
  kernel_step k1 k2 -> kernel_step k2 k3 -> kernel_step k1 k3.
Proof.
  intros (Hro1 & Hcache1 & Hadd1 & Hcons1) (Hro2 & Hcache2 & Hadd2 & Hcons2).
  assert (Hconst : is_filter_const_ k2 = is_filter_const_ k1)
    by (unfold read_only_members in Hro1; congruence).
  assert (Hfuse : fuse_add_ k2 = fuse_add_ k1)
    by (unfold read_only_members in Hro1; congruence).
  split; [congruence|]. split; [|split].
  - intros Hcase. destruct (Hcache1 Hcase) as [Hd1 Hm1].
    destruct Hcache2 as [Hd2 Hm2]; [|split; congruence].
    destruct Hcase as [Hc | Hne]; [left; congruence|right; rewrite Hd1; exact Hne].
  - intros Hoff. destruct (Hadd1 Hoff) as [Hs1 Hd1].
    destruct Hadd2 as [Hs2 Hd2]; [congruence|split; congruence].
  - auto.
Qed.

Lemma call_step_refl (s : MklConvOp * OpKernelContext) : call_step s s.
Proof. split; [apply kernel_step_refl|reflexivity]. Qed.

Lemma call_step_trans (s1 s2 s3 : MklConvOp * OpKernelContext) :
  call_step s1 s2 -> call_step s2 s3 -> call_step s1 s3.
Proof.
  intros [Hk1 Hs1] [Hk2 Hs2]. split; [eapply kernel_step_trans; eauto|].
  intros Herr. rewrite Hs2; [auto|]. rewrite (Hs1 Herr). exact Herr.
Qed.

(** A body that leaves the kernel alone and reports through [CtxFailure]
    at most. *)
Lemma call_step_context {A} (m : Body (MklConvOp * OpKernelContext) A) :
  (forall k c, fst (fst (m (k, c))) = k
               /\ (ctx_status c <> Status.OK ->
                   ctx_status (snd (fst (m (k, c)))) = ctx_status c)) ->
  within call_step m.
Proof.
  intros Hm [k c]. destruct (Hm k c) as [Hk Hs].
  split; [cbn [fst]; rewrite Hk; apply kernel_step_refl|exact Hs].
Qed.

Lemma call_step_emit (ev : Event) : within call_step (emit ev).
Proof. apply call_step_context. intros k c. split; reflexivity. Qed.

Lemma call_step_CtxFailure (e : Status.t) :
  within call_step (modify (CtxFailure e)).
Proof.
  apply call_step_context. intros k c. split; [reflexivity|].
  cbn. destruct (ctx_status c); [contradiction|reflexivity].
Qed.

Lemma call_step_OP_REQUIRES (b : bool) (e : Status.t) :
  within call_step (OP_REQUIRES b e).
Proof.
  apply call_step_context. intros k c. unfold OP_REQUIRES.
  destruct b; (split; [reflexivity|]); [reflexivity|].
  cbn. destruct (ctx_status c); [contradiction|reflexivity].
Qed.

Lemma call_step_OP_REQUIRES_OK (e : Status.t) :
  within call_step (OP_REQUIRES_OK e).
Proof.
  apply call_step_context. intros k c. unfold OP_REQUIRES_OK.
  destruct (Status.ok e); (split; [reflexivity|]); [reflexivity|].
  cbn. destruct (ctx_status c); [contradiction|reflexivity].
Qed.

(** Writing the tensors of the cache, on a kernel with a constant filter
    and an empty cache. *)
Lemma call_step_fill (k k' : MklConvOp) (c c' : OpKernelContext) :
  read_only_members k' = read_only_members k ->
  fuse_add_src_ k' = fuse_add_src_ k ->
  fuse_add_dst_ k' = fuse_add_dst_ k ->
  is_filter_const_ k = true ->
  NumElements (cached_filter_data_ptensor_ k) = 0 ->
  (descriptor_tensor_granted -> cache_consistent k') ->
  (ctx_status c <> Status.OK -> ctx_status c' = ctx_status c) ->
  call_step (k, c) (k', c').
Proof.
  intros Hro Hsrc Hdst Hconst Hempty Hcons Hst.
  split; [|exact Hst]. cbn [fst]. split; [exact Hro|]. split; [|split].
  - intros [Hc | Hne]; [congruence|contradiction].
  - intros _. split; assumption.
  - intros Hg _. apply Hcons, Hg.
Qed.

Lemma CtxFailure_keeps_error (e : Status.t) (k k' : MklConvOp) (c : OpKernelContext) :
  ctx_status c <> Status.OK ->
  ctx_status (snd (CtxFailure e (k', c))) = ctx_status c.
Proof. intros Hc. cbn. destruct (ctx_status c); [contradiction|reflexivity]. Qed.

(** The writer of the cache, on an empty cache, after a conversion that
    did not throw. *)
Lemma call_step_CacheFilter (conv_fwd_pd : ConvFwdPd) (filter_md : memory_desc)
    (k : MklConvOp) (c : OpKernelContext) :
  is_filter_const_ k = true ->
  NumElements (cached_filter_data_ptensor_ k) = 0 ->
  let r := call (CacheFilter T conv_fwd_pd filter_md) (k, c) in
  call_step (k, c) (fst r)
  /\ (snd r = Next tt
      \/ snd r = Undefined NullDereference
      \/ exists e, snd r = Raise e)
  /\ (snd r = Next tt -> descriptor_tensor_granted ->
      cached_filter_md_ptensor_ (fst (fst r)) = Some (weights_desc conv_fwd_pd)).
Proof.
  intros Hconst Hempty r. subst r.
  unfold call, CacheFilter, CheckReorderToOpMem, CreateAndExecuteReorder.
  run. rewrite Hempty. run.
  destruct (reorder_error _ _ _) as [e|]; run;
    [split; [apply call_step_refl|split; [eauto|discriminate]]|].
  unfold AllocatePersistentTensor.
  destruct (allocate_persistent (Tfilter T) _) as [|code msg] eqn:Hdata; run.
  2:{ split; [|split; [auto|discriminate]].
      split; [apply kernel_step_refl|].
      intros Hc. cbn in *. destruct (ctx_status c); [contradiction|reflexivity]. }
  destruct (allocate_persistent "uint8" _) as [|code msg] eqn:Hmd; run.
  - split; [|split; [auto|reflexivity]].
    apply call_step_fill; try reflexivity; try assumption.
    intros _ _. eexists. reflexivity.
  - split; [|split; [auto|]].
    + apply call_step_fill; try reflexivity; try assumption.
      * unfold descriptor_tensor_granted. rewrite Hmd. discriminate.
      * intros Hc. cbn in *. destruct (ctx_status c); [contradiction|reflexivity].
    + intros _ Hg. unfold descriptor_tensor_granted in Hg. congruence.
Qed.

Lemma call_step_Compute_filter_data (conv_fwd_pd : ConvFwdPd) (filter_md : memory_desc) :
  within call_step (Compute_filter_data T conv_fwd_pd filter_md).
Proof.
  intros [k c].
  assert (Hreorder : forall k' c',
             call_step (k', c')
               (fst (CheckReorderToOpMem filter_md (weights_desc conv_fwd_pd)
                       (InputData kInputIndex_Filter) (k', c')))).
  { intros k' c'. unfold CheckReorderToOpMem, CreateAndExecuteReorder.
    destruct (reorder_error _ _ _); cbn; split;
      try apply kernel_step_refl; reflexivity. }
  remember (Compute_filter_data T conv_fwd_pd filter_md (k, c)) as r eqn:Hr.
  unfold Compute_filter_data in Hr. unfold bind at 1 in Hr. cbn [this fst snd] in Hr.
  destruct (bool_decide (filter_md = weights_desc conv_fwd_pd));
    [cbn in Hr; subst r; apply call_step_refl|].
  cbn [negb] in Hr.
  destruct (is_filter_const_ k) eqn:Hconst.
  2:{ unfold bind at 1 in Hr. cbn [ret fst snd negb] in Hr. subst r. apply Hreorder. }
  rewrite bind_bind in Hr. unfold bind at 1 in Hr.
  rewrite IsFilterCacheEmpty_run in Hr.
  destruct (NumElements (cached_filter_data_ptensor_ k) =? 0) eqn:Hempty.
  - apply Z.eqb_eq in Hempty.
    rewrite bind_bind in Hr. unfold bind at 1 in Hr. cbn [when] in Hr.
    destruct (call_step_CacheFilter conv_fwd_pd filter_md k c Hconst Hempty)
      as (Hstep & Hflow & _).
    destruct (call (CacheFilter T conv_fwd_pd filter_md) (k, c)) as [[k1 c1] fl].
    cbn [fst snd] in Hstep, Hflow.
    destruct Hflow as [-> | [-> | [e ->]]]; try (subst r; exact Hstep).
    rewrite bind_bind in Hr. unfold bind at 1 in Hr. unfold GetCachedFilter in Hr.
    unfold bind at 1 in Hr. cbn [this fst snd] in Hr.
    destruct (cached_filter_md_ptensor_ k1) as [md|]; [|subst r; exact Hstep].
    destruct (bool_decide (weights_desc conv_fwd_pd = md)); cbn in Hr;
      [subst r; exact Hstep|].
    subst r. eapply call_step_trans; [exact Hstep|apply Hreorder].
  - rewrite bind_bind in Hr. unfold bind at 1 in Hr. cbn [when ret] in Hr.
    rewrite bind_bind in Hr. unfold bind at 1 in Hr. unfold GetCachedFilter in Hr.
    unfold bind at 1 in Hr. cbn [this fst snd] in Hr.
    destruct (cached_filter_md_ptensor_ k) as [md|];
      [|cbn in Hr; subst r; apply call_step_refl].
    destruct (bool_decide (weights_desc conv_fwd_pd = md)); cbn in Hr;
      [subst r; apply call_step_refl|].
    subst r. apply Hreorder.
Qed.

Lemma call_step_input (i : Z) : within call_step (input i).
Proof. apply call_step_context. intros k c. split; reflexivity. Qed.

Lemma call_step_this : within call_step (this (C := OpKernelContext)).
Proof. apply call_step_context. intros k c. split; reflexivity. Qed.

Lemma call_step_context_status : within call_step context_status.
Proof. apply call_step_context. intros k c. split; reflexivity. Qed.

Lemma call_step_forward (i o : Z) (s : TensorShape) :
  within call_step (forward_input_to_output_with_shape i o s).
Proof.
  apply call_step_context. intros k c. unfold forward_input_to_output_with_shape.
  cbn. destruct (forwardable c i); split; reflexivity.
Qed.

Lemma call_step_CreateAndExecuteReorder (from to : memory_desc) (src dst : ptr) :
  within call_step (CreateAndExecuteReorder from to src dst).
Proof.
  apply call_step_context. intros k c. unfold CreateAndExecuteReorder.
  destruct (reorder_error from to src); split; reflexivity.
Qed.

Lemma call_step_new (convFwdDims : MklConvFwdParams) :
  within call_step (new_MklConvFwdPrimitive convFwdDims).
Proof.
  apply call_step_context. intros k c. unfold new_MklConvFwdPrimitive.
  destruct (Setup convFwdDims); split; reflexivity.
Qed.

Lemma call_step_Execute (conv_fwd : MklConvFwdPrimitive) (a b c0 d : ptr) :
  within call_step (conv_fwd_Execute conv_fwd a b c0 d).
Proof.
  apply call_step_context. intros k c. unfold conv_fwd_Execute.
  destruct (Execute a b c0 d conv_fwd) as [p [[]| |e|u]]; split; reflexivity.
Qed.

(** Resetting the two memory objects of a fused add. *)
Lemma call_step_reset_fuse_add (k k' : MklConvOp) (c c' : OpKernelContext) :
  fuse_add_ k = true ->
  read_only_members k' = read_only_members k ->
  cached_filter_data_ptensor_ k' = cached_filter_data_ptensor_ k ->
  cached_filter_md_ptensor_ k' = cached_filter_md_ptensor_ k ->
  ctx_status c' = ctx_status c ->
  call_step (k, c) (k', c').
Proof.
  intros Hfuse Hro Hdata Hmd Hst. split; [|intros _; exact Hst]. cbn [fst].
  split; [exact Hro|]. split; [intros _; split; assumption|]. split.
  - intros Hoff. congruence.
  - unfold cache_consistent. rewrite Hdata, Hmd. auto.
Qed.

Lemma call_step_AllocateOutputTensor (output_dims_mkl_order : dims)
    (output_tf_format : TensorFormat) (is_conv2d : bool) :
  within call_step (AllocateOutputTensor T output_dims_mkl_order output_tf_format is_conv2d).
Proof.
  intros [k c]. unfold AllocateOutputTensor. run.
  destruct (fuse_add_ k) eqn:Hfuse; [|apply call_step_emit].
  run. unfold forward_input_to_output_with_shape. unfold bind at 1. cbn [fst snd].
  destruct (forwardable c kInputIndex_Add); run;
    [apply (call_step_emit _ (k, c))|].
  unfold CreateAndExecuteReorder, bind.
  destruct (reorder_error _ _ _); cbn;
    apply call_step_reset_fuse_add; try reflexivity; exact Hfuse.
Qed.
End CallStep.

Ltac call_step_atom T :=
  first
    [ apply (within_ret _ call_step_refl)
    | apply (within_return_ _ call_step_refl)
    | apply (within_throw _ call_step_refl)
    | apply (within_undefined _ call_step_refl)
    | apply (within_subscript _ call_step_refl)
    | apply call_step_emit
    | apply call_step_CtxFailure
    | apply call_step_OP_REQUIRES
    | apply call_step_OP_REQUIRES_OK
    | apply call_step_input
    | apply call_step_this
    | apply call_step_context_status
    | apply call_step_forward
    | apply call_step_CreateAndExecuteReorder
    | apply call_step_new
    | apply call_step_Execute
    | apply (call_step_AllocateOutputTensor T)
    | apply (call_step_Compute_filter_data T) ].

Ltac call_step T :=
  repeat first
    [ call_step_atom T
    | apply (within_bind _ call_step_trans); [|intros ?]
    | apply within_if
    | apply (within_when _ call_step_refl)
    | apply within_call
    | apply (within_try_catch _ call_step_trans); [|intros ?]
    | match goal with
      | |- within _ (match ?x with _ => _ end) => destruct x
      | |- within _ (let (_, _) := ?x in _) => destruct x
      end
    | progress cbv zeta ].

Section ComputeFrame.
Context `{ConvEngine}.
Variable T : KernelTypes.
Variables pad_enabled is_depthwise : bool.

Lemma call_step_Compute : within call_step (Compute T pad_enabled is_depthwise).
Proof.
  unfold Compute, Compute_sizes, PadWithConvFusion,
    allocate_output, CheckReorderToOpMem, report_exception.
  call_step T.
Qed.

(** X9.  Of the members of the kernel, a convolution call writes only the
    two tensors of the filter cache and the two memory objects of the
    fused add, [fuse_add_src_] and [fuse_add_dst_]: every other member is
    as it was, the cache is written only when the filter is constant and
    the cache is empty, and the memory objects only when an add is fused.
    A status that is an error when the call starts is the status when it
    ends. *)
Theorem Compute_writes_cache_and_add_memory_only (k : MklConvOp) (c : OpKernelContext) :
  let s' := fst (Compute T pad_enabled is_depthwise (k, c)) in
  read_only_members (fst s') = read_only_members k
  /\ (is_filter_const_ k = false \/ NumElements (cached_filter_data_ptensor_ k) <> 0 ->
      cached_filter_data_ptensor_ (fst s') = cached_filter_data_ptensor_ k
      /\ cached_filter_md_ptensor_ (fst s') = cached_filter_md_ptensor_ k)
  /\ (fuse_add_ k = false ->
      fuse_add_src_ (fst s') = fuse_add_src_ k
      /\ fuse_add_dst_ (fst s') = fuse_add_dst_ k)
  /\ (ctx_status c <> Status.OK -> ctx_status (snd s') = ctx_status c).
Proof.
  destruct (call_step_Compute (k, c)) as [(Hro & Hcache & Hadd & _) Hs].
  cbn [fst snd] in *. cbv zeta. auto.
Qed.
End ComputeFrame.

Section CtorCache.
Context `{MklDnn}.

Lemma same_cache_refl {C} (s : MklConvOp * C) : same_cache s s.
Proof. split; reflexivity. Qed.

Lemma same_cache_trans {C} (s1 s2 s3 : MklConvOp * C) :
  same_cache s1 s2 -> same_cache s2 s3 -> same_cache s1 s3.
Proof. intros [H1 H2] [H3 H4]. split; congruence. Qed.

Lemma same_cache_assign {C} (f : MklConvOp -> MklConvOp) :
  (forall k, cached_filter_data_ptensor_ (f k) = cached_filter_data_ptensor_ k
             /\ cached_filter_md_ptensor_ (f k) = cached_filter_md_ptensor_ k) ->
  within (same_cache (C := C)) (assign f).
Proof. intros Hf [k c]. exact (Hf k). Qed.

Lemma same_cache_context {A}
    (m : Body (MklConvOp * OpKernelConstruction) A) :
  (forall s, fst (fst (m s)) = fst s) -> within same_cache m.
Proof. intros Hm s. unfold same_cache. rewrite Hm. split; reflexivity. Qed.

Lemma same_cache_OP_REQUIRES (b : bool) (e : Status.t) :
  within (same_cache (C := OpKernelConstruction)) (OP_REQUIRES b e).
Proof. apply same_cache_context. intros s. unfold OP_REQUIRES. destruct b; reflexivity. Qed.

Lemma same_cache_OP_REQUIRES_OK (e : Status.t) :
  within (same_cache (C := OpKernelConstruction)) (OP_REQUIRES_OK e).
Proof.
  apply same_cache_context. intros s. unfold OP_REQUIRES_OK.
  destruct (Status.ok e); reflexivity.
Qed.

Lemma same_cache_attrs : within same_cache (attrs (K := MklConvOp)).
Proof. apply same_cache_context. reflexivity. Qed.

Lemma same_cache_this :
  within same_cache (this (K := MklConvOp) (C := OpKernelConstruction)).
Proof. apply same_cache_context. reflexivity. Qed.
End CtorCache.

Ltac same_cache :=
  repeat first
    [ apply (within_ret _ same_cache_refl)
    | apply same_cache_OP_REQUIRES
    | apply same_cache_OP_REQUIRES_OK
    | apply same_cache_attrs
    | apply same_cache_this
    | apply same_cache_assign; intros ?; split; reflexivity
    | apply (within_bind _ same_cache_trans); [|intros ?]
    | apply within_if
    | apply (within_when _ same_cache_refl)
    | apply within_call
    | match goal with
      | |- within _ (match ?x with _ => _ end) => destruct x
      | |- within _ (let (_, _) := ?x in _) => destruct x
      end
    | progress cbv zeta ].

Section CacheInvariant.
Context `{ConvEngine}.
Variable T : KernelTypes.

Lemma same_cache_MklConvOp_ctor : within same_cache MklConvOp_ctor.
Proof. unfold MklConvOp_ctor, GetAttr_member, GetAttr_local. same_cache. Qed.

Lemma same_cache_MklFusedConvOp_ctor (pad_enabled : bool) :
  within same_cache (MklFusedConvOp_ctor pad_enabled).
Proof.
  unfold MklFusedConvOp_ctor, MklFusedConvOp_body.
  apply (within_bind _ same_cache_trans);
    [apply within_call, same_cache_MklConvOp_ctor|intros _].
  unfold GetAttr_member, GetAttr_local, set_fuse_biasadd, set_fuse_activation,
    set_fuse_add, set_fuse_pad.
  same_cache.
Qed.

Lemma same_cache_MklFusedDepthwiseConvOp_ctor (pad_enabled : bool) :
  within same_cache (MklFusedDepthwiseConvOp_ctor pad_enabled).
Proof.
  unfold MklFusedDepthwiseConvOp_ctor, MklFusedDepthwiseConvOp_body.
  apply (within_bind _ same_cache_trans);
    [apply within_call, same_cache_MklConvOp_ctor|intros _].
  unfold GetAttr_member, GetAttr_local, set_fuse_biasadd, set_fuse_activation,
    set_fuse_add, set_fuse_pad.
  same_cache.
Qed.

Lemma Compute_filter_data_defined (conv_fwd_pd : ConvFwdPd) (filter_md : memory_desc)
    (k : MklConvOp) (c : OpKernelContext) (u : UB) :
  cache_granted T conv_fwd_pd ->
  cache_consistent k ->
  snd (Compute_filter_data T conv_fwd_pd filter_md (k, c)) <> Undefined u.
Proof.
  intros Hgranted Hk.
  remember (Compute_filter_data T conv_fwd_pd filter_md (k, c)) as r eqn:Hr.
  unfold Compute_filter_data in Hr. unfold bind at 1 in Hr. cbn [this fst snd] in Hr.
  destruct (is_filter_const_ k) eqn:Hconst.
  2:{ unfold CheckReorderToOpMem, CreateAndExecuteReorder in Hr.
      destruct (bool_decide _); cbn in Hr; [subst r; discriminate|].
      destruct (reorder_error _ _ _); cbn in Hr; subst r; discriminate. }
  destruct (bool_decide (filter_md = weights_desc conv_fwd_pd));
    [cbn in Hr; subst r; discriminate|].
  cbn [negb] in Hr. rewrite bind_bind in Hr. unfold bind at 1 in Hr.
  rewrite IsFilterCacheEmpty_run in Hr.
  destruct (NumElements (cached_filter_data_ptensor_ k) =? 0) eqn:Hempty.
  - apply Z.eqb_eq in Hempty.
    rewrite bind_bind in Hr. unfold bind at 1 in Hr. cbn [when] in Hr.
    destruct (reorder_error filter_md (weights_desc conv_fwd_pd)
                (InputData kInputIndex_Filter)) as [e|] eqn:Hreorder.
    + unfold call, CacheFilter, CheckReorderToOpMem, CreateAndExecuteReorder in Hr.
      revert Hr. run. rewrite Hempty. run. rewrite Hreorder. run.
      intros ->. discriminate.
    + rewrite (CacheFilter_empty T _ _ _ _ Hempty Hreorder Hgranted) in Hr.
      rewrite bind_bind in Hr. unfold bind at 1 in Hr.
      rewrite (GetCachedFilter_run _ (weights_desc conv_fwd_pd)) in Hr by reflexivity.
      rewrite (bool_decide_eq_true_2 _ eq_refl) in Hr. cbn in Hr. subst r.
      discriminate.
  - apply Z.eqb_neq in Hempty. destruct (Hk Hempty) as [md Hmd].
    rewrite bind_bind in Hr. unfold bind at 1 in Hr. cbn [when ret] in Hr.
    rewrite bind_bind in Hr. unfold bind at 1 in Hr.
    rewrite (GetCachedFilter_run _ _ _ _ Hmd) in Hr.
    unfold CheckReorderToOpMem, CreateAndExecuteReorder in Hr.
    destruct (bool_decide (weights_desc conv_fwd_pd = md)); cbn in Hr;
      [subst r; discriminate|].
    destruct (reorder_error _ _ _); cbn in Hr; subst r; discriminate.
Qed.

(** A filling call under a framework that grants the data tensor and
    refuses the tensor of the layout. *)
Lemma Compute_filter_data_layout_refused (conv_fwd_pd : ConvFwdPd)
    (filter_md : memory_desc) (k : MklConvOp) (c : OpKernelContext) :
  is_filter_const_ k = true ->
  filter_md <> weights_desc conv_fwd_pd ->
  NumElements (cached_filter_data_ptensor_ k) = 0 ->
  cached_filter_md_ptensor_ k = None ->
  reorder_error filter_md (weights_desc conv_fwd_pd) (InputData kInputIndex_Filter)
  = None ->
  allocate_persistent (Tfilter T)
    [get_size (weights_desc conv_fwd_pd) / sizeof_Tfilter T] = Status.OK ->
  allocate_persistent "uint8" [sizeof_memory_desc] <> Status.OK ->
  let r := Compute_filter_data T conv_fwd_pd filter_md (k, c) in
  snd r = Undefined NullDereference
  /\ cached_filter_data_ptensor_ (fst (fst r))
     = {| t_shape := [get_size (weights_desc conv_fwd_pd) / sizeof_Tfilter T];
          t_copy_of := Some (OpMemData filter_md (weights_desc conv_fwd_pd)
                               (InputData kInputIndex_Filter)) |}
  /\ cached_filter_md_ptensor_ (fst (fst r)) = None
  /\ ctx_status (snd (fst r))
     = Status.Update (ctx_status c)
         (allocate_persistent "uint8" [sizeof_memory_desc]).
Proof.
  intros Hconst Hne Hempty Hnone Hreorder Hdata Hmd r.
  remember (allocate_persistent "uint8" [sizeof_memory_desc]) as refusal eqn:Hrefusal.
  assert (Hr : exists k' c',
             r = ((k', c'), Undefined NullDereference)
             /\ cached_filter_data_ptensor_ k'
                = {| t_shape := [get_size (weights_desc conv_fwd_pd) / sizeof_Tfilter T];
                     t_copy_of := Some (OpMemData filter_md (weights_desc conv_fwd_pd)
                                          (InputData kInputIndex_Filter)) |}
             /\ cached_filter_md_ptensor_ k' = None
             /\ ctx_status c' = Status.Update (ctx_status c) refusal).
  { subst r. unfold Compute_filter_data.
    unfold bind at 1. cbn [this fst snd].
    rewrite (bool_decide_eq_false_2 _ Hne), Hconst. cbn [negb].
    rewrite bind_bind. unfold bind at 1. rewrite IsFilterCacheEmpty_run, Hempty.
    cbn [Z.eqb].
    rewrite bind_bind. unfold bind at 1. cbn [when].
    unfold call, CacheFilter, CheckReorderToOpMem, CreateAndExecuteReorder.
    run. rewrite Hempty. run. rewrite Hreorder. run.
    unfold AllocatePersistentTensor. rewrite Hdata. run. rewrite <- Hrefusal.
    destruct refusal as [|code msg]; [contradiction|].
    run. unfold GetCachedFilter. run. rewrite Hnone. run.
    do 2 eexists. split; [reflexivity|]. repeat split. }
  destruct Hr as (k' & c' & -> & Hk' & Hmd' & Hst). cbn [fst snd]. auto.
Qed.

(** X10.  Each of the three convolution constructors leaves the filter
    cache empty.  Under a framework that grants the persistent tensor of
    the layout, a call of [Compute] on a kernel whose cache, when not
    empty, has its layout stored leaves such a kernel; and on such a
    kernel, when both persistent tensors of the cache are granted, the
    choice of the filter data never has undefined behaviour.  Under a
    framework that grants the data tensor and refuses the tensor of the
    layout, the filling call on a kernel with no layout stored reports the
    refusal, leaves the conversion cached with no layout, and reads
    through a null pointer in the lookup that follows. *)
Theorem filter_cache_stays_consistent :
  (forall (bias_enabled pad_enabled fused_pad : bool) (a : NodeAttrs)
          (ctor : Body (MklConvOp * OpKernelConstruction) unit),
      ctor = MklConvOp_ctor \/ ctor = MklFusedConvOp_ctor fused_pad
      \/ ctor = MklFusedDepthwiseConvOp_ctor fused_pad ->
      let k := fst (construct (MklConvOp_members bias_enabled pad_enabled) ctor a) in
      NumElements (cached_filter_data_ptensor_ k) = 0 /\ cache_consistent k)
  /\ (forall (pad_enabled is_depthwise : bool) (k : MklConvOp) (c : OpKernelContext),
        descriptor_tensor_granted ->
        cache_consistent k ->
        cache_consistent (fst (fst (Compute T pad_enabled is_depthwise (k, c)))))
  /\ (forall (conv_fwd_pd : ConvFwdPd) (filter_md : memory_desc)
             (k : MklConvOp) (c : OpKernelContext) (u : UB),
        cache_granted T conv_fwd_pd ->
        cache_consistent k ->
        snd (Compute_filter_data T conv_fwd_pd filter_md (k, c)) <> Undefined u)
  /\ (forall (conv_fwd_pd : ConvFwdPd) (filter_md : memory_desc)
             (k : MklConvOp) (c : OpKernelContext),
        is_filter_const_ k = true ->
        filter_md <> weights_desc conv_fwd_pd ->
        NumElements (cached_filter_data_ptensor_ k) = 0 ->
        cached_filter_md_ptensor_ k = None ->
        reorder_error filter_md (weights_desc conv_fwd_pd)
          (InputData kInputIndex_Filter) = None ->
        allocate_persistent (Tfilter T)
          [get_size (weights_desc conv_fwd_pd) / sizeof_Tfilter T] = Status.OK ->
        allocate_persistent "uint8" [sizeof_memory_desc] <> Status.OK ->
        let r := Compute_filter_data T conv_fwd_pd filter_md (k, c) in
        snd r = Undefined NullDereference
        /\ cached_filter_data_ptensor_ (fst (fst r))
           = {| t_shape := [get_size (weights_desc conv_fwd_pd) / sizeof_Tfilter T];
                t_copy_of := Some (OpMemData filter_md (weights_desc conv_fwd_pd)
                                     (InputData kInputIndex_Filter)) |}
        /\ cached_filter_md_ptensor_ (fst (fst r)) = None
        /\ ctx_status (snd (fst r))
           = Status.Update (ctx_status c)
               (allocate_persistent "uint8" [sizeof_memory_desc])).
Proof.
  split; [|split; [|split]].
  - intros b p fp a ctor Hctor k.
    assert (Hsame : within same_cache ctor).
    { destruct Hctor as [-> | [-> | ->]];
        [apply same_cache_MklConvOp_ctor|apply same_cache_MklFusedConvOp_ctor
        |apply same_cache_MklFusedDepthwiseConvOp_ctor]. }
    destruct (Hsame (MklConvOp_members b p,
                     {| node_attrs := a; construction_status := Status.OK |}))
      as [Hdata Hmd].
    assert (Hzero : NumElements (cached_filter_data_ptensor_ k) = 0).
    { subst k. unfold construct. cbn [fst snd] in *. rewrite Hdata. reflexivity. }
    split; [exact Hzero|]. intros Hne. contradiction.
  - intros p d k c Hgranted Hk.
    destruct (call_step_Compute T p d (k, c)) as [(_ & _ & _ & Hcons) _].
    apply Hcons; assumption.
  - intros. apply Compute_filter_data_defined; assumption.
  - intros. apply Compute_filter_data_layout_refused; assumption.
Qed.
End CacheInvariant.

Section LifetimeFacts.
Context `{ConvEngine}.

Lemma count_built_app (l1 l2 : list Event) : count_built (l1 ++ l2) = (count_built l1 + count_built l2)%nat.
Proof. induction l1 as [|[] l1 IH]; cbn; lia. Qed.

Lemma count_deleted_app (l1 l2 : list Event) :
  count_deleted (l1 ++ l2) = (count_deleted l1 + count_deleted l2)%nat.
Proof. induction l1 as [|[] l1 IH]; cbn; lia. Qed.

Lemma quiet_step_refl (s : MklConvOp * OpKernelContext) : quiet_step s s.
Proof. exists []. rewrite app_nil_r. auto. Qed.

Lemma quiet_step_trans (s1 s2 s3 : MklConvOp * OpKernelContext) :
  quiet_step s1 s2 -> quiet_step s2 s3 -> quiet_step s1 s3.
Proof.
  intros (l1 & He1 & Hb1 & Hd1) (l2 & He2 & Hb2 & Hd2). exists (l1 ++ l2)%list.
  rewrite He2, He1, app_assoc, count_built_app, count_deleted_app. repeat split; lia.
Qed.

Lemma quiet_context {A} (m : Body (MklConvOp * OpKernelContext) A) :
  (forall s, events (snd (fst (m s))) = events (snd s)) -> within quiet_step m.
Proof. intros Hm s. exists []. rewrite app_nil_r, Hm. auto. Qed.

Lemma quiet_emit (ev : Event) :
  count_built [ev] = 0%nat -> count_deleted [ev] = 0%nat -> within (quiet_step (K := MklConvOp)) (emit ev).
Proof. intros Hb Hd s. exists [ev]. auto. Qed.

Lemma quiet_CtxFailure (e : Status.t) :
  within (quiet_step (K := MklConvOp)) (modify (CtxFailure e)).
Proof. apply quiet_context. reflexivity. Qed.

Lemma quiet_OP_REQUIRES (b : bool) (e : Status.t) :
  within (quiet_step (K := MklConvOp)) (OP_REQUIRES b e).
Proof. apply quiet_context. intros s. unfold OP_REQUIRES. destruct b; reflexivity. Qed.

Lemma quiet_OP_REQUIRES_OK (e : Status.t) :
  within (quiet_step (K := MklConvOp)) (OP_REQUIRES_OK e).
Proof.
  apply quiet_context. intros s. unfold OP_REQUIRES_OK. destruct (Status.ok e); reflexivity.
Qed.

Lemma quiet_input (i : Z) : within (quiet_step (K := MklConvOp)) (input i).
Proof. apply quiet_context. reflexivity. Qed.

Lemma quiet_this : within (quiet_step (K := MklConvOp)) (this (C := OpKernelContext)).
Proof. apply quiet_context. reflexivity. Qed.

Lemma quiet_context_status : within (quiet_step (K := MklConvOp)) context_status.
Proof. apply quiet_context. reflexivity. Qed.

Lemma quiet_forward (i o : Z) (sh : TensorShape) :
  within (quiet_step (K := MklConvOp)) (forward_input_to_output_with_shape i o sh).
Proof.
  intros s. unfold forward_input_to_output_with_shape.
  destruct (forwardable (snd s) i); [|apply quiet_step_refl].
  eexists [_]. cbn. auto.
Qed.

Lemma quiet_CreateAndExecuteReorder (from to : memory_desc) (src dst : ptr) :
  within (quiet_step (K := MklConvOp)) (CreateAndExecuteReorder from to src dst).
Proof.
  intros s. unfold CreateAndExecuteReorder.
  destruct (reorder_error from to src); [apply quiet_step_refl|].
  eexists [_]. cbn. auto.
Qed.

Lemma quiet_Execute (conv_fwd : MklConvFwdPrimitive) (a b c d : ptr) :
  within (quiet_step (K := MklConvOp)) (conv_fwd_Execute conv_fwd a b c d).
Proof.
  intros s. unfold conv_fwd_Execute.
  destruct (Execute a b c d conv_fwd) as [p [[]| |e|u]];
    try apply quiet_step_refl; eexists [_]; cbn; auto.
Qed.

Lemma releases_bind {A B} (m : Body (MklConvOp * OpKernelContext) A)
    (f : A -> Body (MklConvOp * OpKernelContext) B) :
  within quiet_step m -> (forall a, releases_primitive (f a)) ->
  releases_primitive (bind m f).
Proof.
  intros Hm Hf s. destruct (Hm s) as (l1 & He1 & Hb1 & Hd1). unfold bind.
  destruct (m s) as [s1 [a| |e|u]]; cbn [fst snd] in He1 |- *.
  2-4: exists l1; cbn [fst snd]; auto.
  destruct (Hf a s1) as (l2 & He2 & Hb2 & Hfl). exists (l1 ++ l2)%list.
  rewrite He2, He1, app_assoc, count_built_app, count_deleted_app.
  split; [reflexivity|]. split; [lia|].
  destruct (snd (f a s1)); lia.
Qed.

Lemma releases_if {A} (b : bool) (m1 m2 : Body (MklConvOp * OpKernelContext) A) :
  releases_primitive m1 -> releases_primitive m2 ->
  releases_primitive (if b then m1 else m2).
Proof. destruct b; auto. Qed.

Lemma releases_emit_PrimitiveDeleted :
  releases_primitive (emit (K := MklConvOp) PrimitiveDeleted).
Proof. intros s. exists [PrimitiveDeleted]. cbn. auto. Qed.

Lemma owns_bind {A B} (m : Body (MklConvOp * OpKernelContext) A)
    (f : A -> Body (MklConvOp * OpKernelContext) B) :
  within quiet_step m -> (forall a, owns_primitive (f a)) ->
  owns_primitive (bind m f).
Proof.
  intros Hm Hf s. destruct (Hm s) as (l1 & He1 & Hb1 & Hd1). unfold bind.
  destruct (m s) as [s1 [a| |e|u]]; cbn [fst snd] in He1 |- *.
  2-4: exists l1; cbn [fst snd]; split; [assumption|lia].
  destruct (Hf a s1) as (l2 & He2 & Hfl). exists (l1 ++ l2)%list.
  rewrite He2, He1, app_assoc, count_built_app, count_deleted_app.
  split; [reflexivity|].
  destruct (snd (f a s1)); lia.
Qed.

Lemma owns_if {A} (b : bool) (m1 m2 : Body (MklConvOp * OpKernelContext) A) :
  owns_primitive m1 -> owns_primitive m2 -> owns_primitive (if b then m1 else m2).
Proof. destruct b; auto. Qed.

Lemma owns_return_ {A} : owns_primitive (return_ (S := MklConvOp * OpKernelContext) (A := A)).
Proof. intros s. exists []. cbn. rewrite app_nil_r. split; [reflexivity|lia]. Qed.

Lemma owns_new {B} (convFwdDims : MklConvFwdParams)
    (f : MklConvFwdPrimitive -> Body (MklConvOp * OpKernelContext) B) :
  (forall conv_fwd, releases_primitive (f conv_fwd)) ->
  owns_primitive (bind (new_MklConvFwdPrimitive convFwdDims) f).
Proof.
  intros Hf s. unfold bind, new_MklConvFwdPrimitive.
  destruct (Setup convFwdDims) as [e|conv_fwd]; cbn.
  - exists []. rewrite app_nil_r. split; [reflexivity|cbn; lia].
  - match goal with |- context [f conv_fwd ?s1] =>
      destruct (Hf conv_fwd s1) as (l2 & He2 & Hb2 & Hfl) end.
    cbn [fst snd events] in He2.
    exists (PrimitiveBuilt convFwdDims :: l2). rewrite He2, <- app_assoc.
    split; [reflexivity|]. cbn [count_built count_deleted].
    destruct (snd (f conv_fwd _)); lia.
Qed.

Lemma owns_try_catch (body : Body (MklConvOp * OpKernelContext) unit) (line : string) :
  owns_primitive body -> owns_primitive (try_catch body (report_exception line)).
Proof.
  intros Hb s. destruct (Hb s) as (l & He & Hfl). unfold try_catch.
  destruct (body s) as [s1 [[]| |e|u]]; cbn [fst snd] in He, Hfl |- *.
  1,2,4: exists l; cbn [fst snd]; split; assumption.
  exists l. unfold report_exception, OP_REQUIRES_OK. cbn. split; assumption.
Qed.
End LifetimeFacts.

Section LifetimeCompute.
Context `{ConvEngine}.

Lemma quiet_assign (f : MklConvOp -> MklConvOp) :
  within (quiet_step (K := MklConvOp)) (assign (C := OpKernelContext) f).
Proof. apply quiet_context. reflexivity. Qed.
End LifetimeCompute.

Ltac quiet :=
  repeat first
    [ apply (within_ret _ quiet_step_refl)
    | apply (within_return_ _ quiet_step_refl)
    | apply (within_throw _ quiet_step_refl)
    | apply (within_undefined _ quiet_step_refl)
    | apply (within_subscript _ quiet_step_refl)
    | apply quiet_emit; reflexivity
    | apply quiet_CtxFailure
    | apply quiet_OP_REQUIRES
    | apply quiet_OP_REQUIRES_OK
    | apply quiet_input
    | apply quiet_this
    | apply quiet_context_status
    | apply quiet_forward
    | apply quiet_CreateAndExecuteReorder
    | apply quiet_Execute
    | apply quiet_assign
    | apply (within_bind _ quiet_step_trans); [|intros ?]
    | apply within_if
    | apply (within_when _ quiet_step_refl)
    | apply within_call
    | match goal with
      | |- within _ (match ?x with _ => _ end) => destruct x
      | |- within _ (let (_, _) := ?x in _) => destruct x
      end
    | progress cbv zeta ].

Section LifetimeTheorem.
Context `{ConvEngine}.
Variable T : KernelTypes.
Variables pad_enabled is_depthwise : bool.

Lemma quiet_Compute_sizes : within quiet_step (Compute_sizes is_depthwise).
Proof. unfold Compute_sizes, PadWithConvFusion. quiet. Qed.

Lemma quiet_AllocateOutputTensor (d : dims) (f : TensorFormat) (b : bool) :
  within quiet_step (AllocateOutputTensor T d f b).
Proof. unfold AllocateOutputTensor, allocate_output. quiet. Qed.

Lemma quiet_Compute_filter_data (pd : ConvFwdPd) (md : memory_desc) :
  within quiet_step (Compute_filter_data T pd md).
Proof.
  unfold Compute_filter_data, IsFilterCacheEmpty, CacheFilter, AllocatePersistentTensor,
    assign_cache, GetCachedFilter, CheckReorderToOpMem.
  quiet.
Qed.

Lemma owns_Compute : owns_primitive (Compute T pad_enabled is_depthwise).
Proof.
  unfold Compute. apply owns_try_catch.
  apply owns_bind; [apply quiet_Compute_sizes|intros [src_tf_shape sizes]].
  apply owns_bind; [quiet|intros k].
  apply owns_if.
  { apply owns_bind; [unfold allocate_output; quiet|intros _; apply owns_return_]. }
  cbv zeta.
  apply owns_bind; [quiet|intros _].
  apply owns_bind; [quiet|intros _].
  apply owns_bind; [quiet|intros _].
  apply owns_bind; [quiet|intros bias_dims].
  apply owns_new. intros conv_fwd.
  apply releases_bind; [apply quiet_AllocateOutputTensor|intros dst_data].
  apply releases_bind; [apply quiet_Compute_filter_data|intros filter_data].
  apply releases_bind; [quiet|intros _].
  apply releases_emit_PrimitiveDeleted.
Qed.

(** X11.  No backend exception leaves a convolution call.  A call
    builds at most one primitive; a call that runs to its end has built
    one and deleted it; a call that ends in any other way deletes nothing,
    so a primitive it has built is never deleted. *)
Theorem Compute_deletes_primitive_on_normal_exit_only (s : MklConvOp * OpKernelContext) :
  let r := Compute T pad_enabled is_depthwise s in
  (forall e, snd r <> Raise e)
  /\ exists evs,
      events (snd (fst r)) = (events (snd s) ++ evs)%list
      /\ (count_built evs <= 1)%nat
      /\ (snd r = Next tt -> count_built evs = 1%nat /\ count_deleted evs = 1%nat)
      /\ (snd r <> Next tt -> count_deleted evs = 0%nat).
Proof.
  cbv zeta. split.
  - intros e. unfold Compute, try_catch, report_exception, OP_REQUIRES_OK.
    match goal with |- context [let (_, _) := ?b in _] => destruct b as [s1 [[]| |e'|u]] end;
      cbn; discriminate.
  - destruct (owns_Compute s) as (evs & He & Hfl). exists evs.
    split; [exact He|].
    destruct (snd (Compute T pad_enabled is_depthwise s)) as [[]| |e|u];
      repeat split; intros; try congruence; lia.
Qed.
End LifetimeTheorem.

Section OnErrorFacts.
Context `{ConvEngine} {K : Type}.
Abbreviation Op A := (Body (K * OpKernelContext) A).

Lemma idle_here {A} (m : Op A) :
  (forall s, exists a, m s = (s, Next a)) -> idle_on_error m.
Proof. intros Hm s _. destruct (Hm s) as [a ->]. repeat split; discriminate. Qed.

Lemma idle_ret {A} (a : A) : idle_on_error (K := K) (ret a).
Proof. apply idle_here. eauto. Qed.

Lemma idle_input (i : Z) : idle_on_error (K := K) (input i).
Proof. apply idle_here. intros s. eexists. reflexivity. Qed.

Lemma idle_this : idle_on_error (K := K) (this (C := OpKernelContext)).
Proof. apply idle_here. intros s. eexists. reflexivity. Qed.

Lemma idle_context_status : idle_on_error (K := K) context_status.
Proof. apply idle_here. intros s. eexists. reflexivity. Qed.

Lemma idle_subscript {A} (v : list A) (i : nat) : idle_on_error (K := K) (subscript v i).
Proof.
  intros s _. unfold subscript. destruct (v !! i); repeat split; try discriminate.
  intros u [= <-]. reflexivity.
Qed.

Lemma CtxFailure_on_error (e : Status.t) (s : K * OpKernelContext) :
  ctx_status (snd s) <> Status.OK -> CtxFailure e s = s.
Proof.
  destruct s as [k [i f st ev]]. cbn. intros Hst.
  destruct st; [contradiction|reflexivity].
Qed.

Lemma idle_CtxFailure (e : Status.t) : idle_on_error (K := K) (modify (CtxFailure e)).
Proof.
  intros s Hs. cbn [modify fst snd]. rewrite (CtxFailure_on_error _ _ Hs).
  repeat split; discriminate.
Qed.

Lemma idle_OP_REQUIRES (b : bool) (e : Status.t) :
  idle_on_error (K := K) (OP_REQUIRES b e).
Proof.
  intros s Hs. unfold OP_REQUIRES. destruct b; cbn [fst snd];
    rewrite ?(CtxFailure_on_error _ _ Hs); repeat split; discriminate.
Qed.

Lemma idle_bind {A B} (m : Op A) (f : A -> Op B) :
  idle_on_error m -> (forall a, idle_on_error (f a)) -> idle_on_error (bind m f).
Proof.
  intros Hm Hf s Hs. destruct (Hm s Hs) as (Hst & Hr & Hu). unfold bind.
  destruct (m s) as [s1 [a| |e|u]]; cbn [fst snd] in *; subst s1.
  - apply Hf, Hs.
  - repeat split; discriminate.
  - destruct (Hr e eq_refl).
  - repeat split; [discriminate|].
    intros u' [= <-]. apply Hu. reflexivity.
Qed.

Lemma idle_if {A} (b : bool) (m1 m2 : Op A) :
  idle_on_error m1 -> idle_on_error m2 -> idle_on_error (if b then m1 else m2).
Proof. destruct b; auto. Qed.

Lemma idle_when (b : bool) (m : Op unit) : idle_on_error m -> idle_on_error (when b m).
Proof. destruct b; [auto|intros _; apply idle_ret]. Qed.

Lemma stops_bind {A B} (m : Op A) (f : A -> Op B) :
  idle_on_error m -> (forall a, stops_on_error (f a)) -> stops_on_error (bind m f).
Proof.
  intros Hm Hf s Hs. destruct (Hm s Hs) as (Hst & Hr & Hu). unfold bind.
  destruct (m s) as [s1 [a| |e|u]]; cbn [fst snd] in *; subst s1.
  - apply Hf, Hs.
  - auto.
  - destruct (Hr e eq_refl).
  - split; [reflexivity|]. right. rewrite (Hu u eq_refl). reflexivity.
Qed.

Lemma stops_status_check {A} (a : A) :
  stops_on_error (K := K)
    (bind context_status (fun st => if negb (Status.ok st) then return_ else ret a)).
Proof.
  intros [k c] Hs. cbn in *. destruct (ctx_status c); [contradiction|]. cbn. auto.
Qed.
End OnErrorFacts.

Ltac idle :=
  repeat first
    [ apply idle_ret | apply idle_input | apply idle_this | apply idle_context_status
    | apply idle_subscript | apply idle_CtxFailure | apply idle_OP_REQUIRES
    | apply idle_bind; [|intros ?]
    | apply idle_if
    | apply idle_when
    | match goal with
      | |- idle_on_error (match ?x with _ => _ end) => destruct x
      | |- idle_on_error (let (_, _) := ?x in _) => destruct x
      end
    | progress cbv zeta ].

Section EarlyExits.
Context `{ConvEngine}.
Variable T : KernelTypes.
Variables pad_enabled is_depthwise : bool.

(** When the first block of [Compute] returns, so does [Compute]. *)
Lemma Compute_sizes_ends (s s1 : MklConvOp * OpKernelContext)
    (fl : Flow (TensorShape * ConvFwdSizes)) :
  Compute_sizes is_depthwise s = (s1, fl) ->
  fl = Return_ \/ fl = Undefined OutOfBounds ->
  Compute T pad_enabled is_depthwise s
  = (s1, match fl with Return_ => Return_ | _ => Undefined OutOfBounds end).
Proof.
  intros Hs Hfl. unfold Compute, try_catch, bind. rewrite Hs.
  destruct Hfl; subst fl; reflexivity.
Qed.

Lemma stops_Compute_sizes : stops_on_error (Compute_sizes is_depthwise).
Proof.
  unfold Compute_sizes, PadWithConvFusion.
  apply stops_bind; [idle|intros src_tensor].
  apply stops_bind; [idle|intros filter_tensor].
  apply stops_bind; [idle|intros k].
  cbv zeta.
  apply stops_bind; [idle|intros paddings].
  destruct (GetConvFwdSizesInMklOrder _) as [sizes reported].
  apply stops_bind; [idle|intros _].
  apply stops_status_check.
Qed.

(** X3.  A convolution call on a context that already carries an error
    changes neither the kernel nor the context: it builds no primitive,
    allocates no output, and ends by returning, or by indexing the
    paddings past their end. *)
Theorem Compute_does_nothing_after_an_error (k : MklConvOp) (c : OpKernelContext) :
  ctx_status c <> Status.OK ->
  let r := Compute T pad_enabled is_depthwise (k, c) in
  fst r = (k, c) /\ (snd r = Return_ \/ snd r = Undefined OutOfBounds).
Proof.
  intros Herr. destruct (stops_Compute_sizes (k, c) Herr) as [Hst Hfl].
  destruct (Compute_sizes is_depthwise (k, c)) as [s1 fl] eqn:Hs.
  cbn [fst snd] in *. subst s1. cbv zeta.
  rewrite (Compute_sizes_ends _ _ _ Hs Hfl).
  destruct Hfl; subst fl; auto.
Qed.

(** X4.  A convolution call on a kernel that fuses a pad, with a padding
    list of zeros and a paddings input that is not a matrix, reports an
    InvalidArgument and returns; the kernel is unchanged and nothing is
    allocated or built. *)
Theorem Compute_rejects_paddings_of_wrong_rank (k : MklConvOp) (c : OpKernelContext) :
  ctx_status c = Status.OK ->
  fuse_pad_ k = true ->
  existsb (fun padding_val => negb (padding_val =? 0)) (padding_list_ k) = false ->
  tensor_dims (inputs c (input_index_pad_ k)) <> 2 ->
  exists msg,
    Compute T pad_enabled is_depthwise (k, c)
    = ((k, with_status (errors.InvalidArgument msg) c), Return_).
Proof.
  intros Hok Hpad Hattr Hdims.
  exists ("paddings must be 2-dimensional: "
          ++ DebugString (shape (inputs c (input_index_pad_ k)))).
  assert (Hs : Compute_sizes is_depthwise (k, c)
               = ((k, with_status
                        (errors.InvalidArgument
                           ("paddings must be 2-dimensional: "
                            ++ DebugString (shape (inputs c (input_index_pad_ k))))) c),
                  Return_)).
  { unfold Compute_sizes.
    unfold bind at 1. cbn [input fst snd]. unfold bind at 1. cbn [input fst snd].
    unfold bind at 1. cbn [this fst snd]. rewrite Hpad, Hattr. cbn [orb].
    unfold PadWithConvFusion.
    apply Z.eqb_neq in Hdims.
    destruct c as [i f st ev]. cbn in Hok, Hdims. subst st.
    run. rewrite Hdims. run.
    destruct (GetConvFwdSizesInMklOrder _) as [sizes reported].
    destruct reported; reflexivity. }
  rewrite (Compute_sizes_ends _ _ _ Hs); [reflexivity|left; reflexivity].
Qed.
End EarlyExits.

Section ComputeChecksFacts.
Context `{ConvEngine}.
Variable T : KernelTypes.
Variables pad_enabled is_depthwise : bool.

(** X6.  Once the sizes are known and there is something to compute, a
    convolution call that fails one of the checks on the number of
    dimensions or on the data format reports the InvalidArgument of the
    first failing check and returns, with the kernel unchanged and
    nothing allocated or built. *)
Theorem Compute_rejects_before_building (k : MklConvOp) (c : OpKernelContext)
    (s1 : MklConvOp * OpKernelContext) (src_tf_shape : TensorShape)
    (sizes : ConvFwdSizes) (msg : string) :
  Compute_sizes is_depthwise (k, c) = (s1, Next (src_tf_shape, sizes)) ->
  nothing_to_compute sizes = false ->
  Compute_rejection pad_enabled is_depthwise k = Some msg ->
  Compute T pad_enabled is_depthwise (k, c)
  = ((k, with_status (errors.InvalidArgument msg) c), Return_).
Proof.
  intros Hsizes Hsome Hrej. destruct s1 as [k1 c1].
  destruct (Compute_sizes_frame _ _ _ _ _ _ Hsizes) as (-> & -> & _).
  unfold Compute, try_catch. unfold bind at 1. rewrite Hsizes.
  unfold Compute_rejection in Hrej. revert Hrej.
  run. rewrite Hsome. run.
  destruct (size (strides_ k) =? 4); cbn [negb andb]; run.
  - rewrite andb_false_r. destruct is_depthwise; run.
    all: case_bool_decide as Htag; run; intros [= <-]; reflexivity.
  - destruct pad_enabled; run; [intros [= <-]; reflexivity|].
    destruct (fuse_pad_ k); run; [intros [= <-]; reflexivity|].
    destruct is_depthwise; run; [intros [= <-]; reflexivity|].
    case_bool_decide as Htag; run; intros [= <-]; reflexivity.
Qed.
End ComputeChecksFacts.

Section FusionMembersFacts.
Context `{MklDnn}.

Lemma same_fusion_refl {C} (s : MklConvOp * C) : same_fusion s s.
Proof. reflexivity. Qed.

Lemma same_fusion_trans {C} (s1 s2 s3 : MklConvOp * C) :
  same_fusion s1 s2 -> same_fusion s2 s3 -> same_fusion s1 s3.
Proof. unfold same_fusion. congruence. Qed.

Lemma same_fusion_assign {C} (f : MklConvOp -> MklConvOp) :
  (forall k, fusion_members (f k) = fusion_members k) ->
  within (same_fusion (C := C)) (assign f).
Proof. intros Hf [k c]. exact (Hf k). Qed.

Lemma same_fusion_context {A} (m : Body (MklConvOp * OpKernelConstruction) A) :
  (forall s, fst (fst (m s)) = fst s) -> within same_fusion m.
Proof. intros Hm s. unfold same_fusion. rewrite Hm. reflexivity. Qed.

Lemma same_fusion_OP_REQUIRES (b : bool) (e : Status.t) :
  within (same_fusion (C := OpKernelConstruction)) (OP_REQUIRES b e).
Proof. apply same_fusion_context. intros s. unfold OP_REQUIRES. destruct b; reflexivity. Qed.

Lemma same_fusion_OP_REQUIRES_OK (e : Status.t) :
  within (same_fusion (C := OpKernelConstruction)) (OP_REQUIRES_OK e).
Proof.
  apply same_fusion_context. intros s. unfold OP_REQUIRES_OK.
  destruct (Status.ok e); reflexivity.
Qed.

Lemma same_fusion_attrs : within same_fusion (attrs (K := MklConvOp)).
Proof. apply same_fusion_context. reflexivity. Qed.

Lemma same_fusion_this :
  within same_fusion (this (K := MklConvOp) (C := OpKernelConstruction)).
Proof. apply same_fusion_context. reflexivity. Qed.
End FusionMembersFacts.

Ltac same_fusion :=
  repeat first
    [ apply (within_ret _ same_fusion_refl)
    | apply same_fusion_OP_REQUIRES
    | apply same_fusion_OP_REQUIRES_OK
    | apply same_fusion_attrs
    | apply same_fusion_this
    | apply same_fusion_assign; intros ?; reflexivity
    | apply (within_bind _ same_fusion_trans); [|intros ?]
    | apply within_if
    | apply (within_when _ same_fusion_refl)
    | apply within_call
    | match goal with
      | |- within _ (match ?x with _ => _ end) => destruct x
      | |- within _ (let (_, _) := ?x in _) => destruct x
      end
    | progress cbv zeta ].

Section FusedPostOps.
Context `{MklDnn}.

Lemma same_fusion_MklConvOp_ctor : within same_fusion MklConvOp_ctor.
Proof. unfold MklConvOp_ctor, GetAttr_member, GetAttr_local. same_fusion. Qed.

(** After the base constructor, when the derived one ends with an OK
    status: the base reported nothing and left the fusion members as the
    member initialisers set them. *)
Lemma derived_ctor_after_base (body : Body (MklConvOp * OpKernelConstruction) unit)
    (k : MklConvOp) (a : NodeAttrs) :
  keeps_error body ->
  ctor_status k (bind (call MklConvOp_ctor) (fun _ => body)) a = Status.OK ->
  exists k1,
    fusion_members k1 = fusion_members k
    /\ construct k (bind (call MklConvOp_ctor) (fun _ => body)) a
       = (let s := fst (body (k1, {| node_attrs := a; construction_status := Status.OK |}))
          in (fst s, construction_status (snd s)))
    /\ body_status body k1 a Status.OK = Status.OK.
Proof.
  intros Hkeep Hok. destruct (after_base_ctor k a) as (k1 & st1 & Hcall & _).
  pose proof (within_call _ _ same_fusion_MklConvOp_ctor
                (k, {| node_attrs := a; construction_status := Status.OK |})) as Hsame.
  rewrite Hcall in Hsame. unfold same_fusion in Hsame. cbn [fst] in Hsame.
  exists k1. split; [exact Hsame|].
  unfold ctor_status, run_ctor, construct, body_status, bind in *. rewrite Hcall in *.
  cbn [fst snd] in *.
  destruct st1 as [|code msg]; [split; [reflexivity|exact Hok]|].
  specialize (Hkeep (k1, {| node_attrs := a;
                            construction_status := Status.Error code msg |})).
  cbn in Hkeep. rewrite Hkeep in Hok; discriminate.
Qed.

(** X12.  A fused convolution kernel whose construction succeeds fuses a
    bias add exactly when its fused ops name one, fuses a pad exactly when
    its class does, and reads the paddings from input 3 then and from
    input 2 otherwise.  The post-ops it appends to the parameters of the
    primitive are those of its fused ops: a sum for [Add], then the
    activation. *)
Theorem MklFusedConvOp_post_ops (pad_enabled : bool) (a : NodeAttrs)
    (ops : list string) :
  ctor_status (MklConvOp_members false false) (MklFusedConvOp_ctor pad_enabled) a
  = Status.OK ->
  attr_fused_ops a = Some ops ->
  let k := fst (construct (MklConvOp_members false false)
                  (MklFusedConvOp_ctor pad_enabled) a) in
  let leakyrelu_alpha := default 0%float (attr_leakyrelu_alpha a) in
  fuse_biasadd_ k = bool_decide ("BiasAdd" ∈ ops)
  /\ fuse_pad_ k = pad_enabled
  /\ input_index_pad_ k = (if pad_enabled then 3 else 2)
  /\ forall (T : KernelTypes) (params : MklConvFwdParams),
       post_op_params (ExtendConvFwdParams T k params)
       = (post_op_params params ++ fused_post_ops ops leakyrelu_alpha)%list.
Proof.
  intros Hok Hops. unfold MklFusedConvOp_ctor in *.
  destruct (derived_ctor_after_base _ _ a (MklFusedConvOp_body_keeps_error pad_enabled) Hok)
    as (k1 & Hmem & -> & Hbody).
  cbv zeta. cbn [fst].
  destruct (attr_num_args a) as [n|] eqn:Hn;
    [|destruct (MklFusedConvOp_body_missing pad_enabled k1 a (or_intror Hn) Hbody)].
  destruct (decide (ops ∈ conv_fusions)) as [Hin|Hin].
  2:{ rewrite (MklFusedConvOp_body_unlisted pad_enabled k1 a ops n Hops Hn Hin) in Hbody.
      apply unlisted_status_not_OK in Hbody. discriminate Hbody. }
  clear Hok.
  unfold fusion_members in Hmem. cbn in Hmem.
  injection Hmem as Hbias Hadd Hact Hpad Halg Halpha Hidx.
  destruct a as [dil pl ep str df pad ifc fo na la ta tb]. cbn in Hops, Hn. subst fo na.
  unfold body_status, MklFusedConvOp_body, conv_fusions in *.
  cbn [attr_leakyrelu_alpha].
  repeat (apply elem_of_cons in Hin; destruct Hin as [->|Hin]);
    [..|by apply elem_of_nil in Hin].
  all: unfold set_fuse_biasadd, set_fuse_activation, set_fuse_add, set_fuse_pad in *.
  all: revert Hbody; cbn; eval_decisions; run.
  all: repeat match goal with
              | |- context [?x =? ?v] => destruct (x =? v); run
              | |- context [GetAttr_local _ ?o _] => is_var o; destruct o; run
              end.
  all: try (intros Hst; discriminate Hst).
  all: intros _; destruct pad_enabled; run.
  all: unfold ExtendConvFwdParams, fused_post_ops, fused_activation; cbn.
  all: eval_decisions; cbn.
  all: rewrite ?Hbias, ?Hadd, ?Hact, ?Hpad, ?Halg, ?Halpha, ?Hidx.
  all: repeat split; intros; try reflexivity.
Qed.

(** X13.  A fused depthwise kernel whose construction succeeds fuses a
    bias add and no add, fuses a pad exactly when its class does, and
    appends the activation of its fused ops to the parameters of the
    primitive. *)
Theorem MklFusedDepthwiseConvOp_post_ops (bias_enabled pad_enabled : bool)
    (a : NodeAttrs) (ops : list string) :
  ctor_status (MklConvOp_members bias_enabled false)
    (MklFusedDepthwiseConvOp_ctor pad_enabled) a
  = Status.OK ->
  attr_fused_ops a = Some ops ->
  let k := fst (construct (MklConvOp_members bias_enabled false)
                  (MklFusedDepthwiseConvOp_ctor pad_enabled) a) in
  fuse_biasadd_ k = true
  /\ fuse_add_ k = false
  /\ fuse_pad_ k = pad_enabled
  /\ input_index_pad_ k = (if pad_enabled then 3 else 2)
  /\ forall (T : KernelTypes) (params : MklConvFwdParams),
       post_op_params (ExtendConvFwdParams T k params)
       = (post_op_params params ++ fused_post_ops ops 0%float)%list.
Proof.
  intros Hok Hops. unfold MklFusedDepthwiseConvOp_ctor in *.
  destruct (derived_ctor_after_base _ _ a
              (MklFusedDepthwiseConvOp_body_keeps_error pad_enabled) Hok)
    as (k1 & Hmem & -> & Hbody).
  cbv zeta. cbn [fst].
  destruct (attr_num_args a) as [n|] eqn:Hn;
    [|destruct (MklFusedDepthwiseConvOp_body_missing pad_enabled k1 a
                  (or_intror Hn) Hbody)].
  destruct (decide (ops ∈ depthwise_fusions)) as [Hin|Hin].
  2:{ rewrite (MklFusedDepthwiseConvOp_body_unlisted pad_enabled k1 a ops n Hops Hn Hin)
        in Hbody.
      apply unlisted_status_not_OK in Hbody. discriminate Hbody. }
  clear Hok.
  unfold fusion_members in Hmem. cbn in Hmem.
  injection Hmem as Hbias Hadd Hact Hpad Halg Halpha Hidx.
  destruct a as [dil pl ep str df pad ifc fo na la ta tb]. cbn in Hops, Hn. subst fo na.
  unfold body_status, MklFusedDepthwiseConvOp_body, depthwise_fusions in *.
  repeat (apply elem_of_cons in Hin; destruct Hin as [->|Hin]);
    [..|by apply elem_of_nil in Hin].
  all: unfold set_fuse_biasadd, set_fuse_activation, set_fuse_add, set_fuse_pad in *.
  all: revert Hbody; cbn; eval_decisions; run.
  all: repeat match goal with
              | |- context [?x =? ?v] => destruct (x =? v); run
              end.
  all: try (intros Hst; discriminate Hst).
  all: intros _; destruct pad_enabled; run.
  all: unfold ExtendConvFwdParams, fused_post_ops, fused_activation; cbn.
  all: eval_decisions; cbn.
  all: rewrite ?Hbias, ?Hadd, ?Hact, ?Hpad, ?Halg, ?Halpha, ?Hidx.
  all: repeat split; intros; try reflexivity.
Qed.
End FusedPostOps.

Section CtorStores.
Context `{MklDnn}.

(** X2.  A convolution kernel whose construction succeeds holds the
    attributes of its node: the strides, the dilations, the padding, the
    data format its name parses to, the constness of the filter ([false]
    when the attribute is absent), and as padding list the explicit
    paddings when the node has them, else the padding list, else what the
    member held. *)
Theorem MklConvOp_ctor_stores_attributes (members : MklConvOp) (a : NodeAttrs) :
  ctor_status members MklConvOp_ctor a = Status.OK ->
  let k := fst (construct members MklConvOp_ctor a) in
  attr_strides a = Some (strides_ k)
  /\ attr_dilations a = Some (dilations_ k)
  /\ attr_padding a = Some (padding_ k)
  /\ (exists data_format, attr_data_format a = Some data_format
                          /\ FormatFromString data_format = Some (data_format_ k))
  /\ is_filter_const_ k = default false (attr_is_filter_const a)
  /\ padding_list_ k
     = match attr_explicit_paddings a, attr_padding_list a with
       | Some paddings, _ => paddings
       | None, Some paddings => paddings
       | None, None => padding_list_ members
       end.
Proof.
  unfold ctor_status, run_ctor, construct. cbn [fst snd].
  remember (MklConvOp_ctor (members, {| node_attrs := a;
                                        construction_status := Status.OK |}))
    as r eqn:Er.
  revert Er.
  destruct a as [dil pl ep str df pad ifc fo na la ta tb].
  unfold MklConvOp_ctor.
  cbn.
  fork dil. fork pl; fork ep; fork str.
  all: repeat head_fork.
  all: try solve [intros; simplify_eq/=; try discriminate; repeat split; eauto].
Qed.
End CtorStores.

(** X14.  The fused matmul constructor runs to its end exactly when the
    node has its four attributes, one or two fused ops of which the first
    is [BiasAdd], and no transposed first operand; the kernel then holds
    the attributes.  The second fused op is not looked at: any name is
    accepted. *)
Theorem MklFusedMatMulOp_ctor_accepts (members : MklFusedMatMulOp) (a : NodeAttrs) :
  let r := run_ctor members MklFusedMatMulOp_ctor a in
  let k := fst (fst r) in
  (snd r = Next tt <-> matmul_attributes_accepted a = true)
  /\ (snd r = Next tt ->
      snd (fst r) = Status.OK
      /\ attr_fused_ops a = Some (fused_ops_ k)
      /\ attr_transpose_b a = Some (transpose_b_ k)
      /\ attr_is_filter_const a = Some (is_weight_const_ k)
      /\ transpose_a_ k = false)
  /\ (forall ops op,
        attr_fused_ops a = Some ops -> matmul_attributes_accepted a = true ->
        matmul_attributes_accepted
          {| attr_dilations := attr_dilations a;
             attr_padding_list := attr_padding_list a;
             attr_explicit_paddings := attr_explicit_paddings a;
             attr_strides := attr_strides a;
             attr_data_format := attr_data_format a;
             attr_padding := attr_padding a;
             attr_is_filter_const := attr_is_filter_const a;
             attr_fused_ops := Some ["BiasAdd"; op];
             attr_num_args := attr_num_args a;
             attr_leakyrelu_alpha := attr_leakyrelu_alpha a;
             attr_transpose_a := attr_transpose_a a;
             attr_transpose_b := attr_transpose_b a |} = true).
Proof.
  intros r k. subst k. remember r as r0 eqn:Er. revert Er. subst r.
  destruct a as [dil pl ep str df pad ifc fo na la ta tb].
  unfold run_ctor, MklFusedMatMulOp_ctor, matmul_attributes_accepted. cbn.
  destruct fo as [ops|]; run;
    [|intros ->; cbn; repeat split; intros; destruct_and?; discriminate].
  destruct ta as [ta|]; run;
    [|intros ->; cbn; repeat split; intros; destruct_and?; discriminate].
  destruct tb as [tb|]; run;
    [|intros ->; cbn; repeat split; intros; destruct_and?; discriminate].
  destruct ifc as [ifc|]; run;
    [|intros ->; cbn; repeat split; intros; destruct_and?; discriminate].
  destruct ops as [|op1 [|op2 [|op3 ops]]].
  4: replace (Z.of_nat (length (op1 :: op2 :: op3 :: ops)) <=? 2) with false
       by (symmetry; apply Z.leb_gt; cbn [length]; lia).
  2: change (Z.of_nat (length [op1]) <=? 2) with true.
  3: change (Z.of_nat (length [op1; op2]) <=? 2) with true.
  all: run.
  1,4: intros ->; cbn; repeat split; intros; simplify_eq/=; try discriminate.
  all: case_bool_decide as Hfirst; run.
  all: destruct ta; run.
  all: intros ->; cbn; repeat split; intros; simplify_eq/=; try discriminate;
    try reflexivity.
  all: rewrite ?bool_decide_eq_true_2 in * by reflexivity; try discriminate;
    try reflexivity.
Qed.



Section BiasSize.
Context `{ConvEngine}.
Variable T : KernelTypes.
Variables pad_enabled is_depthwise : bool.
Hypothesis reorders :
  forall from to src, reorder_error from to src = None.

(** With a backend whose reorders succeed, the output is allocated; the
    status and the filter cache are left as they were. *)
Lemma AllocateOutputTensor_goes_on (output_dims_mkl_order : dims)
    (output_tf_format : TensorFormat) (is_conv2d : bool)
    (k : MklConvOp) (c : OpKernelContext) :
  exists k' c' dst_data evs,
    AllocateOutputTensor T output_dims_mkl_order output_tf_format is_conv2d (k, c)
    = ((k', c'), Next dst_data)
    /\ events c' = (events c ++ evs)%list
    /\ ctx_status c' = ctx_status c
    /\ (cache_consistent k -> cache_consistent k').
Proof.
  unfold AllocateOutputTensor, forward_input_to_output_with_shape, allocate_output,
    CreateAndExecuteReorder.
  run. destruct (fuse_add_ k); run; [|eexists _, _, _, _; repeat split; auto].
  unfold bind. cbn.
  destruct (forwardable c kInputIndex_Add); cbn;
    [eexists _, _, _, _; repeat split; auto|].
  rewrite reorders. cbn. eexists _, _, _, _. repeat split; [|auto].
  cbn. rewrite <- app_assoc. reflexivity.
Qed.

(** With such a backend and a consistent cache, the filter data is chosen,
    or a null pointer is read through after a persistent tensor was
    refused; a status that is an error is left as it was, and so is every
    status when the persistent tensors are granted. *)
Lemma Compute_filter_data_goes_on (conv_fwd_pd : ConvFwdPd) (filter_md : memory_desc)
    (k : MklConvOp) (c : OpKernelContext) :
  cache_consistent k ->
  exists k' c' fl evs,
    Compute_filter_data T conv_fwd_pd filter_md (k, c) = ((k', c'), fl)
    /\ events c' = (events c ++ evs)%list
    /\ ((exists filter_data, fl = Next filter_data) \/ fl = Undefined NullDereference)
    /\ (ctx_status c <> Status.OK \/ cache_granted T conv_fwd_pd ->
        ctx_status c' = ctx_status c).
Proof.
  intros Hk. unfold Compute_filter_data. unfold bind at 1. cbn [this fst snd].
  destruct (bool_decide (filter_md = weights_desc conv_fwd_pd)).
  { cbn. exists k, c, (Next (InputData kInputIndex_Filter)), [].
    rewrite app_nil_r. eauto 6. }
  cbn [negb].
  destruct (is_filter_const_ k) eqn:Hconst.
  2:{ unfold CheckReorderToOpMem, CreateAndExecuteReorder. run.
      rewrite reorders. run. eexists _, _, _, _. repeat split; eauto. }
  rewrite bind_bind. unfold bind at 1. rewrite IsFilterCacheEmpty_run.
  destruct (NumElements (cached_filter_data_ptensor_ k) =? 0) eqn:Hempty.
  - apply Z.eqb_eq in Hempty.
    rewrite bind_bind. unfold bind at 1. cbn [when].
    unfold call, CacheFilter, CheckReorderToOpMem, CreateAndExecuteReorder.
    run. rewrite Hempty. run. rewrite reorders. run.
    unfold AllocatePersistentTensor, cache_granted.
    destruct (allocate_persistent (Tfilter T) _) as [|code msg] eqn:Hdata; run.
    2:{ eexists _, _, _, _. split; [reflexivity|]. cbn.
        split; [reflexivity|]. split; [auto|].
        intros [Hc | [Hg _]]; [|discriminate].
        destruct (ctx_status c); [contradiction|reflexivity]. }
    destruct (allocate_persistent "uint8" _) as [|code msg] eqn:Hmd; run.
    + unfold GetCachedFilter. run.
      rewrite (bool_decide_eq_true_2 _ eq_refl). run.
      eexists _, _, _, _. split; [reflexivity|]. cbn.
      rewrite <- !app_assoc. repeat split; eauto.
    + unfold GetCachedFilter. run.
      destruct (cached_filter_md_ptensor_ k) as [md|]; run.
      * destruct (bool_decide (weights_desc conv_fwd_pd = md)); run;
          rewrite ?reorders; run;
          (eexists _, _, _, _; split; [reflexivity|]; cbn;
           rewrite <- ?app_assoc; split; [reflexivity|]; split; [eauto|];
           intros [Hc | [_ Hg]]; [|discriminate];
           destruct (ctx_status c); [contradiction|reflexivity]).
      * eexists _, _, _, _. split; [reflexivity|]. cbn.
        rewrite <- ?app_assoc. split; [reflexivity|]. split; [auto|].
        intros [Hc | [_ Hg]]; [|discriminate].
        destruct (ctx_status c); [contradiction|reflexivity].
  - apply Z.eqb_neq in Hempty. destruct (Hk Hempty) as [md Hmd].
    rewrite bind_bind. unfold bind at 1. cbn [when ret].
    rewrite bind_bind. unfold bind at 1.
    rewrite (GetCachedFilter_run _ _ _ _ Hmd).
    unfold CheckReorderToOpMem, CreateAndExecuteReorder.
    destruct (bool_decide (weights_desc conv_fwd_pd = md)); cbn.
    { exists k, c, (Next CachedFilterData), []. rewrite app_nil_r. eauto 6. }
    rewrite reorders. cbn. eexists _, _, _, _. repeat split; eauto.
Qed.

(** A primitive that [Setup] made without bias dimensions dereferences a
    null pointer when it is executed with a bias. *)
Lemma conv_fwd_Execute_without_bias_mem (convFwdDims : MklConvFwdParams)
    (conv_fwd : MklConvFwdPrimitive) (src_data filter_data bias_data dst_data : ptr)
    (s : MklConvOp * OpKernelContext) :
  Setup convFwdDims = inr conv_fwd ->
  bias_dims convFwdDims = [] ->
  bias_data <> nullptr ->
  conv_fwd_Execute conv_fwd src_data filter_data bias_data dst_data s
  = (s, Undefined NullDereference).
Proof.
  unfold Setup. destruct (primitive_desc convFwdDims) as [e|pd]; [discriminate|].
  intros [= <-] Hdims Hbias. rewrite Hdims.
  rewrite (bool_decide_eq_true_2 _ eq_refl).
  unfold conv_fwd_Execute, Execute, bind, when, src_mem_set_data_handle,
    filter_mem_set_data_handle, bias_mem_set_data_handle, modify.
  cbn. rewrite (bool_decide_eq_false_2 _ Hbias). reflexivity.
Qed.

Ltac through_compute :=
  repeat (progress (rewrite ?bind_bind;
                    cbn -[AllocateOutputTensor Compute_filter_data conv_fwd_Execute
                          new_MklConvFwdPrimitive ExtendConvFwdParams])).

(** X7.  [Compute] does not look at the status after the size helper of
    the bias.  On a kernel with a fused bias add and a bias tensor that has
    elements, when the helper leaves the bias dimensions empty, the call
    builds the primitive without bias memory and goes on; with a backend
    that builds and reorders without failing and a consistent filter
    cache, it then dereferences a null pointer, when it executes the
    primitive with the bias of the call if not before.  The status is
    what the helper reported, when that is an error or when the framework
    grants the persistent tensors of the filter cache. *)
Theorem Compute_bias_without_dims_dereferences_null (k : MklConvOp)
    (c : OpKernelContext) (s1 : MklConvOp * OpKernelContext)
    (src_tf_shape : TensorShape) (sizes : ConvFwdSizes) (reported : Status.t) :
  Compute_sizes is_depthwise (k, c) = (s1, Next (src_tf_shape, sizes)) ->
  nothing_to_compute sizes = false ->
  Compute_rejection pad_enabled is_depthwise k = None ->
  fuse_biasadd_ k = true ->
  num_elements (shape (inputs c kInputIndex_Bias)) <> 0 ->
  GetBiasSizeInMklOrder (shape (inputs c kInputIndex_Bias)) = ([], reported) ->
  (forall convFwdDims, exists pd, primitive_desc convFwdDims = inr pd) ->
  cache_consistent k ->
  let r := Compute T pad_enabled is_depthwise (k, c) in
  snd r = Undefined NullDereference
  /\ (reported <> Status.OK \/ (forall conv_fwd_pd, cache_granted T conv_fwd_pd) ->
      ctx_status (snd (fst r)) = reported)
  /\ exists convFwdDims evs,
       bias_dims convFwdDims = []
       /\ events (snd (fst r)) = (events c ++ PrimitiveBuilt convFwdDims :: evs)%list.
Proof.
  intros Hsizes Hwork Hrej Hbias _ Hdims Hbuild Hcache r.
  destruct s1 as [k1 c1].
  destruct (Compute_sizes_frame _ _ _ _ _ _ Hsizes) as (-> & -> & _).
  remember r as r0 eqn:Hr. subst r.
  unfold Compute, try_catch in Hr. unfold bind at 1 in Hr. rewrite Hsizes in Hr.
  unfold Compute_rejection in Hrej.
  revert Hr. through_compute. rewrite Hwork. through_compute.
  destruct (size (strides_ k) =? 4); cbn [negb andb] in Hrej |- *; through_compute.
  1: rewrite andb_false_r in Hrej.
  2: destruct pad_enabled; [discriminate|]; through_compute.
  2: destruct (fuse_pad_ k); [discriminate|]; through_compute.
  all: destruct is_depthwise; try discriminate; through_compute.
  all: case_bool_decide as Htag; [discriminate|]; through_compute.
  all: rewrite Hbias; through_compute; rewrite Hdims; through_compute.
  all: destruct reported as [|code msg]; through_compute.
  all: match goal with
       | |- context [new_MklConvFwdPrimitive ?p] =>
           set (convFwdDims := p);
           assert (Hnone : bias_dims convFwdDims = []) by reflexivity;
           destruct (Hbuild convFwdDims) as [pd Hpd];
           assert (Hsetup : exists conv_fwd, Setup convFwdDims = inr conv_fwd)
             by (unfold Setup; rewrite Hpd; eauto);
           destruct Hsetup as [conv_fwd Hsetup];
           unfold bind at 1; unfold new_MklConvFwdPrimitive; rewrite Hsetup
       end.
  all: unfold bind at 1; cbn [emit ret fst snd].
  all: unfold bind at 1;
    match goal with
    | |- context [AllocateOutputTensor T ?a ?b ?d ?st] =>
        destruct (AllocateOutputTensor_goes_on a b d (fst st) (snd st))
          as (k2 & c2 & dst_data & evs2 & Halloc & Hev2 & Hst2 & Hcache2);
        cbn [fst snd] in Halloc; rewrite Halloc
    end.
  all: unfold bind at 1;
    match goal with
    | |- context [Compute_filter_data T ?a ?b ?st] =>
        destruct (Compute_filter_data_goes_on a b (fst st) (snd st) (Hcache2 Hcache))
          as (k3 & c3 & fl & evs3 & Hfilter & Hev3 & Hfl & Hst3);
        cbn [fst snd] in Hfilter; rewrite Hfilter
    end.
  all: cbn [fst snd] in Hev2, Hst2, Hev3, Hst3.
  all: assert (Hevents : events c3
                         = (events c ++ PrimitiveBuilt convFwdDims :: evs2 ++ evs3)%list)
         by (rewrite Hev3, Hev2; cbn [events with_status];
             rewrite <- !app_assoc; reflexivity).
  all: destruct Hfl as [[filter_data ->] | ->].
  all: try (unfold bind at 1;
            rewrite (conv_fwd_Execute_without_bias_mem convFwdDims conv_fwd _ _ _ _ _
                       Hsetup Hnone)
              by (unfold GetBiasHandle; rewrite Hbias; discriminate)).
  all: intros ->; cbn [fst snd].
  all: split; [reflexivity|]; split;
    [|exists convFwdDims, (evs2 ++ evs3)%list; split; [exact Hnone|exact Hevents]].
  all: intros Hcase; rewrite Hst3; [rewrite Hst2; reflexivity|].
  all: rewrite Hst2; cbn [ctx_status with_status].
  all: destruct Hcase as [Hc | Hg]; [left; exact Hc|right; apply Hg].
Qed.
End BiasSize.

Ltac read_dims :=
  unfold dim_size, at_;
  change (Z.to_nat (1 - 1)) with 0%nat; change (Z.to_nat (1 - 0)) with 1%nat;
  change (Z.to_nat 1) with 1%nat; change (Z.to_nat 0) with 0%nat;
  cbn [nth].

Ltac require_step := unfold bind at 1; unfold OP_REQUIRES at 1; cbn [fst snd negb].

Section MatMulInputsFacts.
Context `{MatMulEngine}.
Variable T_name : string.
Variable sizeof_T : Z.

Lemma IsMatrix_cases (v : TensorShape) :
  IsMatrix v = match v with [_; _] => true | _ => false end.
Proof.
  unfold IsMatrix. destruct v as [|? [|? [|? ?]]]; try reflexivity.
  apply Z.eqb_neq. cbn [length]. lia.
Qed.

Lemma IsVector_cases (v : TensorShape) :
  IsVector v = match v with [_] => true | _ => false end.
Proof.
  unfold IsVector. destruct v as [|? [|? ?]]; try reflexivity.
  apply Z.eqb_neq. cbn [length]. lia.
Qed.

Lemma MatMul_prepare_rejects (s : MatMulState * MatMulContext) :
  matmul_inputs_accepted (kernel (fst s)) (snd s) = false ->
  exists msg,
    MatMul_prepare s = (CtxFailure (errors.InvalidArgument msg) s, Return_).
Proof.
  destruct s as [st c]. unfold matmul_inputs_accepted, src_tf_shape. cbn [fst snd].
  intros Hrej. unfold MatMul_prepare.
  unfold bind at 1. cbn [mm_input fst snd].
  unfold bind at 1. cbn [mm_input fst snd].
  unfold bind at 1. cbn [mm_input fst snd].
  rewrite !IsMatrix_cases, IsVector_cases.
  destruct (IsMklTensor (mm_inputs c kInputIndexWeight)); cbn [negb andb] in Hrej;
    require_step.
  { eexists. reflexivity. }
  destruct (if IsMklTensor (mm_inputs c kInputIndexSrc)
            then GetTfShape (mm_inputs c kInputIndexSrc)
            else mm_shape (mm_inputs c kInputIndexSrc)) as [|b [|inner [|? ?]]];
    require_step.
  1-2,4: eexists; reflexivity.
  destruct (mm_shape (mm_inputs c kInputIndexWeight)) as [|w0 [|w1 [|? ?]]];
    require_step.
  1-2,4: eexists; reflexivity.
  destruct (mm_shape (mm_inputs c kInputIndexBias)) as [|biases [|? ?]];
    require_step.
  1,3: eexists; reflexivity.
  unfold bind at 1. cbn [members fst snd kernel].
  apply andb_false_iff in Hrej.
  destruct (transpose_b_ (kernel st)); cbn [fst snd].
  all: read_dims.
  all: require_step.
  all: destruct (to_int inner =? _); [|eexists; reflexivity].
  all: destruct Hrej as [Hrej | Hrej]; [discriminate|].
  all: require_step; rewrite Hrej; eexists; reflexivity.
Qed.

(** X15.  A fused matmul call stores the batch size, the inner dimension
    of its first operand and the channel size in an [int] each, and checks
    the stored values.  It accepts a weight in plain layout, two matrices
    such that the stored inner dimension equals the inner dimension of the
    weight, and as many biases as the stored channel size; so an inner
    dimension of [2^32 + 3] is accepted against a weight of inner
    dimension 3.  On other inputs it reports an InvalidArgument and
    returns before it asks for a primitive or allocates anything.  On
    accepted inputs the primitive is asked for the stored sizes, the
    weight dimensions in the order channel, inner, and for the weight
    layout to be chosen by the backend when the weight is constant. *)
Theorem MatMul_Compute_checks_inputs_first (s : MatMulState * MatMulContext) :
  let k := kernel (fst s) in
  (matmul_inputs_accepted k (snd s) = false ->
   exists msg,
     MatMul_Compute T_name sizeof_T s
     = (CtxFailure (errors.InvalidArgument msg) s, Return_))
  /\ (matmul_inputs_accepted k (snd s) = true ->
      exists s1 l rows inner w0 w1,
        MatMul_prepare s = (s1, Next l)
        /\ fst s1 = fst s
        /\ mm_events (snd s1) = mm_events (snd s)
        /\ src_tf_shape (snd s) = [rows; inner]
        /\ mm_shape (mm_inputs (snd s) kInputIndexWeight) = [w0; w1]
        /\ to_int inner = (if transpose_b_ k then w1 else w0)
        /\ let channel := to_int (if transpose_b_ k then w0 else w1) in
           mm_src_dims (matmul_params l) = [to_int rows; to_int inner]
           /\ mm_weight_dims (matmul_params l) = [channel; to_int inner]
           /\ mm_bias_dims (matmul_params l) = [channel]
           /\ mm_dst_dims (matmul_params l) = [to_int rows; channel]
           /\ mm_weight_format (matmul_params l)
              = (if is_weight_const_ k then tag_any
                 else if transpose_b_ k then tag_oi else tag_io))
  /\ (forall rows channel : Z,
        src_tf_shape (snd s) = [rows; 2 ^ 32 + 3] ->
        IsMklTensor (mm_inputs (snd s) kInputIndexWeight) = false ->
        mm_shape (mm_inputs (snd s) kInputIndexWeight) = [3; channel] ->
        mm_shape (mm_inputs (snd s) kInputIndexBias) = [to_int channel] ->
        transpose_b_ k = false ->
        matmul_inputs_accepted k (snd s) = true).
Proof.
  intros k. subst k. split; [|split].
  - intros Hrej. destruct (MatMul_prepare_rejects s Hrej) as [msg Hprep].
    exists msg. unfold MatMul_Compute. unfold bind at 1. rewrite Hprep. reflexivity.
  - destruct s as [st c]. unfold matmul_inputs_accepted, src_tf_shape. cbn [fst snd].
    intros Hacc. unfold MatMul_prepare.
    unfold bind at 1. cbn [mm_input fst snd].
    unfold bind at 1. cbn [mm_input fst snd].
    unfold bind at 1. cbn [mm_input fst snd].
    rewrite !IsMatrix_cases, IsVector_cases.
    destruct (IsMklTensor (mm_inputs c kInputIndexWeight)); [discriminate|].
    cbn [negb andb] in Hacc. require_step.
    destruct (if IsMklTensor (mm_inputs c kInputIndexSrc)
              then GetTfShape (mm_inputs c kInputIndexSrc)
              else mm_shape (mm_inputs c kInputIndexSrc))
      as [|b [|inner [|? ?]]]; try discriminate.
    destruct (mm_shape (mm_inputs c kInputIndexWeight))
      as [|w0 [|w1 [|? ?]]]; try discriminate.
    destruct (mm_shape (mm_inputs c kInputIndexBias))
      as [|biases [|? ?]]; try discriminate.
    do 3 require_step.
    unfold bind at 1. cbn [members fst snd kernel].
    apply andb_true_iff in Hacc. destruct Hacc as [Hinner Hbias].
    destruct (transpose_b_ (kernel st)) eqn:Htb; cbn [fst snd].
    all: read_dims.
    all: require_step; rewrite Hinner.
    all: require_step; rewrite Hbias.
    all: unfold ExtendMklDnnMatMulFwdParams.
    all: destruct (Z.of_nat (length (fused_ops_ (kernel st))) =? 2).
    all: repeat match goal with
           | |- context [bool_decide (nth 1 ?l ?d = ?v)] =>
               destruct (bool_decide (nth 1 l d = v))
           end.
    all: apply (proj1 (Z.eqb_eq _ _)) in Hinner.
    all: cbn; do 2 eexists; eexists b, inner, w0, w1; repeat split;
      solve [reflexivity | exact Hinner].
  - intros rows channel Hsrc Hplain Hweight Hbias Htb.
    unfold matmul_inputs_accepted. rewrite Hsrc, Hplain, Hweight, Hbias, Htb.
    replace (to_int (2 ^ 32 + 3)) with 3 by reflexivity.
    rewrite !Z.eqb_refl. reflexivity.
Qed.
End MatMulInputsFacts.

Section MatMulPostOp.
Context `{MatMulEngine}.
Variable T_name : string.
Variable sizeof_T : Z.

(** The factory reports nothing, and what it does is logged after what
    was. *)
Lemma Factory_Get_status (matmul_params : MklDnnMatMulFwdParams)
    (s : MatMulState * MatMulContext) :
  mm_status (snd (fst (MklDnnMatMulFwdPrimitiveFactory_Get matmul_params s)))
  = mm_status (snd s).
Proof.
  unfold MklDnnMatMulFwdPrimitiveFactory_Get.
  destruct (find_primitive _ _); [reflexivity|].
  destruct (matmul_primitive_desc _); reflexivity.
Qed.

(** A call that goes on after [MatMul_prepare] with an error reported ends
    with that error. *)
Lemma MatMul_Compute_keeps_reported (s s1 : MatMulState * MatMulContext)
    (l : MatMulLocals) (c : Status.Code) (msg : string) :
  MatMul_prepare s = (s1, Next l) ->
  mm_status (snd s1) = Status.Error c msg ->
  mm_status (snd (fst (MatMul_Compute T_name sizeof_T s))) = Status.Error c msg.
Proof.
  intros Hprep Hst. unfold MatMul_Compute. unfold bind at 1. rewrite Hprep.
  unfold bind at 1.
  pose proof (Factory_Get_status (matmul_params l) s1) as Hget.
  destruct (MklDnnMatMulFwdPrimitiveFactory_Get (matmul_params l) s1)
    as [[s2 c2] [prim| |e|u]]; cbn [fst snd] in Hget |- *;
    try (rewrite Hget; exact Hst).
  unfold bind at 1. cbn [mm_allocate_output bind mm_emit ret fst snd].
  destruct ((batch l =? 0) || (channel l =? 0)); [cbn; rewrite Hget; exact Hst|].
  unfold try_catch.
  match goal with
  | |- context [MatMul_try_block ?a ?b ?c ?d ?f ?st] =>
      destruct (scanning_try_block f ltac:(discriminate) a b c d st)
        as (before & after & _ & _ & Hkeep & Hend);
      destruct (MatMul_try_block a b c d f st) as [s3 fl]
  end.
  cbn [fst snd mm_status] in Hkeep, Hend.
  destruct Hend as [(_ & ? & ? & _ & ->) | [(e & _ & ->) | (_ & _ & ->)]].
  - cbn [fst snd]. rewrite Hkeep, Hget. exact Hst.
  - unfold report_exception, OP_REQUIRES_OK. cbn. rewrite Hkeep, Hget, Hst.
    reflexivity.
  - cbn [fst snd]. rewrite Hkeep, Hget. exact Hst.
Qed.

(** A call that runs to its end has executed the primitive on the output
    last. *)
Lemma MatMul_Compute_Next_executed (s : MatMulState * MatMulContext) :
  snd (MatMul_Compute T_name sizeof_T s) = Next tt ->
  exists (evs : list MatMulEvent) (src_data weight_data : ptr),
    mm_events (snd (fst (MatMul_Compute T_name sizeof_T s)))
    = (evs ++ [MatMulExecuted src_data weight_data (InputData kInputIndexBias)
                 (OutputData 0)])%list.
Proof.
  remember (MatMul_Compute T_name sizeof_T s) as r eqn:Hr.
  unfold MatMul_Compute in Hr. unfold bind at 1 in Hr.
  destruct (MatMul_prepare s) as [s1 [l| |e|u]]; try (subst r; discriminate).
  unfold bind at 1 in Hr.
  destruct (MklDnnMatMulFwdPrimitiveFactory_Get (matmul_params l) s1)
    as [s2 [prim| |e|u]]; try (subst r; discriminate).
  unfold bind at 1 in Hr. cbn [mm_allocate_output bind mm_emit ret fst snd] in Hr.
  destruct ((batch l =? 0) || (channel l =? 0)); [subst r; discriminate|].
  unfold try_catch in Hr.
  match type of Hr with
  | context [MatMul_try_block ?a ?b ?c ?d ?f ?st] =>
      destruct (scanning_try_block f ltac:(discriminate) a b c d st)
        as (before & after & Hev & _ & _ & Hend);
      destruct (MatMul_try_block a b c d f st) as [s3 fl]
  end.
  cbn [fst snd] in Hev, Hend.
  destruct Hend as [(_ & src_data & weight_data & -> & ->)
                   | [(e & _ & ->) | (_ & _ & ->)]].
  - subst r. intros _. cbn [fst snd]. rewrite Hev.
    eexists _, src_data, weight_data. rewrite !app_assoc. reflexivity.
  - subst r. unfold report_exception, OP_REQUIRES_OK. cbn. discriminate.
  - subst r. discriminate.
Qed.

(** X16.  A fused matmul call on a kernel whose second fused op is none
    of [Relu], [Relu6], [Elu] and [Gelu] reports an InvalidArgument and
    goes on without a post-op: that status is the status when the call
    ends, and a call that runs to its end has executed the primitive on
    the output. *)
Theorem MatMul_Compute_goes_on_after_unsupported_post_op
    (s s1 : MatMulState * MatMulContext) (l : MatMulLocals) (first op : string) :
  mm_status (snd s) = Status.OK ->
  fused_ops_ (kernel (fst s)) = [first; op] ->
  op ∉ ["Relu"; "Relu6"; "Elu"; "Gelu"] ->
  MatMul_prepare s = (s1, Next l) ->
  let reported :=
    errors.InvalidArgument ("Unsupported post-argument in MklFusedMatMul: " ++ op) in
  let r := MatMul_Compute T_name sizeof_T s in
  mm_status (snd s1) = reported
  /\ mm_post_op_params (matmul_params l) = []
  /\ mm_status (snd (fst r)) = reported
  /\ (snd r = Next tt ->
      exists (evs : list MatMulEvent) (src_data weight_data : ptr),
        mm_events (snd (fst r))
        = (evs ++ [MatMulExecuted src_data weight_data (InputData kInputIndexBias)
                     (OutputData 0)])%list).
Proof.
  intros Hok Hops Hop Hprep reported r.
  assert (Hs1 : mm_status (snd s1) = reported
                /\ mm_post_op_params (matmul_params l) = []).
  { clear r. revert Hprep. destruct s as [st c]. cbn [fst snd] in *.
    unfold MatMul_prepare.
    unfold bind at 1. cbn [mm_input fst snd].
    unfold bind at 1. cbn [mm_input fst snd].
    unfold bind at 1. cbn [mm_input fst snd].
    do 4 (require_step;
          match goal with
          | |- context [if ?b then (st, c, Next tt) else _] => destruct b
          end; [|discriminate]).
    unfold bind at 1. cbn [members fst snd kernel].
    do 2 (require_step;
          match goal with
          | |- context [if ?b then (st, c, Next tt) else _] => destruct b
          end; [|discriminate]).
    unfold ExtendMklDnnMatMulFwdParams. rewrite Hops.
    change (Z.of_nat (length [first; op]) =? 2) with true.
    cbn [nth].
    rewrite !bool_decide_eq_false_2
      by (intros ->; apply Hop; repeat constructor).
    cbn. rewrite Hok. intros [= <- <-]. split; reflexivity. }
  destruct Hs1 as [Hst Hpost].
  split; [exact Hst|]. split; [exact Hpost|]. split.
  - apply (MatMul_Compute_keeps_reported s s1 l _ _ Hprep Hst).
  - apply MatMul_Compute_Next_executed.
Qed.
End MatMulPostOp.

Section GradCtor.
Import MklFusedMatMulGradOp.

(** X17.  The gradient constructor checks the number of fused ops before
    it reads the first: it never reads past the end of the list.  It runs
    to its end exactly when the node has the three attributes and
    [BiasAddGrad] as its only fused op, and the kernel then holds the
    attributes; a list of another length is rejected with an
    InvalidArgument. *)
Theorem MklFusedMatMulGradOp_ctor_accepts (members : t) (a : NodeAttrs) :
  let r := run_ctor members ctor a in
  let k := fst (fst r) in
  (forall u, snd r <> Undefined u)
  /\ (snd r = Next tt
      <-> attr_fused_ops a = Some ["BiasAddGrad"]
          /\ HasAttr (attr_transpose_a a) = true
          /\ HasAttr (attr_transpose_b a) = true)
  /\ (snd r = Next tt ->
      snd (fst r) = Status.OK
      /\ attr_transpose_a a = Some (transpose_a_ k)
      /\ attr_transpose_b a = Some (transpose_b_ k)
      /\ fused_ops_ k = ["BiasAddGrad"])
  /\ (forall ops,
        attr_fused_ops a = Some ops ->
        HasAttr (attr_transpose_a a) = true ->
        HasAttr (attr_transpose_b a) = true ->
        length ops <> 1%nat ->
        snd r = Return_
        /\ snd (fst r)
           = errors.InvalidArgument "MklFusedMatMul must have 1 post-arguments at most.").
Proof.
  intros r k. subst k. remember r as r0 eqn:Er. revert Er. subst r.
  destruct a as [dil pl ep str df pad ifc fo na la ta tb].
  unfold run_ctor, ctor. cbn.
  destruct fo as [ops|]; run;
    [|intros ->; cbn; repeat split; intros; destruct_and?; discriminate].
  destruct ta as [ta|]; run;
    [|intros ->; cbn; repeat split; intros; destruct_and?; discriminate].
  destruct tb as [tb|]; run;
    [|intros ->; cbn; repeat split; intros; destruct_and?; discriminate].
  destruct ops as [|op1 [|op2 ops]].
  2: change (Z.of_nat (length [op1]) =? 1) with true.
  3: replace (Z.of_nat (length (op1 :: op2 :: ops)) =? 1) with false
       by (symmetry; apply Z.eqb_neq; cbn [length]; lia).
  all: run.
  2: case_bool_decide as Hfirst; run.
  all: intros ->; cbn; repeat split; intros; destruct_and?; simplify_eq/=;
    try discriminate; try reflexivity; try congruence; try lia.
Qed.
End GradCtor.

Section GradCompute.
Import MklFusedMatMulGradOp.
Context `{MatMulBwdEngine}.
Variable T_name : string.
Variable sizeof_T : Z.

Lemma reads_run (data : ptr) (n : nat) (s : State * GradContext) :
  reads data n s = ((fst s, add_events (reads_all data n) (snd s)), Next tt).
Proof.
  unfold reads, reads_all, add_events. generalize (seq 0 n). intros l. revert s.
  induction l as [|i l IH]; intros [st c].
  - cbn. rewrite app_nil_r. destruct c; reflexivity.
  - cbn [fold_right map]. unfold bind at 1. cbn [emit fst snd].
    rewrite IH. cbn. rewrite <- app_assoc. reflexivity.
Qed.

(** What [Compute_sizes] does on two matrices. *)
Lemma Compute_sizes_run (s : State * GradContext) (x y rows cols : Z) :
  let src := grad_inputs (snd s) 0 in
  let diff_dst := grad_inputs (snd s) 1 in
  (if IsMklTensor src then GetTfShape src else mm_shape src) = [x; y] ->
  (if IsMklTensor diff_dst then GetTfShape diff_dst else mm_shape diff_dst)
  = [rows; cols] ->
  let batch := to_int (if transpose_a_ (kernel (fst s)) then y else x) in
  let k := to_int (if transpose_a_ (kernel (fst s)) then x else y) in
  Compute_sizes s
  = if batch =? rows then
      if (batch =? 0) || (to_int cols =? 0) then (s, Return_)
      else (s, Next {| src_tensor := src; diff_dst_tensor := diff_dst;
                       batch := batch; k := k; channel := to_int cols |})
    else
      (CtxFailure
         (errors.InvalidArgument
            ("Matrix size-incompatible: In[0]: " ++ DebugString [x; y]
             ++ ", In[1]: " ++ DebugString [rows; cols])) s,
       Return_).
Proof.
  intros src diff_dst Hsrc Hdst batch k. subst batch k src diff_dst.
  unfold Compute_sizes. unfold bind at 1. cbn [input fst snd].
  unfold bind at 1. cbn [input fst snd].
  unfold bind at 1. cbn [members fst snd].
  rewrite Hsrc, Hdst.
  assert (Hdim : forall (v : list Z) (d : Z) (z : Z),
             v !! Z.to_nat d = Some z ->
             dim_size (H1 := H1) v d = ret z).
  { intros v d z Hz. unfold dim_size, subscript. rewrite Hz. reflexivity. }
  destruct (transpose_a_ (kernel (fst s))); cbn [fst snd].
  1: rewrite (Hdim [x; y] (1 - 0) y eq_refl), (Hdim [x; y] 0 x eq_refl).
  2: rewrite (Hdim [x; y] (1 - 1) x eq_refl), (Hdim [x; y] 1 y eq_refl).
  all: unfold bind at 1; cbn [ret]; unfold bind at 1; cbn [ret].
  all: rewrite (Hdim [rows; cols] 1 _ eq_refl); unfold bind at 1; cbn [ret].
  all: rewrite (Hdim [rows; cols] 0 _ eq_refl); unfold bind at 1; cbn [ret].
  all: unfold bind at 1; unfold OP_REQUIRES.
  all: destruct (_ =? rows); [destruct (_ || _)|]; reflexivity.
Qed.

(** X18.  On two matrices, a gradient call whose batch sizes differ
    reports an InvalidArgument whose message names the two shapes, and
    returns; a call with a batch or a channel size of zero returns at
    once.  Either way no output is allocated and the factory is not
    asked.  The sizes are compared as the [int] they are stored in. *)
Theorem MklFusedMatMulGradOp_Compute_without_work (s : State * GradContext)
    (x y rows cols : Z) :
  let src := grad_inputs (snd s) 0 in
  let diff_dst := grad_inputs (snd s) 1 in
  (if IsMklTensor src then GetTfShape src else mm_shape src) = [x; y] ->
  (if IsMklTensor diff_dst then GetTfShape diff_dst else mm_shape diff_dst)
  = [rows; cols] ->
  let batch := to_int (if transpose_a_ (kernel (fst s)) then y else x) in
  let r := Compute T_name sizeof_T s in
  (batch <> rows ->
   r = ((fst s,
         with_status
           (Status.Update (grad_status (snd s))
              (errors.InvalidArgument
                 ("Matrix size-incompatible: In[0]: " ++ DebugString [x; y]
                  ++ ", In[1]: " ++ DebugString [rows; cols])))
           (snd s)),
        Return_))
  /\ (batch = rows -> batch = 0 \/ to_int cols = 0 -> r = (s, Return_)).
Proof.
  intros src diff_dst Hsrc Hdst size r. subst r size.
  pose proof (Compute_sizes_run s x y rows cols Hsrc Hdst) as Hrun.
  cbv zeta in Hrun.
  split.
  - intros Hne. apply (proj2 (Z.eqb_neq _ _)) in Hne. rewrite Hne in Hrun.
    unfold Compute, try_catch. unfold bind at 1. rewrite Hrun. reflexivity.
  - intros Heq Hzero. apply (proj2 (Z.eqb_eq _ _)) in Heq. rewrite Heq in Hrun.
    match type of Hrun with
    | context [(?a =? 0) || (?b =? 0)] =>
        replace ((a =? 0) || (b =? 0)) with true in Hrun
          by (symmetry; apply orb_true_iff; rewrite !Z.eqb_eq; exact Hzero)
    end.
    unfold Compute, try_catch. unfold bind at 1. rewrite Hrun. reflexivity.
Qed.

(** X19.  No backend exception leaves a gradient call.  When the
    factory throws, the call ends by returning with an Aborted status, and
    no output has been allocated. *)
Theorem MklFusedMatMulGradOp_Compute_reports_every_exception
    (s : State * GradContext) :
  (forall e, snd (Compute T_name sizeof_T s) <> Raise e)
  /\ (forall s1 l p e,
        Compute_sizes s = (s1, Next l) ->
        MklDnnMatMulBwdFilterPrimitiveFactory_Get (matmul_params (kernel (fst s1)) l)
          (pool (fst s1)) = (p, inl e) ->
        Compute T_name sizeof_T s
        = (({| kernel := kernel (fst s1); pool := p |},
            with_status
              (Status.Update (grad_status (snd s1))
                 (errors.Aborted
                    ("Operation received an exception:" ++ error_msg e "1527")))
              (snd s1)),
           Return_)).
Proof.
  split.
  - intros e. unfold Compute, try_catch.
    destruct (bind _ _ s) as [s' [[]| |e'|u]]; cbn; try discriminate.
  - intros s1 l p e Hsizes Hget. unfold Compute, try_catch.
    unfold bind at 1. rewrite Hsizes. unfold Compute_primitive.
    unfold bind at 1. cbn [members fst snd].
    unfold bind at 1. unfold Get. rewrite Hget. reflexivity.
Qed.

End GradCompute.


(** * Concrete runs *)

Import Reference.


(** C5, counterexample.  The empty fusion set and the set of a bias add and
    an activation are both enumerated as legal; the fused convolution
    constructor rejects the empty list, with an InvalidArgument, and the
    list that names the activation before the bias add, and the fused
    depthwise constructor rejects an activation alone. *)
Lemma MklFusedConvOp_rejects_enumerated_sets :
  enumerated [] = true
  /\ ctor_status (MklConvOp_members false false) (MklFusedConvOp_ctor false)
       (fused_attrs conv2d_attrs [] 0)
     = errors.InvalidArgument "Fused Conv2D must have at least one fused op."
  /\ enumerated ["Relu"; "BiasAdd"] = true
  /\ ctor_status (MklConvOp_members false false) (MklFusedConvOp_ctor false)
       (fused_attrs conv2d_attrs ["Relu"; "BiasAdd"] 1)
     = errors.Unimplemented "Fusion is not implemented: [Relu,BiasAdd]"
  /\ enumerated ["Relu"] = true
  /\ ctor_status (MklConvOp_members true false) (MklFusedDepthwiseConvOp_ctor false)
       (fused_attrs conv2d_attrs ["Relu"] 1)
     = errors.Unimplemented "Fusion is not implemented: [Relu]".
Proof. repeat split; vm_compute; reflexivity. Qed.

Import Example.

(** C6, counterexample.  A primitive built with a bias, on an engine whose
    compute call throws: [Execute] ends with the exception, and every slot is
    still bound to the buffer it was given. *)
Lemma Execute_throw_leaves_slots_bound :
  let E := conv_failing in
  let p := {| src_mem := DummyData; filter_mem := DummyData;
              bias_mem := Some DummyData; dst_mem := DummyData;
              fwd_pd := conv_descriptor |} in
  let r := Execute (InputData 0) (InputData 1) (InputData 2) (OutputData 0) p in
  unbound p
  /\ snd r = Raise boom
  /\ src_mem (fst r) = InputData 0
  /\ filter_mem (fst r) = InputData 1
  /\ bias_mem (fst r) = Some (InputData 2)
  /\ dst_mem (fst r) = OutputData 0.
Proof. cbv zeta. unfold unbound. cbn. repeat split; auto. Qed.

(** C1, on the code.  Two calls of the convolution kernel, one after the
    other, on the same inputs: each builds the primitive, for the same
    descriptor. *)
Lemma MklConvOp_Compute_builds_on_every_call :
  builds (call_events (first_call (E := engine))) = [PrimitiveBuilt conv_descriptor]
  /\ builds (call_events (second_call (E := engine))) = [PrimitiveBuilt conv_descriptor].
Proof. split; reflexivity. Qed.

(** C8, witness.  On an engine that refuses to build the primitive, the
    fused matmul [Compute] ends with the exception in flight and an OK
    status; the convolution [Compute] on such an engine, and the fused
    matmul [Compute] on an engine whose execution throws, end by returning
    with an Aborted status. *)
Lemma MklFusedMatMulOp_Compute_build_exception_escapes_witness :
  MatMul_Compute (H1 := refusing) "f" 4
    (matmul_start refusing None, matmul_context matmul_inputs [])
  = ((matmul_start refusing None, matmul_context matmul_inputs []), Raise boom)
  /\ (let r := conv_call (E := conv_refusing) false false conv_inputs conv_kernel in
      Status.code (snd (fst r)) = Some Status.ABORTED /\ snd r = Return_)
  /\ (let r := matmul_call failing matmul_inputs (matmul_start failing None) in
      Status.code (snd (fst r)) = Some Status.ABORTED /\ snd r = Return_).
Proof.
  split; [|cbv zeta; repeat split; reflexivity].
  refine (proj1 (MklFusedMatMulOp_Compute_build_exception_escapes (H1 := refusing) "f" 4
            (matmul_start refusing None, matmul_context matmul_inputs [])
            (matmul_start refusing None, matmul_context matmul_inputs [])
            {| src_tensor := matrix [2; 3]; batch := 2; channel := 4;
               l_src_dims := [2; 3]; l_weight_dims := [4; 3];
               l_src_format := nc; l_weight_format := io;
               matmul_params := matmul_descriptor |} _) boom _ _); reflexivity.
Defined.









(** * Further concrete runs *)

Import Cases.

(** X1, witness.  The primitive of the 2x2 convolution, set up without bias
    dimensions: executed with a bias it dereferences a null pointer,
    executed without one it runs to its end. *)
Lemma Setup_then_Execute_witness :
  let E := engine in
  let p := {| src_mem := DummyData; filter_mem := DummyData; bias_mem := None;
              dst_mem := DummyData; fwd_pd := conv_descriptor |} in
  Setup conv_descriptor = inr p
  /\ snd (Execute (InputData 0) (InputData 1) (InputData 2) (OutputData 0) p)
     = Undefined NullDereference
  /\ snd (Execute_no_bias (InputData 0) (InputData 1) (OutputData 0) p) = Next tt.
Proof.
  intros E p. split; [reflexivity|].
  pose proof (Setup_then_Execute (H1 := E) conv_descriptor p
                (InputData 0) (InputData 1) (InputData 2) (OutputData 0) eq_refl)
    as Hthm.
  cbv zeta in Hthm. destruct Hthm as (_ & _ & _ & Hnull & _ & _).
  split; [|reflexivity].
  apply Hnull. split; [discriminate|reflexivity].
Defined.

(** X5, witness.  The NHWC kernel with the padding list 0,0,1,2,3,4,0,0: the
    padding is 1 and 3 on the left, 2 and 4 on the right. *)
Lemma PadWithConvFusion_by_layout_witness :
  let E := engine in
  let r := PadWithConvFusion [] [] true (padded_kernel, fresh_context conv_inputs) in
  fst r = (padded_kernel, fresh_context conv_inputs)
  /\ snd r = Next ([1; 3], [2; 4]).
Proof.
  intros E r.
  pose proof (PadWithConvFusion_by_layout (H1 := E) padded_kernel
                (fresh_context conv_inputs) [] [] true [0; 0; 1; 2; 3; 4; 0; 0]
                eq_refl) as Hthm.
  destruct Hthm as (Hstate & Hnhwc & _).
  - repeat constructor; unfold fits_int; lia.
  - split; [exact Hstate|]. exact (Hnhwc eq_refl).
Defined.

(** X8, witness.  The convolution kernel over a constant 2x2 filter: the
    first call converts and caches the filter, the next one takes it from
    the cache. *)
Lemma Compute_filter_data_round_trip_witness :
  let E := engine in
  let filter_md : Desc := ([1; 1; 2; 2], "f", hwio) in
  let wanted : Desc := ([1; 1; 2; 2], "f", blocked 8) in
  let converted := OpMemData filter_md wanted (InputData 1) in
  let c := fresh_context conv_inputs in
  let k1 := with_cached_filter float_types conv_descriptor filter_md conv_kernel in
  Compute_filter_data float_types conv_descriptor filter_md (conv_kernel, c)
  = ((k1, add_event (PersistentAllocated [696])
            (add_event (PersistentAllocated [4])
               (add_event (Reordered filter_md wanted (InputData 1) converted) c))),
     Next CachedFilterData)
  /\ cache_holds wanted k1
  /\ Compute_filter_data float_types conv_descriptor filter_md (k1, c)
     = ((k1, c), Next CachedFilterData).
Proof.
  intros E filter_md wanted converted c k1.
  refine (Compute_filter_data_round_trip (H1 := E) float_types conv_descriptor
            filter_md conv_kernel c c _ _ _ _ _ _).
  - reflexivity.
  - discriminate.
  - reflexivity.
  - reflexivity.
  - split; reflexivity.
  - reflexivity.
Defined.

(** X3, witness.  The convolution kernel called on a context that carries an
    InvalidArgument. *)
Lemma Compute_does_nothing_after_an_error_witness :
  let E := engine in
  let s := (conv_kernel, failed_context conv_inputs) in
  let r := Compute float_types false false s in
  fst r = s /\ (snd r = Return_ \/ snd r = Undefined OutOfBounds).
Proof.
  intros E s r.
  refine (Compute_does_nothing_after_an_error (H1 := E) float_types false false
            conv_kernel (failed_context conv_inputs) _).
  discriminate.
Defined.

(** X4, witness.  The kernel that fuses a pad, called with a paddings input
    of rank 1. *)
Lemma Compute_rejects_paddings_of_wrong_rank_witness :
  let E := engine in
  let c := fresh_context conv_inputs in
  exists msg,
    Compute float_types true false (pad_kernel, c)
    = ((pad_kernel, with_status (errors.InvalidArgument msg) c), Return_).
Proof.
  intros E c.
  refine (Compute_rejects_paddings_of_wrong_rank (H1 := E) float_types true false
            pad_kernel c _ _ _ _).
  - reflexivity.
  - reflexivity.
  - reflexivity.
  - discriminate.
Defined.

(** X6, witness.  A depthwise call on the kernel over five dimensions. *)
Lemma Compute_rejects_before_building_witness :
  let E := engine in
  let c := fresh_context conv_inputs in
  Compute float_types false true (conv3d_kernel, c)
  = ((conv3d_kernel,
      with_status
        (errors.InvalidArgument "Only 2D convolution is supported for depthwise.") c),
     Return_).
Proof.
  intros E c.
  refine (Compute_rejects_before_building (H1 := E) float_types false true
            conv3d_kernel c (conv3d_kernel, c) [1; 3; 3; 1] conv_sizes_2x2 _ _ _ _).
  - reflexivity.
  - reflexivity.
  - reflexivity.
Defined.

(** X7, witness.  The kernel with a fused bias add, called with a bias of
    rank 2 on an engine whose size helper rejects it. *)
Lemma Compute_bias_without_dims_dereferences_null_witness :
  let E := strict_engine in
  let c := fresh_context matrix_bias_inputs in
  let r := Compute float_types false false (bias_kernel, c) in
  snd r = Undefined NullDereference
  /\ ctx_status (snd (fst r)) = errors.InvalidArgument "Bias must be 1-dimensional"
  /\ exists convFwdDims evs,
       bias_dims convFwdDims = []
       /\ events (snd (fst r)) = (events c ++ PrimitiveBuilt convFwdDims :: evs)%list.
Proof.
  intros E c.
  pose proof (Compute_bias_without_dims_dereferences_null (H1 := E) float_types
                false false (fun _ _ _ => eq_refl) bias_kernel c (bias_kernel, c)
                [1; 3; 3; 1] conv_sizes_2x2
                (errors.InvalidArgument "Bias must be 1-dimensional")) as Hthm.
  cbv zeta in Hthm. destruct Hthm as (Hnull & Hstatus & Hevents).
  - reflexivity.
  - reflexivity.
  - reflexivity.
  - reflexivity.
  - discriminate.
  - reflexivity.
  - intros convFwdDims. exists convFwdDims. reflexivity.
  - intros Hne. exfalso. apply Hne. reflexivity.
  - split; [exact Hnull|]. split; [|exact Hevents].
    apply Hstatus. left. discriminate.
Defined.

(** X12, witness.  The kernel of the class that fuses a pad, with the fused
    ops BiasAdd and Relu. *)
Lemma MklFusedConvOp_post_ops_witness :
  let a := fused_attrs conv2d_attrs ["BiasAdd"; "Relu"] 1 in
  let k := fst (construct (MklConvOp_members false false) (MklFusedConvOp_ctor true) a) in
  fuse_biasadd_ k = true
  /\ fuse_pad_ k = true
  /\ input_index_pad_ k = 3
  /\ post_op_params (ExtendConvFwdParams float_types k conv_descriptor)
     = [{| po_name := "activation"; po_alg := eltwise_relu;
           po_param := [1%float; 0%float; 0%float]; po_partial_key := "" |}].
Proof.
  intros a k.
  pose proof (MklFusedConvOp_post_ops true a ["BiasAdd"; "Relu"] eq_refl eq_refl)
    as Hthm.
  cbv zeta in Hthm. destruct Hthm as (Hbias & Hpad & Hindex & Hpost).
  split; [exact Hbias|]. split; [exact Hpad|]. split; [exact Hindex|].
  exact (Hpost float_types conv_descriptor).
Defined.

(** X13, witness.  The depthwise kernel with the fused ops BiasAdd and
    Relu6. *)
Lemma MklFusedDepthwiseConvOp_post_ops_witness :
  let a := fused_attrs conv2d_attrs ["BiasAdd"; "Relu6"] 1 in
  let k := fst (construct (MklConvOp_members true false)
                  (MklFusedDepthwiseConvOp_ctor false) a) in
  fuse_biasadd_ k = true
  /\ fuse_add_ k = false
  /\ fuse_pad_ k = false
  /\ input_index_pad_ k = 2
  /\ post_op_params (ExtendConvFwdParams float_types k conv_descriptor)
     = [{| po_name := "activation"; po_alg := eltwise_bounded_relu;
           po_param := [1%float; 6%float; 0%float]; po_partial_key := "" |}].
Proof.
  intros a k.
  pose proof (MklFusedDepthwiseConvOp_post_ops true false a ["BiasAdd"; "Relu6"]
                eq_refl eq_refl) as Hthm.
  cbv zeta in Hthm. destruct Hthm as (Hbias & Hadd & Hpad & Hindex & Hpost).
  split; [exact Hbias|]. split; [exact Hadd|]. split; [exact Hpad|].
  split; [exact Hindex|].
  exact (Hpost float_types conv_descriptor).
Defined.

(** X2, witness.  The convolution kernel built from the attributes of a 2-D
    convolution. *)
Lemma MklConvOp_ctor_stores_attributes_witness :
  attr_strides conv2d_attrs = Some (strides_ conv_kernel)
  /\ attr_dilations conv2d_attrs = Some (dilations_ conv_kernel)
  /\ attr_padding conv2d_attrs = Some (padding_ conv_kernel)
  /\ (exists data_format,
        attr_data_format conv2d_attrs = Some data_format
        /\ FormatFromString data_format = Some (data_format_ conv_kernel))
  /\ is_filter_const_ conv_kernel = true
  /\ padding_list_ conv_kernel = [].
Proof.
  exact (MklConvOp_ctor_stores_attributes (MklConvOp_members false false)
           conv2d_attrs eq_refl).
Defined.

(** X15, witness.  The product of a 2x3 and a 3x4 matrix with 4 biases is
    accepted, and the primitive is asked for the weight as 4x3. *)
Lemma MatMul_Compute_checks_inputs_first_witness :
  let s := (matmul_start working None, matmul_context matmul_inputs []) in
  matmul_inputs_accepted matmul_kernel (snd s) = true
  /\ exists s1 l,
       MatMul_prepare s = (s1, Next l)
       /\ mm_src_dims (matmul_params l) = [2; 3]
       /\ mm_weight_dims (matmul_params l) = [4; 3]
       /\ mm_bias_dims (matmul_params l) = [4]
       /\ mm_dst_dims (matmul_params l) = [2; 4]
       /\ mm_weight_format (matmul_params l) = any.
Proof.
  intros s. split; [reflexivity|].
  destruct (proj1 (proj2 (MatMul_Compute_checks_inputs_first (H1 := working) "f" 4 s))
              eq_refl)
    as (s1 & l & rows & inner & w0 & w1 & Hprep & _ & _ & Hsrc & Hweight & _ & Hdims).
  injection Hsrc as <- <-. injection Hweight as <- <-.
  exists s1, l. split; [exact Hprep|]. exact Hdims.
Defined.

(** X16, witness.  The kernel with the fused ops BiasAdd and Tanh, on the
    engine on which every backend call succeeds: the call runs to its end,
    with the InvalidArgument as its status and the primitive executed. *)
Lemma MatMul_Compute_goes_on_after_unsupported_post_op_witness :
  let s := (tanh_state working None, matmul_context matmul_inputs []) in
  let reported :=
    errors.InvalidArgument "Unsupported post-argument in MklFusedMatMul: Tanh" in
  let r := MatMul_Compute "f" 4 s in
  snd r = Next tt
  /\ mm_status (snd (fst r)) = reported
  /\ exists (evs : list MatMulEvent) (src_data weight_data : ptr),
       mm_events (snd (fst r))
       = (evs ++ [MatMulExecuted src_data weight_data (InputData kInputIndexBias)
                    (OutputData 0)])%list.
Proof.
  intros s reported r.
  pose proof (MatMul_Compute_goes_on_after_unsupported_post_op (H1 := working)
                "f" 4 s
                (tanh_state working None,
                 {| mm_inputs := matmul_inputs; mm_status := reported;
                    mm_events := [] |})
                {| src_tensor := matrix [2; 3]; batch := 2; channel := 4;
                   l_src_dims := [2; 3]; l_weight_dims := [4; 3];
                   l_src_format := nc; l_weight_format := io;
                   matmul_params := matmul_descriptor |}
                "BiasAdd" "Tanh" eq_refl eq_refl) as Hthm.
  cbv zeta in Hthm. destruct Hthm as (_ & _ & Hstatus & Hexecuted).
  - intros Hin.
    repeat (apply elem_of_cons in Hin; destruct Hin as [Hin|Hin];
            [discriminate Hin|]).
    apply elem_of_nil in Hin. exact Hin.
  - reflexivity.
  - split; [reflexivity|]. split; [exact Hstatus|].
    apply Hexecuted. reflexivity.
Defined.

(** X18, witness.  The gradient kernel on a matrix of no row: the call
    returns and the state is as it was. *)
Lemma MklFusedMatMulGradOp_Compute_without_work_witness :
  let s := grad_start grad_working tt grad_inputs_empty in
  MklFusedMatMulGradOp.Compute "f" 4 s = (s, Return_).
Proof.
  intros s.
  refine (proj2 (MklFusedMatMulGradOp_Compute_without_work (H1 := grad_working)
                   "f" 4 s 0 3 0 4 eq_refl eq_refl) eq_refl _).
  left. reflexivity.
Defined.

(** X19, witness.  The gradient kernel on an engine whose factory throws:
    the call returns with an Aborted status and has allocated nothing. *)
Lemma MklFusedMatMulGradOp_Compute_reports_every_exception_witness :
  let s := grad_start grad_refusing tt grad_inputs_2x3 in
  MklFusedMatMulGradOp.Compute "f" 4 s
  = ((fst s,
      MklFusedMatMulGradOp.with_status
        (errors.Aborted
           ("Operation received an exception:" ++ error_msg boom "1527"))
        (snd s)),
     Return_).
Proof.
  intros s.
  refine (proj2 (MklFusedMatMulGradOp_Compute_reports_every_exception
                   (H1 := grad_refusing) "f" 4 s)
            s {| MklFusedMatMulGradOp.src_tensor := matrix [2; 3];
                 MklFusedMatMulGradOp.diff_dst_tensor := matrix [2; 4];
                 MklFusedMatMulGradOp.batch := 2;
                 MklFusedMatMulGradOp.k := 3;
                 MklFusedMatMulGradOp.channel := 4 |} tt boom _ _).
  - reflexivity.
  - reflexivity.
Defined.


(** X11, witness.  The convolution kernel on an engine whose execution
    throws: the call returns having built one primitive and deleted none. *)
Lemma Compute_deletes_primitive_on_normal_exit_only_witness :
  let r := Compute (H1 := conv_failing) float_types false false
             (conv_kernel, fresh_context conv_inputs) in
  (forall e, snd r <> Raise e)
  /\ snd r = Return_
  /\ count_built (events (snd (fst r))) = 1%nat
  /\ count_deleted (events (snd (fst r))) = 0%nat.
Proof.
  intros r.
  split; [|repeat split; reflexivity].
  exact (proj1 (Compute_deletes_primitive_on_normal_exit_only (H1 := conv_failing)
                  float_types false false (conv_kernel, fresh_context conv_inputs))).
Defined.
